(** * Bare-Metal Test framework (BMT): a shallow embedding of the core

    The development follows [src/src/bmt_runner.c] and the macros of
    [src/include/baremetal_test.h]:

    - machine integers are [Z] with the wrap-around written out;
    - C strings are lists of [ascii] characters, character buffers are
      lists updated by index;
    - the platform collaborator ([bmt_platform_io.h]) is a record holding
      the text emitted so far and the tick source;
    - a test body is a state transformer that either returns, performs the
      [longjmp] of [bmt_terminate_current_test], or runs into behaviour that
      C leaves undefined. *)

From Stdlib Require Import ZArith Zquot Ascii String List Lia Bool.
From stdpp Require Import base tactics option list.
Import ListNotations.
Local Open Scope Z_scope.

(** ** Machine integers *)

(** Two's complement reduction of [z] to a signed integer of [bits] bits. *)
Definition wrap_signed (bits z : Z) : Z :=
  (z + 2 ^ (bits - 1)) mod 2 ^ bits - 2 ^ (bits - 1).

(** [uint32_t] arithmetic is performed modulo [2^32]. *)
Definition uint32_t (z : Z) : Z := z mod 2 ^ 32.

(** [int] is 32 bits wide on the targets of the framework. *)
Definition int (z : Z) : Z := wrap_signed 32 z.

(** ** Characters, C strings and buffers *)

Definition NUL : ascii := "000"%char.

(** A string literal, without its terminator. *)
Definition text (s : string) : list ascii := list_ascii_of_string s.

(** The two characters of ["\r\n"]. *)
Definition CRLF : list ascii := ["013"%char; "010"%char].

Definition is_nul (c : ascii) : bool := Ascii.eqb c NUL.

(** The C string stored at the start of a buffer: the characters before the
    first NUL.  A buffer without terminator would be read past its end by
    the C code; the model stops at the end of the buffer. *)
Fixpoint c_string (buf : list ascii) : list ascii :=
  match buf with
  | [] => []
  | c :: rest => if is_nul c then [] else c :: c_string rest
  end.

Definition strlen (buf : list ascii) : Z := Z.of_nat (length (c_string buf)).

(** [arr[p] = x].  A store outside the array is undefined behaviour:
    [None]. *)
Definition store {A} (arr : list A) (p : Z) (x : A) : option (list A) :=
  if (0 <=? p) && (p <? Z.of_nat (length arr))
  then Some (<[Z.to_nat p := x]> arr)
  else None.

(** [arr[p]] read; [None] outside the array. *)
Definition load {A} (arr : list A) (p : Z) : option A :=
  if 0 <=? p then arr !! Z.to_nat p else None.

(** [strcpy(buf + p, s)]: the characters of [s], then the terminator. *)
Fixpoint strcpy_at (buf : list ascii) (p : Z) (s : list ascii)
  : option (list ascii) :=
  match s with
  | [] => store buf p NUL
  | c :: s' =>
      match store buf p c with
      | Some buf' => strcpy_at buf' (p + 1) s'
      | None => None
      end
  end.

Definition strcpy (buf s : list ascii) : option (list ascii) :=
  strcpy_at buf 0 s.

Definition strcat (buf s : list ascii) : option (list ascii) :=
  strcpy_at buf (strlen buf) s.

(** [strncat(buf, s, n)] appends at most [n] characters of [s] and always
    a terminator. *)
Definition strncat (buf s : list ascii) (n : Z) : option (list ascii) :=
  strcpy_at buf (strlen buf) (take (Z.to_nat n) s).

(** An automatic [char] array of [n] elements.  C leaves its contents
    indeterminate; the functions below write before they read. *)
Definition char_array (n : nat) : list ascii := repeat NUL n.

(** [(t % 10) + '0'] stored into a [char]. *)
Definition digit_char (d : Z) : ascii :=
  ascii_of_N (Z.to_N ((d + 48) mod 256)).

(** ** The platform collaborator and the run state *)

(** What [bmt_platform_io.h] gives access to, and the global flag of the
    EXPECT macros.  The tick counter is driven by the environment:
    [tick_source k] is what the [k]-th call of
    [bmt_platform_get_msec_ticks] reads. *)
Record run_state : Type := {
  output : list ascii;
  tick_source : nat -> Z;
  tick_reads : nat;
  g_bmt_current_test_failed_expect : bool
}.

Definition emit (s : list ascii) (st : run_state) : run_state :=
  {| output := output st ++ s;
     tick_source := tick_source st;
     tick_reads := tick_reads st;
     g_bmt_current_test_failed_expect := g_bmt_current_test_failed_expect st |}.

Definition set_failed_expect (b : bool) (st : run_state) : run_state :=
  {| output := output st;
     tick_source := tick_source st;
     tick_reads := tick_reads st;
     g_bmt_current_test_failed_expect := b |}.

Definition tick (st : run_state) : run_state :=
  {| output := output st;
     tick_source := tick_source st;
     tick_reads := S (tick_reads st);
     g_bmt_current_test_failed_expect := g_bmt_current_test_failed_expect st |}.

(** How a piece of C code ends: it returns a value, it leaves through
    [longjmp(g_bmt_assert_jmp_buf, 1)], or it runs into behaviour that C
    leaves undefined (after which nothing is known). *)
Inductive result (A : Type) : Type :=
| Returned (a : A) (st : run_state)
| LongJmp (st : run_state)
| Undefined.
Arguments Returned {A} a st.
Arguments LongJmp {A} st.
Arguments Undefined {A}.

Definition M (A : Type) : Type := run_state -> result A.

Definition ret {A} (a : A) : M A := fun st => Returned a st.

Definition bind {A B} (m : M A) (k : A -> M B) : M B :=
  fun st =>
    match m st with
    | Returned a st' => k a st'
    | LongJmp st' => LongJmp st'
    | Undefined => Undefined
    end.

Notation "x <- m ;; k" := (bind m (fun x => k))
  (at level 100, m at next level, right associativity).
Notation "m ;; k" := (bind m (fun _ => k))
  (at level 100, right associativity).

(** A test function, [void f(void)]. *)
Definition body : Type := M unit.

(** Undefined behaviour of a helper that works on a local buffer. *)
Definition defined {A} (o : option A) : M A :=
  fun st => match o with Some a => Returned a st | None => Undefined end.

(** Assignment to, and read of, [g_bmt_current_test_failed_expect]. *)
Definition write_failed_expect (b : bool) : M unit :=
  fun st => Returned tt (set_failed_expect b st).
Definition read_failed_expect : M bool :=
  fun st => Returned (g_bmt_current_test_failed_expect st) st.

(** The four functions of [bmt_platform_io.h].  The initialisation has
    no effect that the core can observe. *)
Definition bmt_platform_io_init : M unit := ret tt.
Definition bmt_platform_putchar (c : ascii) : M unit :=
  fun st => Returned tt (emit [c] st).
Definition bmt_platform_puts (str : list ascii) : M unit :=
  fun st => Returned tt (emit str st).
Definition bmt_platform_get_msec_ticks : M Z :=
  fun st => Returned (uint32_t (tick_source st (tick_reads st))) (tick st).

Section BMT.

(** Width of the C type [long]: 32 on the Zynq-7000 example platform
    (ILP32), 64 on LP64 hosts. *)
Variable LONG_BITS : Z.

Definition long (z : Z) : Z := wrap_signed LONG_BITS z.

Definition LONG_MIN : Z := - 2 ^ (LONG_BITS - 1).
Definition LONG_MAX : Z := 2 ^ (LONG_BITS - 1) - 1.

(** ** bmt_itoa *)

(** Iterations granted to the two digit loops of [bmt_itoa]: every
    iteration divides by ten, so the width of [long] is more than
    enough. *)
Definition itoa_fuel : nat := Z.to_nat LONG_BITS.

(** [while (temp > 0) { temp /= 10; num_digits++; }] *)
Fixpoint count_digits (fuel : nat) (temp num_digits : Z) : Z :=
  match fuel with
  | O => num_digits
  | S fuel' =>
      if 0 <? temp
      then count_digits fuel' (Z.quot temp 10) (int (num_digits + 1))
      else num_digits
  end.

(** [while (t > 0) { *p-- = (t % 10) + '0'; t /= 10; }] *)
Fixpoint write_digits (fuel : nat) (t p : Z) (buf : list ascii)
  : option (list ascii) :=
  match fuel with
  | O => Some buf
  | S fuel' =>
      if 0 <? t
      then match store buf p (digit_char (Z.rem t 10)) with
           | Some buf' => write_digits fuel' (Z.quot t 10) (p - 1) buf'
           | None => None
           end
      else Some buf
  end.

(** [static void bmt_itoa(long val, char* buf, int radix)]; the result is
    the buffer after the call, [None] when the function writes outside
    it.  The negation [t = -t] overflows for [LONG_MIN]; C leaves that
    undefined, the model wraps as the two's complement targets do. *)
Definition bmt_itoa (val : Z) (buf : list ascii) (radix : Z)
  : option (list ascii) :=
  if negb (radix =? 10) then strcpy buf (text "radix_err")
  else if val =? 0 then strcpy buf (text "0")
  else
    let p := 0 in
    let t := val in
    match (if val <? 0
           then match store buf p "-"%char with
                | Some buf' => Some (long (- t), p + 1, buf')
                | None => None
                end
           else Some (t, p, buf)) with
    | None => None
    | Some (t, p, buf) =>
        let num_digits := count_digits itoa_fuel t 0 in
        let p := p + num_digits in
        match store buf p NUL with
        | None => None
        | Some buf =>
            let p := p - 1 in
            write_digits itoa_fuel t p buf
        end
    end.

(** [char b[size]; bmt_itoa(val, b, 10); bmt_platform_puts(b);] *)
Definition itoa_puts (size : nat) (val : Z) : M unit :=
  b <- defined (bmt_itoa val (char_array size) 10) ;;
  bmt_platform_puts (c_string b).

(** ** bmt_report_failure *)

(** A variadic argument as the caller pushed it: a [const char*] (possibly
    NULL), a [long], or a value of another type ([%p], [%u], [%g]
    arguments of the macros). *)
Inductive va_value : Type :=
| VaStr (s : option (list ascii))
| VaLong (v : Z)
| VaOther.

(** The message loop of [bmt_report_failure].  The pointer [p] is the part
    of the character array that starts where it points; reading [*p] when
    nothing is left is a read outside the array.  [va_arg] with a type
    that does not match the next argument, or without one, is undefined.
    The loop stops at [p] when [*p] is the terminator and hands back [p]
    and the unread arguments. *)
Fixpoint format_loop (p : list ascii) (args : list va_value)
  : M (list ascii * list va_value) :=
  match p with
  | [] => fun _ => Undefined
  | c :: p1 =>
      if is_nul c then ret (p, args)
      else if Ascii.eqb c "%" then
        (* p++ *)
        match p1 with
        | [] => fun _ => Undefined
        | d :: p2 =>
            if Ascii.eqb d "s" then
              match args with
              | VaStr s_arg :: args' =>
                  bmt_platform_puts
                    (match s_arg with
                     | Some str => str
                     | None => text "(null)"
                     end) ;;
                  format_loop p2 args'
              | _ => fun _ => Undefined
              end
            else if Ascii.eqb d "l" then
              match p2 with
              | [] => fun _ => Undefined
              | e :: p3 =>
                  if Ascii.eqb e "d" then
                    match args with
                    | VaLong d_arg :: args' =>
                        itoa_puts 20 d_arg ;;
                        (* p++ inside the branch, p++ at the end *)
                        format_loop p3 args'
                    | _ => fun _ => Undefined
                    end
                  else
                    bmt_platform_putchar "%" ;;
                    bmt_platform_putchar d ;;
                    format_loop p2 args
              end
            else
              bmt_platform_putchar "%" ;;
              bmt_platform_putchar d ;;
              format_loop p2 args
        end
      else
        bmt_platform_putchar c ;;
        format_loop p1 args
  end.

(** The line [  <assertion_type>(<expression>)\r\n] as it is assembled in
    [char buffer[256]].  The bound of [strncat] is computed in [size_t],
    at least 32 bits wide and unsigned. *)
Definition failure_line (assertion_type expression : list ascii)
  : option (list ascii) :=
  buffer ← strcpy (char_array 256) (text "  ");
  buffer ← strcat buffer assertion_type;
  buffer ← strcat buffer (text "(");
  buffer ← strncat buffer expression ((256 - strlen buffer - 2) mod 2 ^ 32);
  buffer ← strcat buffer (text ")" ++ CRLF);
  Some buffer.

(** [void bmt_report_failure(file, line, assertion_type, expression,
    msg_fmt, ...)].  [msg_fmt] is [None] for a NULL pointer, otherwise the
    character array it points into. *)
Definition bmt_report_failure (file : list ascii) (line : Z)
    (assertion_type expression : list ascii)
    (msg_fmt : option (list ascii)) (args : list va_value) : M unit :=
  bmt_platform_puts file ;;
  bmt_platform_putchar ":" ;;
  itoa_puts 12 (long line) ;;
  bmt_platform_puts (text ": Failure" ++ CRLF) ;;
  buffer <- defined (failure_line assertion_type expression) ;;
  bmt_platform_puts (c_string buffer) ;;
  match msg_fmt with
  | Some fmt =>
      bmt_platform_puts (text "    Message: ") ;;
      _ <- format_loop fmt args ;;
      bmt_platform_puts CRLF
  | None => ret tt
  end.

(** [void bmt_terminate_current_test(void)]: [longjmp] to the runner. *)
Definition bmt_terminate_current_test : M unit := fun st => LongJmp st.

(** ** The macros of [baremetal_test.h] *)

(** The array a string literal denotes. *)
Definition literal (s : list ascii) : list ascii := s ++ [NUL].

(** [BMT_ASSERT_COMMON(condition, assertion_type, expr_str, ...)], used at
    line [line] of file [file]; the variadic part is the message format
    and its arguments. *)
Definition BMT_ASSERT_COMMON (file : list ascii) (line : Z) (condition : bool)
    (assertion_type expr_str : list ascii)
    (msg_fmt : option (list ascii)) (args : list va_value) : M unit :=
  if negb condition then
    bmt_report_failure file line assertion_type expr_str msg_fmt args ;;
    bmt_terminate_current_test (* longjmp *)
  else ret tt.

(** [BMT_EXPECT_COMMON(condition, assertion_type, expr_str, ...)] *)
Definition BMT_EXPECT_COMMON (file : list ascii) (line : Z) (condition : bool)
    (assertion_type expr_str : list ascii)
    (msg_fmt : option (list ascii)) (args : list va_value) : M unit :=
  if negb condition then
    bmt_report_failure file line assertion_type expr_str msg_fmt args ;;
    write_failed_expect true
  else ret tt.

(** [ASSERT_TRUE(condition)]; [expr] is the stringified argument. *)
Definition ASSERT_TRUE file line (condition : bool) (expr : list ascii) : M unit :=
  BMT_ASSERT_COMMON file line condition (text "ASSERT_TRUE") expr None [].

(** [EXPECT_TRUE(condition)] *)
Definition EXPECT_TRUE file line (condition : bool) (expr : list ascii) : M unit :=
  BMT_EXPECT_COMMON file line condition (text "EXPECT_TRUE") expr None [].

(** [ASSERT_EQ(val1, val2)]; [e1] and [e2] are the stringified operands. *)
Definition ASSERT_EQ file line (val1 val2 : Z) (e1 e2 : list ascii) : M unit :=
  BMT_ASSERT_COMMON file line (long val1 =? long val2) (text "ASSERT_EQ")
    (e1 ++ text " == " ++ e2)
    (Some (literal (text "Expected: %ld, Actual: %ld")))
    [VaLong (long val1); VaLong (long val2)].

(** [EXPECT_EQ(val1, val2)] *)
Definition EXPECT_EQ file line (val1 val2 : Z) (e1 e2 : list ascii) : M unit :=
  BMT_EXPECT_COMMON file line (long val1 =? long val2) (text "EXPECT_EQ")
    (e1 ++ text " == " ++ e2)
    (Some (literal (text "Expected: %ld, Actual: %ld")))
    [VaLong (long val1); VaLong (long val2)].

(** [FAIL()] *)
Definition FAIL file line : M unit :=
  BMT_ASSERT_COMMON file line false (text "FAIL")
    (text "Explicit failure triggered by FAIL()") None [].

(** [ADD_FAILURE()]: a bare call of [bmt_report_failure]. *)
Definition ADD_FAILURE file line : M unit :=
  bmt_report_failure file line (text "ADD_FAILURE")
    (text "Explicit failure triggered by ADD_FAILURE()") None [].

(** [SUCCEED()] *)
Definition SUCCEED (file : list ascii) : M unit :=
  bmt_platform_puts file ;;
  bmt_platform_putchar ":" ;;
  bmt_platform_puts (text ": SUCCEED()" ++ CRLF).

(** ** The registry *)

Definition BMT_MAX_TEST_CASES : Z := 64.
Definition BMT_MAX_TEST_NAME_LEN : Z := 64.
Definition BMT_MAX_SUITE_NAME_LEN : Z := 64.

(** [bmt_test_case_t].  The two name arrays are represented by the C
    strings they hold; [func] is [None] for a NULL function pointer. *)
Record bmt_test_case_t : Type := {
  suite_name : list ascii;
  test_name : list ascii;
  func : option body;
  last_run_passed : bool;
  duration_ms : Z
}.

(** The two file-scope objects of [bmt_runner.c].  They are [static]: test
    bodies reach them through [bmt_register_test] only, which the run
    does not expect them to call. *)
Record registry : Type := {
  g_bmt_test_cases : list bmt_test_case_t;
  g_bmt_test_count : Z
}.

(** Static storage is zero-initialised. *)
Definition zero_test_case : bmt_test_case_t :=
  {| suite_name := []; test_name := []; func := None;
     last_run_passed := false; duration_ms := 0 |}.

Definition registry_init : registry :=
  {| g_bmt_test_cases := repeat zero_test_case (Z.to_nat BMT_MAX_TEST_CASES);
     g_bmt_test_count := 0 |}.

(** [strncpy(dst, src, size - 1); dst[size - 1] = '\0';] leaves in [dst]
    the first [size - 1] characters of the C string [src]. *)
Definition copy_name (src : list ascii) (size : Z) : list ascii :=
  take (Z.to_nat (size - 1)) src.

(** [void bmt_register_test(suite_name, test_name, func)] *)
Definition bmt_register_test (suite test : list ascii) (f : option body)
    (g : registry) : M registry :=
  if g_bmt_test_count g <? BMT_MAX_TEST_CASES then
    cases <- defined (store (g_bmt_test_cases g) (g_bmt_test_count g)
                        {| suite_name := copy_name suite BMT_MAX_SUITE_NAME_LEN;
                           test_name := copy_name test BMT_MAX_TEST_NAME_LEN;
                           func := f;
                           last_run_passed := false;
                           duration_ms := 0 |}) ;;
    ret {| g_bmt_test_cases := cases;
           g_bmt_test_count := int (g_bmt_test_count g + 1) |}
  else
    bmt_platform_puts
      (text "ERROR: Max test cases reached. Increase BMT_MAX_TEST_CASES."
       ++ CRLF) ;;
    ret g.

(** ** The runner *)

(** The three local accumulators of [bmt_run_all_tests]. *)
Record counters : Type := {
  tests_passed : Z;
  tests_failed : Z;
  total_duration_ms : Z
}.

(** [if (setjmp(g_bmt_assert_jmp_buf) == 0) { f(); } else { ... }]: [true]
    when [f] returned, [false] when control came back through the
    [longjmp].  No local variable of the runner changes between the
    [setjmp] and the [longjmp], so all of them keep their values.
    Calling a NULL pointer is undefined. *)
Definition setjmp_call (f : option body) : M bool :=
  fun st =>
    match f with
    | None => Undefined
    | Some b =>
        match b st with
        | Returned _ st' => Returned true st'
        | LongJmp st' => Returned false st'
        | Undefined => Undefined
        end
    end.

(** [(end_ticks >= start_ticks) ? (end_ticks - start_ticks)
      : (0xFFFFFFFF - start_ticks + end_ticks + 1)] in [uint32_t]. *)
Definition elapsed (start_ticks end_ticks : Z) : Z :=
  if end_ticks >=? start_ticks then uint32_t (end_ticks - start_ticks)
  else uint32_t (uint32_t (uint32_t (0xFFFFFFFF - start_ticks) + end_ticks) + 1).

Definition put_test_name (tc : bmt_test_case_t) : M unit :=
  bmt_platform_puts (suite_name tc) ;;
  bmt_platform_putchar "." ;;
  bmt_platform_puts (test_name tc).

(** One iteration of the loop over the registered tests, for index [i]. *)
Definition run_test (i : Z) (cases : list bmt_test_case_t) (acc : counters)
  : M (list bmt_test_case_t * counters) :=
  tc <- defined (load cases i) ;;
  bmt_platform_puts (text "[ RUN      ] ") ;;
  put_test_name tc ;;
  bmt_platform_puts CRLF ;;
  write_failed_expect false ;;
  start_ticks <- bmt_platform_get_msec_ticks ;;
  current_test_passed_assert <- setjmp_call (func tc) ;;
  end_ticks <- bmt_platform_get_msec_ticks ;;
  let duration := elapsed start_ticks end_ticks in
  let total := uint32_t (total_duration_ms acc + duration) in
  failed_expect <- read_failed_expect ;;
  let passed := current_test_passed_assert && negb failed_expect in
  let tc' := {| suite_name := suite_name tc; test_name := test_name tc;
                func := func tc; last_run_passed := passed;
                duration_ms := duration |} in
  cases' <- defined (store cases i tc') ;;
  acc' <- (if passed then
             bmt_platform_puts (text "[       OK ] ") ;;
             ret {| tests_passed := int (tests_passed acc + 1);
                    tests_failed := tests_failed acc;
                    total_duration_ms := total |}
           else
             bmt_platform_puts (text "[  FAILED  ] ") ;;
             ret {| tests_passed := tests_passed acc;
                    tests_failed := int (tests_failed acc + 1);
                    total_duration_ms := total |}) ;;
  put_test_name tc' ;;
  bmt_platform_puts (text " (") ;;
  itoa_puts 128 (long duration) ;;
  bmt_platform_puts (text " ms)" ++ CRLF) ;;
  ret (cases', acc').

(** [for (int i = 0; i < g_bmt_test_count; ++i) { ... }]: [n] iterations
    are left, the next one is for index [i]. *)
Fixpoint run_loop (n : nat) (i : Z) (cases : list bmt_test_case_t)
    (acc : counters) : M (list bmt_test_case_t * counters) :=
  match n with
  | O => ret (cases, acc)
  | S n' =>
      r <- run_test i cases acc ;;
      run_loop n' (int (i + 1)) (fst r) (snd r)
  end.

(** The second loop, which lists the tests that did not pass. *)
Fixpoint list_failed (n : nat) (i : Z) (cases : list bmt_test_case_t)
  : M unit :=
  match n with
  | O => ret tt
  | S n' =>
      tc <- defined (load cases i) ;;
      (if negb (last_run_passed tc) then
         bmt_platform_puts (text "[  FAILED  ] ") ;;
         put_test_name tc ;;
         bmt_platform_puts CRLF
       else ret tt) ;;
      list_failed n' (int (i + 1)) cases
  end.

(** What [bmt_run_all_tests] prints after the first loop. *)
Definition print_summary (count : Z) (cases : list bmt_test_case_t)
    (acc : counters) : M unit :=
  bmt_platform_puts (text "[==========] ") ;;
  itoa_puts 128 (long count) ;;
  bmt_platform_puts (text " tests ran. (") ;;
  itoa_puts 128 (long (total_duration_ms acc)) ;;
  bmt_platform_puts (text " ms total)" ++ CRLF) ;;
  bmt_platform_puts (text "[  PASSED  ] ") ;;
  itoa_puts 128 (long (tests_passed acc)) ;;
  bmt_platform_puts (text " tests." ++ CRLF) ;;
  (if tests_failed acc >? 0 then
     bmt_platform_puts (text "[  FAILED  ] ") ;;
     itoa_puts 128 (long (tests_failed acc)) ;;
     bmt_platform_puts (text " tests, listed below:" ++ CRLF) ;;
     list_failed (Z.to_nat count) 0 cases
   else ret tt) ;;
  bmt_platform_puts CRLF ;;
  itoa_puts 128 (long (tests_failed acc)) ;;
  (if tests_failed acc =? 1
   then bmt_platform_puts (text " FAILED TEST" ++ CRLF)
   else bmt_platform_puts (text " FAILED TESTS" ++ CRLF)).

(** [int bmt_run_all_tests(void)]: the value returned and the registry
    after the run. *)
Definition bmt_run_all_tests (g : registry) : M (Z * registry) :=
  bmt_platform_io_init ;;
  bmt_platform_puts (text "[==========] Running ") ;;
  itoa_puts 128 (long (g_bmt_test_count g)) ;;
  bmt_platform_puts (text " tests." ++ CRLF) ;;
  r <- run_loop (Z.to_nat (g_bmt_test_count g)) 0 (g_bmt_test_cases g)
         {| tests_passed := 0; tests_failed := 0; total_duration_ms := 0 |} ;;
  print_summary (g_bmt_test_count g) (fst r) (snd r) ;;
  ret (tests_failed (snd r),
       {| g_bmt_test_cases := fst r;
          g_bmt_test_count := g_bmt_test_count g |}).

(** Registration of a list of tests, first to last, as the constructors
    that the [TEST] macro defines do before [main]. *)
Fixpoint register_all (ts : list (list ascii * list ascii * option body))
    (g : registry) : M registry :=
  match ts with
  | [] => ret g
  | (suite, test, f) :: ts' =>
      g' <- bmt_register_test suite test f g ;;
      register_all ts' g'
  end.

(** ** Reference notions for the statements *)

(** The digits that the loops of [bmt_itoa] produce for [t], least
    significant first. *)
Fixpoint rev_digits (fuel : nat) (t : Z) : list ascii :=
  match fuel with
  | O => []
  | S fuel' =>
      if 0 <? t then digit_char (Z.rem t 10) :: rev_digits fuel' (Z.quot t 10)
      else []
  end.

(** A character between ['0'] and ['9']. *)
Definition is_digit (c : ascii) : bool :=
  let n := Z.of_N (N_of_ascii c) in (48 <=? n) && (n <=? 57).

(** The number a string of decimal digits denotes, most significant
    digit first. *)
Definition decimal_value (ds : list ascii) : Z :=
  fold_left (fun acc c => 10 * acc + (Z.of_N (N_of_ascii c) - 48)) ds 0.

(** A decimal numeral without sign and without leading zero. *)
Definition is_numeral (ds : list ascii) : Prop :=
  ds <> [] /\ forallb is_digit ds = true /\ hd_error ds <> Some "0"%char.

(** The text that [bmt_itoa] leaves in a buffer of 128 characters. *)
Definition itoa_text (val : Z) : list ascii :=
  match bmt_itoa val (char_array 128) 10 with
  | Some b => c_string b
  | None => []
  end.

(** The line that announces a test, and the line that gives its result. *)
Definition run_line (tc : bmt_test_case_t) : list ascii :=
  text "[ RUN      ] " ++ suite_name tc ++ ["."%char] ++ test_name tc ++ CRLF.

Definition result_line (passed : bool) (tc : bmt_test_case_t) (duration : Z)
  : list ascii :=
  (if passed then text "[       OK ] " else text "[  FAILED  ] ")
  ++ suite_name tc ++ ["."%char] ++ test_name tc
  ++ text " (" ++ itoa_text (long duration) ++ text " ms)" ++ CRLF.

(** The state in which the runner calls the body of [tc]: the test has
    been announced, the EXPECT flag is reset and the start tick is read. *)
Definition test_entry (tc : bmt_test_case_t) (st : run_state) : run_state :=
  tick (set_failed_expect false (emit (run_line tc) st)).

(** The start tick that the runner reads in state [st]. *)
Definition read_ticks (st : run_state) : Z :=
  uint32_t (tick_source st (tick_reads st)).

(** The final state of a test that ended in state [st'],
    [passed_assert] telling whether its body returned; the descriptor and
    the accumulators after it. *)
Definition test_passed (passed_assert : bool) (st' : run_state) : bool :=
  passed_assert && negb (g_bmt_current_test_failed_expect st').

Definition record_test (tc : bmt_test_case_t) (passed : bool) (duration : Z)
  : bmt_test_case_t :=
  {| suite_name := suite_name tc; test_name := test_name tc; func := func tc;
     last_run_passed := passed; duration_ms := duration |}.

Definition count_test (acc : counters) (passed : bool) (duration : Z)
  : counters :=
  {| tests_passed := if passed then int (tests_passed acc + 1)
                     else tests_passed acc;
     tests_failed := if passed then tests_failed acc
                     else int (tests_failed acc + 1);
     total_duration_ms := uint32_t (total_duration_ms acc + duration) |}.

(** A body that stays within defined behaviour, whatever the state it
    starts in. *)
Definition never_undefined (b : body) : Prop :=
  forall st, b st <> Undefined.

(** A descriptor that the runner can call. *)
Definition runnable (tc : bmt_test_case_t) : Prop :=
  exists b, func tc = Some b /\ never_undefined b.

(** Running the test of one descriptor, on the descriptor alone: the
    body is called once, in the entry state, and the descriptor and the
    accumulators are updated from the way it ends. *)
Definition run_descriptor (tc : bmt_test_case_t) (acc : counters)
  : M (bmt_test_case_t * counters) :=
  fun st =>
    let finish passed_assert st' :=
      let duration := elapsed (read_ticks st) (read_ticks st') in
      let passed := test_passed passed_assert st' in
      Returned (record_test tc passed duration, count_test acc passed duration)
               (emit (result_line passed tc duration) (tick st')) in
    match func tc with
    | None => Undefined
    | Some b =>
        match b (test_entry tc st) with
        | Returned _ st' => finish true st'
        | LongJmp st' => finish false st'
        | Undefined => Undefined
        end
    end.

(** The tests of a list of descriptors run one after the other, first to
    last: "executed in registration order". *)
Fixpoint run_in_order (tcs : list bmt_test_case_t) (acc : counters)
  : M (list bmt_test_case_t * counters) :=
  match tcs with
  | [] => ret ([], acc)
  | tc :: rest =>
      r <- run_descriptor tc acc ;;
      rs <- run_in_order rest (snd r) ;;
      ret (fst r :: fst rs, snd rs)
  end.

(** The descriptors whose last run failed, in the order of the list. *)
Definition failing (tcs : list bmt_test_case_t) : list bmt_test_case_t :=
  List.filter (fun tc => negb (last_run_passed tc)) tcs.

Definition passing (tcs : list bmt_test_case_t) : list bmt_test_case_t :=
  List.filter last_run_passed tcs.

(** The line of the final list for one failing test. *)
Definition failed_line (tc : bmt_test_case_t) : list ascii :=
  text "[  FAILED  ] " ++ suite_name tc ++ ["."%char] ++ test_name tc ++ CRLF.

(** The descriptors in use: the first [g_bmt_test_count] of the array. *)
Definition registered (g : registry) : list bmt_test_case_t :=
  take (Z.to_nat (g_bmt_test_count g)) (g_bmt_test_cases g).

(** The same test with the result of another run. *)
Definition same_test (tc tc' : bmt_test_case_t) : Prop :=
  suite_name tc' = suite_name tc /\ test_name tc' = test_name tc
  /\ func tc' = func tc.

(** The sum of the recorded durations. *)
Definition sum_durations (tcs : list bmt_test_case_t) : Z :=
  fold_right (fun tc s => duration_ms tc + s) 0 tcs.

(** The list of failing tests as it is printed: one line per failing
    descriptor, in the order of the descriptors. *)
Definition failed_list (tcs : list bmt_test_case_t) : list ascii :=
  concat (map failed_line (failing tcs)).

(** The text printed after the loop, for the descriptors [tcs] and the
    accumulators [acc]: the counts, the list of failing tests when the
    failed counter is positive, and the verdict. *)
Definition summary_counts (count : Z) (acc : counters) : list ascii :=
  text "[==========] " ++ itoa_text (long count)
  ++ text " tests ran. (" ++ itoa_text (long (total_duration_ms acc))
  ++ text " ms total)" ++ CRLF
  ++ text "[  PASSED  ] " ++ itoa_text (long (tests_passed acc))
  ++ text " tests." ++ CRLF.

Definition failed_header (n : Z) : list ascii :=
  text "[  FAILED  ] " ++ itoa_text (long n)
  ++ text " tests, listed below:" ++ CRLF.

Definition summary_verdict (n : Z) : list ascii :=
  CRLF ++ itoa_text (long n)
  ++ (if n =? 1 then text " FAILED TEST" else text " FAILED TESTS")
  ++ CRLF.

Definition summary_text (count : Z) (tcs : list bmt_test_case_t)
    (acc : counters) : list ascii :=
  summary_counts count acc
  ++ (if tests_failed acc >? 0
      then failed_header (tests_failed acc) ++ failed_list tcs
      else [])
  ++ summary_verdict (tests_failed acc).

(** The text printed before the loop. *)
Definition banner_text (count : Z) : list ascii :=
  text "[==========] Running " ++ itoa_text (long count)
  ++ text " tests." ++ CRLF.

(** The shape of the registry: the array has its declared size and the
    count is within it. *)
Definition registry_wf (g : registry) : Prop :=
  Z.of_nat (length (g_bmt_test_cases g)) = BMT_MAX_TEST_CASES
  /\ 0 <= g_bmt_test_count g <= BMT_MAX_TEST_CASES.

Definition counters_zero : counters :=
  {| tests_passed := 0; tests_failed := 0; total_duration_ms := 0 |}.

(** The descriptor that a registration writes. *)
Definition new_descriptor (t : list ascii * list ascii * option body)
  : bmt_test_case_t :=
  {| suite_name := copy_name t.1.1 BMT_MAX_SUITE_NAME_LEN;
     test_name := copy_name t.1.2 BMT_MAX_TEST_NAME_LEN;
     func := t.2;
     last_run_passed := false;
     duration_ms := 0 |}.

(** The diagnostic of a registration that finds the registry full. *)
Definition overflow_text : list ascii :=
  text "ERROR: Max test cases reached. Increase BMT_MAX_TEST_CASES." ++ CRLF.

(** How the call of a body ended, as the runner sees it after the
    [setjmp]: [passed_assert] is [true] when the body returned and [false]
    when it left through the [longjmp]; [st'] is the state it left. *)
Inductive ends_with : result unit -> bool -> run_state -> Prop :=
| ends_return st' : ends_with (Returned tt st') true st'
| ends_longjmp st' : ends_with (LongJmp st') false st'.

(** ** A demonstration program

    Tests in the style of [src/examples/main_tests.c].  The tick source
    reads [0xFFFFFFF0], 16 ticks before the counter wraps, and then [5],
    where it stays. *)

Definition demo_state : run_state :=
  {| output := [];
     tick_source := fun k => match k with O => 0xFFFFFFF0 | _ => 5 end;
     tick_reads := 0;
     g_bmt_current_test_failed_expect := false |}.

Definition demo_file : list ascii := text "main_tests.c".

(** The registry a terminated computation leaves. *)
Definition registry_of (r : result registry) : registry :=
  match r with
  | Returned g _ => g
  | _ => registry_init
  end.

(** The state a terminated computation leaves. *)
Definition state_of {A} (r : result A) : run_state :=
  match r with
  | Returned _ st => st
  | LongJmp st => st
  | Undefined => demo_state
  end.

(** The value a computation returns. *)
Definition value_of {A} (r : result A) : option A :=
  match r with
  | Returned a _ => Some a
  | _ => None
  end.

(** [TEST(FrameworkDemo, Passing) { ASSERT_EQ(1, 1); }] *)
Definition demo_passing : list ascii * list ascii * option body :=
  (text "FrameworkDemo", text "Passing",
   Some (ASSERT_EQ demo_file 10 1 1 (text "1") (text "1"))).

(** [TEST(FrameworkDemo, IntentionallyFailingAssert)
      { ASSERT_EQ(1, 0); bmt_platform_puts("never"); }] *)
Definition demo_fatal : list ascii * list ascii * option body :=
  (text "FrameworkDemo", text "IntentionallyFailingAssert",
   Some (ret tt ;;
         BMT_ASSERT_COMMON demo_file 214 false (text "ASSERT_EQ")
           (text "1 == 0")
           (Some (literal (text "Expected: %ld, Actual: %ld")))
           [VaLong 1; VaLong 0] ;;
         bmt_platform_puts (text "never"))).

(** [TEST(FrameworkDemo, IntentionallyFailingExpect)
      { EXPECT_EQ(1, 0); bmt_platform_puts("after"); }] *)
Definition demo_expect : list ascii * list ascii * option body :=
  (text "FrameworkDemo", text "IntentionallyFailingExpect",
   Some (EXPECT_EQ demo_file 222 1 0 (text "1") (text "0") ;;
         bmt_platform_puts (text "after"))).

(** [TEST(EdgeCasesAndBugs, OnlyAddFailure) { ADD_FAILURE(); }] *)
Definition demo_add_failure : list ascii * list ascii * option body :=
  (text "EdgeCasesAndBugs", text "OnlyAddFailure",
   Some (ADD_FAILURE demo_file 200)).

Definition demo_tests : list (list ascii * list ascii * option body) :=
  [demo_passing; demo_fatal; demo_expect].

Definition demo_registry : registry :=
  registry_of (register_all demo_tests registry_init demo_state).

(** A registry at capacity: the same test registered 64 times. *)
Definition full_registry : registry :=
  registry_of (register_all (repeat demo_passing 64) registry_init demo_state).

(** The descriptor of [demo_fatal] and the state that the report of its
    fatal check leaves. *)
Definition demo_fatal_tc : bmt_test_case_t := new_descriptor demo_fatal.

Definition demo_fatal_reported : run_state :=
  state_of (bmt_report_failure demo_file 214 (text "ASSERT_EQ")
              (text "1 == 0")
              (Some (literal (text "Expected: %ld, Actual: %ld")))
              [VaLong 1; VaLong 0] (test_entry demo_fatal_tc demo_state)).

(** The descriptor and the body of [demo_expect]. *)
Definition demo_expect_tc : bmt_test_case_t := new_descriptor demo_expect.

Definition demo_expect_body : body :=
  EXPECT_EQ demo_file 222 1 0 (text "1") (text "0") ;;
  bmt_platform_puts (text "after").

(** The state in which the body of [demo_expect] ends. *)
Definition demo_expect_ended : run_state :=
  state_of (demo_expect_body (test_entry demo_expect_tc demo_state)).

(** The state that the report of its failing expectation leaves. *)
Definition demo_expect_reported : run_state :=
  state_of (bmt_report_failure demo_file 222 (text "EXPECT_EQ")
              (text "1" ++ text " == " ++ text "0")
              (Some (literal (text "Expected: %ld, Actual: %ld")))
              [VaLong (long 1); VaLong (long 0)]
              (test_entry demo_expect_tc demo_state)).

(** ** Further reference notions *)

(** Reading back a decimal text: an optional sign, then the digits. *)
Definition parse_decimal (s : list ascii) : Z :=
  match s with
  | c :: ds => if Ascii.eqb c "-" then - decimal_value ds else decimal_value s
  | [] => 0
  end.

(** A C string: no character of it is the terminator. *)
Definition no_nul (s : list ascii) : bool :=
  forallb (fun c => negb (is_nul c)) s.

(** The line of a failure report that names the check. *)
Definition failure_text (assertion_type expression : list ascii)
  : list ascii :=
  text "  " ++ assertion_type ++ text "(" ++ expression ++ text ")" ++ CRLF.

(** The first two lines of a failure report. *)
Definition report_head (file : list ascii) (line : Z)
    (assertion_type expression : list ascii) : list ascii :=
  file ++ [":"%char] ++ itoa_text (long line) ++ text ": Failure" ++ CRLF
  ++ failure_text assertion_type expression.

(** The whole report of a failing [ASSERT_EQ] or [EXPECT_EQ]. *)
Definition eq_report (file : list ascii) (line : Z) (assertion_type : list ascii)
    (val1 val2 : Z) (e1 e2 : list ascii) : list ascii :=
  report_head file line assertion_type (e1 ++ text " == " ++ e2)
  ++ text "    Message: " ++ text "Expected: " ++ itoa_text val1
  ++ text ", Actual: " ++ itoa_text val2 ++ CRLF.

(** A character that the message loop prints as it stands. *)
Definition plain_char (c : ascii) : bool :=
  negb (is_nul c) && negb (Ascii.eqb c "%").

(** ** Further macros of [baremetal_test.h] *)

(** [ASSERT_FALSE(condition)] and [EXPECT_FALSE(condition)] *)
Definition ASSERT_FALSE file line (condition : bool) (expr : list ascii) : M unit :=
  BMT_ASSERT_COMMON file line (negb condition) (text "ASSERT_FALSE") expr None [].

Definition EXPECT_FALSE file line (condition : bool) (expr : list ascii) : M unit :=
  BMT_EXPECT_COMMON file line (negb condition) (text "EXPECT_FALSE") expr None [].

(** [ASSERT_NE(val1, val2)] *)
Definition ASSERT_NE file line (val1 val2 : Z) (e1 e2 : list ascii) : M unit :=
  BMT_ASSERT_COMMON file line (negb (long val1 =? long val2)) (text "ASSERT_NE")
    (e1 ++ text " != " ++ e2)
    (Some (literal (text "Expected: %ld != %ld, but they are equal")))
    [VaLong (long val1); VaLong (long val2)].

(** [ASSERT_LT(val1, val2)] *)
Definition ASSERT_LT file line (val1 val2 : Z) (e1 e2 : list ascii) : M unit :=
  BMT_ASSERT_COMMON file line (long val1 <? long val2) (text "ASSERT_LT")
    (e1 ++ text " < " ++ e2)
    (Some (literal (text "Expected: %ld < %ld")))
    [VaLong (long val1); VaLong (long val2)].

(** [ASSERT_LE(val1, val2)] *)
Definition ASSERT_LE file line (val1 val2 : Z) (e1 e2 : list ascii) : M unit :=
  BMT_ASSERT_COMMON file line (long val1 <=? long val2) (text "ASSERT_LE")
    (e1 ++ text " <= " ++ e2)
    (Some (literal (text "Expected: %ld <= %ld")))
    [VaLong (long val1); VaLong (long val2)].

(** [ASSERT_GT(val1, val2)] *)
Definition ASSERT_GT file line (val1 val2 : Z) (e1 e2 : list ascii) : M unit :=
  BMT_ASSERT_COMMON file line (long val1 >? long val2) (text "ASSERT_GT")
    (e1 ++ text " > " ++ e2)
    (Some (literal (text "Expected: %ld > %ld")))
    [VaLong (long val1); VaLong (long val2)].

(** [ASSERT_GE(val1, val2)] *)
Definition ASSERT_GE file line (val1 val2 : Z) (e1 e2 : list ascii) : M unit :=
  BMT_ASSERT_COMMON file line (long val1 >=? long val2) (text "ASSERT_GE")
    (e1 ++ text " >= " ++ e2)
    (Some (literal (text "Expected: %ld >= %ld")))
    [VaLong (long val1); VaLong (long val2)].

(** [EXPECT_NE], [EXPECT_LT], [EXPECT_LE], [EXPECT_GT], [EXPECT_GE] *)
Definition EXPECT_NE file line (val1 val2 : Z) (e1 e2 : list ascii) : M unit :=
  BMT_EXPECT_COMMON file line (negb (long val1 =? long val2)) (text "EXPECT_NE")
    (e1 ++ text " != " ++ e2)
    (Some (literal (text "Expected: %ld != %ld, but they are equal")))
    [VaLong (long val1); VaLong (long val2)].

Definition EXPECT_LT file line (val1 val2 : Z) (e1 e2 : list ascii) : M unit :=
  BMT_EXPECT_COMMON file line (long val1 <? long val2) (text "EXPECT_LT")
    (e1 ++ text " < " ++ e2)
    (Some (literal (text "Expected: %ld < %ld")))
    [VaLong (long val1); VaLong (long val2)].

Definition EXPECT_LE file line (val1 val2 : Z) (e1 e2 : list ascii) : M unit :=
  BMT_EXPECT_COMMON file line (long val1 <=? long val2) (text "EXPECT_LE")
    (e1 ++ text " <= " ++ e2)
    (Some (literal (text "Expected: %ld <= %ld")))
    [VaLong (long val1); VaLong (long val2)].

Definition EXPECT_GT file line (val1 val2 : Z) (e1 e2 : list ascii) : M unit :=
  BMT_EXPECT_COMMON file line (long val1 >? long val2) (text "EXPECT_GT")
    (e1 ++ text " > " ++ e2)
    (Some (literal (text "Expected: %ld > %ld")))
    [VaLong (long val1); VaLong (long val2)].

Definition EXPECT_GE file line (val1 val2 : Z) (e1 e2 : list ascii) : M unit :=
  BMT_EXPECT_COMMON file line (long val1 >=? long val2) (text "EXPECT_GE")
    (e1 ++ text " >= " ++ e2)
    (Some (literal (text "Expected: %ld >= %ld")))
    [VaLong (long val1); VaLong (long val2)].

(** The double quote of the message formats. *)
Definition quote : list ascii := [ascii_of_nat 34].

(** [strncmp(s1, s2, n) == 0] for two C strings: their first [n]
    characters agree, the terminator included when it comes earlier. *)
Definition strncmp_eq (s1 s2 : list ascii) (n : nat) : bool :=
  if List.list_eq_dec Ascii.ascii_dec (take n s1) (take n s2) then true else false.

(** The condition [(s1) != NULL && (s2) != NULL && strncmp(...) == 0]. *)
Definition strn_equal (s1 s2 : option (list ascii)) (n : nat) : bool :=
  match s1, s2 with
  | Some a, Some b => strncmp_eq a b n
  | _, _ => false
  end.

(** [(s) ? (s) : "NULL"] *)
Definition or_NULL (s : option (list ascii)) : list ascii :=
  match s with Some a => a | None => text "NULL" end.

(** The variadic arguments of the four [STRN] macros:
    [(unsigned int)(n)], then the two strings. *)
Definition strn_args (s1 s2 : option (list ascii)) : list va_value :=
  [VaOther; VaStr (Some (or_NULL s1)); VaStr (Some (or_NULL s2))].

Definition STRNEQ_format : list ascii :=
  literal (text "Expected first %u chars: " ++ quote ++ text "%s" ++ quote
           ++ text ", Actual: " ++ quote ++ text "%s" ++ quote).

Definition STRNNE_format : list ascii :=
  literal (text "Expected first %u chars of strings to be different. s1: "
           ++ quote ++ text "%s" ++ quote ++ text ", s2: " ++ quote
           ++ text "%s" ++ quote).

(** [ASSERT_STRNEQ(s1, s2, n)]; [e1], [e2] and [en] are the stringified
    arguments. *)
Definition ASSERT_STRNEQ file line (s1 s2 : option (list ascii)) (n : nat)
    (e1 e2 en : list ascii) : M unit :=
  BMT_ASSERT_COMMON file line (strn_equal s1 s2 n) (text "ASSERT_STRNEQ")
    (e1 ++ text " STRNEQ(" ++ en ++ text ") " ++ e2)
    (Some STRNEQ_format) (strn_args s1 s2).

(** [ASSERT_STRNNE(s1, s2, n)] *)
Definition ASSERT_STRNNE file line (s1 s2 : option (list ascii)) (n : nat)
    (e1 e2 en : list ascii) : M unit :=
  BMT_ASSERT_COMMON file line (negb (strn_equal s1 s2 n)) (text "ASSERT_STRNNE")
    (e1 ++ text " STRNNE(" ++ en ++ text ") " ++ e2)
    (Some STRNNE_format) (strn_args s1 s2).

(** [EXPECT_STRNEQ(s1, s2, n)] and [EXPECT_STRNNE(s1, s2, n)] *)
Definition EXPECT_STRNEQ file line (s1 s2 : option (list ascii)) (n : nat)
    (e1 e2 en : list ascii) : M unit :=
  BMT_EXPECT_COMMON file line (strn_equal s1 s2 n) (text "EXPECT_STRNEQ")
    (e1 ++ text " STRNEQ(" ++ en ++ text ") " ++ e2)
    (Some STRNEQ_format) (strn_args s1 s2).

Definition EXPECT_STRNNE file line (s1 s2 : option (list ascii)) (n : nat)
    (e1 e2 en : list ascii) : M unit :=
  BMT_EXPECT_COMMON file line (negb (strn_equal s1 s2 n)) (text "EXPECT_STRNNE")
    (e1 ++ text " STRNNE(" ++ en ++ text ") " ++ e2)
    (Some STRNNE_format) (strn_args s1 s2).

(** ** Reference notions for the reports *)

(** The report of a failing comparison: head, then the message, in which
    the two values stand between the pieces [pre], [mid] and [post] of the
    format. *)
Definition comparison_report (file : list ascii) (line : Z)
    (assertion_type expression pre : list ascii) (val1 : Z) (mid : list ascii)
    (val2 : Z) (post : list ascii) : list ascii :=
  report_head file line assertion_type expression
  ++ text "    Message: " ++ pre ++ itoa_text val1 ++ mid ++ itoa_text val2
  ++ post ++ CRLF.

(** The directives of a message format: a character printed as it
    stands, [%s], [%ld], and [%] followed by a character [d] that belongs
    to no directive of the loop. *)
Inductive directive : Type :=
| Lit (c : ascii)
| DirS
| DirLd
| Verb (d : ascii).

Definition directive_ok (d : directive) : bool :=
  match d with
  | Lit c => plain_char c
  | Verb d => negb (is_nul d) && negb (Ascii.eqb d "s") && negb (Ascii.eqb d "l")
  | _ => true
  end.

(** The characters of a directive in the format. *)
Definition directive_chars (d : directive) : list ascii :=
  match d with
  | Lit c => [c]
  | DirS => text "%s"
  | DirLd => text "%ld"
  | Verb d => ["%"%char; d]
  end.

Definition format_of (ds : list directive) : list ascii :=
  concat (map directive_chars ds).

(** What a list of directives prints for a list of arguments, and the
    arguments it leaves; [None] when an argument is missing or of another
    type, or when the text of a [%ld] value does not fit [temp_buf[20]]. *)
Fixpoint render (ds : list directive) (args : list va_value)
  : option (list ascii * list va_value) :=
  match ds with
  | [] => Some ([], args)
  | Lit c :: ds' =>
      r ← render ds' args; Some (c :: r.1, r.2)
  | Verb d :: ds' =>
      r ← render ds' args; Some ("%"%char :: d :: r.1, r.2)
  | DirS :: ds' =>
      match args with
      | VaStr s_arg :: args' =>
          r ← render ds' args';
          Some (match s_arg with Some str => str | None => text "(null)" end
                ++ r.1, r.2)
      | _ => None
      end
  | DirLd :: ds' =>
      match args with
      | VaLong d_arg :: args' =>
          if (length (itoa_text d_arg) + 1 <=? 20)%nat
          then r ← render ds' args'; Some (itoa_text d_arg ++ r.1, r.2)
          else None
      | _ => None
      end
  end.


(** ** The name arrays of a descriptor *)

(** [strncpy(dst, src, n)] writes [n] characters: those of the C string
    at [src], then terminators. *)
Definition strncpy (dst src : list ascii) (n : nat) : option (list ascii) :=
  if (n <=? length dst)%nat
  then Some (take n (c_string src ++ repeat NUL n) ++ drop n dst)
  else None.

(** [strncpy(name, src, size - 1); name[size - 1] = '\0';] on the array
    [name] of a descriptor. *)
Definition write_name (name src : list ascii) (size : Z)
  : option (list ascii) :=
  name ← strncpy name src (Z.to_nat (size - 1));
  store name (size - 1) NUL.

(** ** Test bodies made of checks *)

(** A check as it stands in a test body: the line, the condition as it
    evaluates, and what the macro hands to [bmt_report_failure]. *)
Inductive check : Type :=
| Fatal (line : Z) (condition : bool) (assertion_type expr_str : list ascii)
    (msg_fmt : option (list ascii)) (args : list va_value)
| NonFatal (line : Z) (condition : bool) (assertion_type expr_str : list ascii)
    (msg_fmt : option (list ascii)) (args : list va_value).

Definition check_condition (c : check) : bool :=
  match c with
  | Fatal _ condition _ _ _ _ => condition
  | NonFatal _ condition _ _ _ _ => condition
  end.

Definition run_check (file : list ascii) (c : check) : M unit :=
  match c with
  | Fatal line condition ty expr fmt args =>
      BMT_ASSERT_COMMON file line condition ty expr fmt args
  | NonFatal line condition ty expr fmt args =>
      BMT_EXPECT_COMMON file line condition ty expr fmt args
  end.

(** The body [{ check; check; ... }]. *)
Fixpoint checks (file : list ascii) (cs : list check) : body :=
  match cs with
  | [] => ret tt
  | c :: cs' => run_check file c ;; checks file cs'
  end.

(** ** The tick counter of the Zynq-7000 port *)

(** [bmt_platform_get_msec_ticks] of
    [examples/xilinx_zynq7000/platform_uart_zynq7000.c], for the value
    [raw_ticks] that the down counter of the private timer holds. *)
Definition zynq7000_get_msec_ticks (raw_ticks : Z) : Z :=
  uint32_t (0xFFFFFFFF - raw_ticks).


(** ** Further demonstration data *)

(** A registry whose only test has a NULL function pointer. *)
Definition null_registry : registry :=
  registry_of
    (register_all [(text "Suite", text "NoFunction", None)] registry_init
       demo_state).

(** The demonstration registry with the results of an earlier run left
    in its descriptors. *)
Definition demo_registry_stale : registry :=
  {| g_bmt_test_cases :=
       map (fun tc => record_test tc true 7) (g_bmt_test_cases demo_registry);
     g_bmt_test_count := g_bmt_test_count demo_registry |}.

(** [TEST(FrameworkDemo, Checks) { EXPECT_TRUE(a); ASSERT_TRUE(b); }]
    where [a] is false and [b] is true. *)
Definition demo_checks : list check :=
  [NonFatal 5 false (text "EXPECT_TRUE") (text "a") None [];
   Fatal 6 true (text "ASSERT_TRUE") (text "b") None []].

Definition demo_checks_tc : bmt_test_case_t :=
  new_descriptor
    (text "FrameworkDemo", text "Checks", Some (checks demo_file demo_checks)).

(** The state that the report of an [ADD_FAILURE()] at line 200 leaves. *)
Definition demo_add_failure_reported : run_state :=
  state_of (bmt_report_failure demo_file 200 (text "ADD_FAILURE")
              (text "Explicit failure triggered by ADD_FAILURE()") None []
              demo_state).

(** The descriptor of [demo_passing] and the state in which its body is
    called. *)
Definition demo_passing_tc : bmt_test_case_t := new_descriptor demo_passing.

Definition demo_passing_entry : run_state :=
  test_entry demo_passing_tc demo_state.

(** The directives of the format [%s: %ld%p]. *)
Definition demo_directives : list directive :=
  [DirS; Lit ":"; Lit " "; DirLd; Verb "p"].


(** ** String, pointer and floating-point macros *)

(** [strcmp(s1, s2) == 0] for two C strings. *)
Definition strcmp_eq (s1 s2 : list ascii) : bool :=
  if List.list_eq_dec Ascii.ascii_dec s1 s2 then true else false.

(** The condition [(s1) != NULL && (s2) != NULL && strcmp(...) == 0]. *)
Definition str_equal (s1 s2 : option (list ascii)) : bool :=
  match s1, s2 with
  | Some a, Some b => strcmp_eq a b
  | _, _ => false
  end.

(** The variadic arguments of the [STR] macros: the two strings, the
    literal ["NULL"] standing for a NULL pointer. *)
Definition str_args (s1 s2 : option (list ascii)) : list va_value :=
  [VaStr (Some (or_NULL s1)); VaStr (Some (or_NULL s2))].

Definition STREQ_format : list ascii :=
  literal (text "Expected: " ++ quote ++ text "%s" ++ quote
           ++ text ", Actual: " ++ quote ++ text "%s" ++ quote).

Definition STRNE_format : list ascii :=
  literal (text "Expected strings to be different. s1: " ++ quote
           ++ text "%s" ++ quote ++ text ", s2: " ++ quote ++ text "%s"
           ++ quote).

(** [ASSERT_STREQ(s1, s2)] and [ASSERT_STRNE(s1, s2)] *)
Definition ASSERT_STREQ file line (s1 s2 : option (list ascii))
    (e1 e2 : list ascii) : M unit :=
  BMT_ASSERT_COMMON file line (str_equal s1 s2) (text "ASSERT_STREQ")
    (e1 ++ text " STREQ " ++ e2) (Some STREQ_format) (str_args s1 s2).

Definition ASSERT_STRNE file line (s1 s2 : option (list ascii))
    (e1 e2 : list ascii) : M unit :=
  BMT_ASSERT_COMMON file line (negb (str_equal s1 s2)) (text "ASSERT_STRNE")
    (e1 ++ text " STRNE " ++ e2) (Some STRNE_format) (str_args s1 s2).

(** [EXPECT_STREQ(s1, s2)] and [EXPECT_STRNE(s1, s2)] *)
Definition EXPECT_STREQ file line (s1 s2 : option (list ascii))
    (e1 e2 : list ascii) : M unit :=
  BMT_EXPECT_COMMON file line (str_equal s1 s2) (text "EXPECT_STREQ")
    (e1 ++ text " STREQ " ++ e2) (Some STREQ_format) (str_args s1 s2).

Definition EXPECT_STRNE file line (s1 s2 : option (list ascii))
    (e1 e2 : list ascii) : M unit :=
  BMT_EXPECT_COMMON file line (negb (str_equal s1 s2)) (text "EXPECT_STRNE")
    (e1 ++ text " STRNE " ++ e2) (Some STRNE_format) (str_args s1 s2).

(** [ASSERT_NULL(ptr)] and [EXPECT_NULL(ptr)]; [is_null] is the value of
    [(ptr) == NULL], and the argument [(void* )(ptr)] is no string and no
    [long]. *)
Definition ASSERT_NULL file line (is_null : bool) (e : list ascii) : M unit :=
  BMT_ASSERT_COMMON file line is_null (text "ASSERT_NULL")
    (e ++ text " == NULL") (Some (literal (text "Actual: %p"))) [VaOther].

Definition EXPECT_NULL file line (is_null : bool) (e : list ascii) : M unit :=
  BMT_EXPECT_COMMON file line is_null (text "EXPECT_NULL")
    (e ++ text " == NULL") (Some (literal (text "Actual: %p"))) [VaOther].

(** [ASSERT_FLOAT_EQ(val1, val2)] and [ASSERT_DOUBLE_EQ(val1, val2)];
    [equal] is the value of [(val1) == (val2)], and the two arguments are
    of type [double]. *)
Definition ASSERT_FLOAT_EQ file line (equal : bool) (e1 e2 : list ascii)
  : M unit :=
  BMT_ASSERT_COMMON file line equal (text "ASSERT_FLOAT_EQ")
    (e1 ++ text " == " ++ e2)
    (Some (literal (text "Expected: %g, Actual: %g"))) [VaOther; VaOther].

Definition ASSERT_DOUBLE_EQ file line (equal : bool) (e1 e2 : list ascii)
  : M unit :=
  BMT_ASSERT_COMMON file line equal (text "ASSERT_DOUBLE_EQ")
    (e1 ++ text " == " ++ e2)
    (Some (literal (text "Expected: %g, Actual: %g"))) [VaOther; VaOther].

(** [ASSERT_NEAR(val1, val2, abs_error)]; [near] is the value of
    [fabs((val1) - (val2)) <= fabs(abs_error)], and the four arguments
    are of type [double]. *)
Definition ASSERT_NEAR file line (near : bool) (e1 e2 e3 : list ascii)
  : M unit :=
  BMT_ASSERT_COMMON file line near (text "ASSERT_NEAR")
    (e1 ++ text " NEAR " ++ e2 ++ text ", error " ++ e3)
    (Some (literal
             (text "Value1: %g, Value2: %g, Diff: %g, Max Abs Error: %g")))
    [VaOther; VaOther; VaOther; VaOther].

(** The directives of the formats above. *)
Definition lits (s : list ascii) : list directive := map Lit s.

Definition STREQ_directives : list directive :=
  lits (text "Expected: " ++ quote) ++ [DirS]
  ++ lits (quote ++ text ", Actual: " ++ quote) ++ [DirS] ++ lits quote.

Definition STRNE_directives : list directive :=
  lits (text "Expected strings to be different. s1: " ++ quote) ++ [DirS]
  ++ lits (quote ++ text ", s2: " ++ quote) ++ [DirS] ++ lits quote.

Definition NULL_directives : list directive :=
  lits (text "Actual: ") ++ [Verb "p"].

Definition FLOAT_EQ_directives : list directive :=
  lits (text "Expected: ") ++ [Verb "g"] ++ lits (text ", Actual: ")
  ++ [Verb "g"].

Definition NEAR_directives : list directive :=
  lits (text "Value1: ") ++ [Verb "g"] ++ lits (text ", Value2: ")
  ++ [Verb "g"] ++ lits (text ", Diff: ") ++ [Verb "g"]
  ++ lits (text ", Max Abs Error: ") ++ [Verb "g"].

(** The message line of a report. *)
Definition message_line (txt : list ascii) : list ascii :=
  text "    Message: " ++ txt ++ CRLF.


(** ** Functions of [examples/mathoperations.c] *)

(** [bool is_even(int n)]: [(n % 2) == 0], the remainder having the sign
    of [n]. *)
Definition is_even (n : Z) : bool := Z.rem n 2 =? 0.

(** The loop of [is_prime],
    [for (uint32_t i = 5; i * i <= n; i = i + 6)
       if (n % i == 0 || n % (i + 2) == 0) return false;],
    in [uint32_t] arithmetic; the value is what the function returns when
    the loop has come to its end within [fuel] iterations.  A remainder
    by zero is undefined. *)
Fixpoint is_prime_loop (fuel : nat) (n i : Z) : option bool :=
  match fuel with
  | O => None
  | S fuel' =>
      if uint32_t (i * i) <=? n then
        if i =? 0 then None
        else if n mod i =? 0 then Some false
        else if uint32_t (i + 2) =? 0 then None
        else if n mod uint32_t (i + 2) =? 0 then Some false
        else is_prime_loop fuel' n (uint32_t (i + 6))
      else Some true
  end.

(** [bool is_prime(uint32_t n)].  The counter [i] comes back to its
    first value after [2^31] steps, so that many iterations are granted. *)
Definition is_prime (n : Z) : option bool :=
  if n <=? 1 then Some false
  else if n <=? 3 then Some true
  else if (n mod 2 =? 0) || (n mod 3 =? 0) then Some false
  else is_prime_loop (Z.to_nat (2 ^ 31)) n 5.


(** Trial division by [d], [d + 1], ..., the next [fuel] candidates:
    [true] when none of them divides [n]. *)
Fixpoint no_divisor_from (fuel : nat) (d n : Z) : bool :=
  match fuel with
  | O => true
  | S fuel' => negb (n mod d =? 0) && no_divisor_from fuel' (d + 1) n
  end.


(** ** Tests with a failing check on the first characters of two strings *)

(** [TEST(StringTests, FailingPrefixAssert)
      { ASSERT_STRNEQ("abc", "abd", 3); bmt_platform_puts("never"); }] *)
Definition demo_strneq_fatal_body : body :=
  ASSERT_STRNEQ demo_file 30 (Some (text "abc")) (Some (text "abd")) 3
    (quote ++ text "abc" ++ quote) (quote ++ text "abd" ++ quote) (text "3") ;;
  bmt_platform_puts (text "never").

Definition demo_strneq_fatal : list ascii * list ascii * option body :=
  (text "StringTests", text "FailingPrefixAssert", Some demo_strneq_fatal_body).

(** [TEST(StringTests, FailingPrefixExpect)
      { EXPECT_STRNEQ("abc", "abd", 3); bmt_platform_puts("after"); }] *)
Definition demo_strneq_expect_body : body :=
  EXPECT_STRNEQ demo_file 40 (Some (text "abc")) (Some (text "abd")) 3
    (quote ++ text "abc" ++ quote) (quote ++ text "abd" ++ quote) (text "3") ;;
  bmt_platform_puts (text "after").

Definition demo_strneq_expect : list ascii * list ascii * option body :=
  (text "StringTests", text "FailingPrefixExpect", Some demo_strneq_expect_body).

(** The registries that hold one of these tests, followed by
    [demo_passing]. *)
Definition strneq_fatal_registry : registry :=
  registry_of
    (register_all [demo_strneq_fatal; demo_passing] registry_init demo_state).

Definition strneq_expect_registry : registry :=
  registry_of
    (register_all [demo_strneq_expect; demo_passing] registry_init demo_state).

(** The state in which the runner calls the first test of a registry of
    two tests. *)
Definition first_of_two_entry (t : list ascii * list ascii * option body)
  : run_state :=
  test_entry (new_descriptor t) (emit (banner_text 2) demo_state).


(** * Properties *)

(** C guarantees at least 32 bits for [long]; the targets have 32 or 64. *)
Hypothesis long_width : 32 <= LONG_BITS <= 64.

(** ** Machine integers *)

Lemma int_small z : - 2 ^ 31 <= z < 2 ^ 31 -> int z = z.
Proof.
  intros H. unfold int, wrap_signed.
  change (2 ^ (32 - 1)) with (2 ^ 31).
  rewrite Z.mod_small; lia.
Qed.

Lemma uint32_t_range z : 0 <= uint32_t z < 2 ^ 32.
Proof. unfold uint32_t. apply Z.mod_pos_bound. lia. Qed.

Lemma uint32_t_small z : 0 <= z < 2 ^ 32 -> uint32_t z = z.
Proof. intros H. unfold uint32_t. apply Z.mod_small. lia. Qed.

Lemma long_half_pos : 2 ^ 31 <= 2 ^ (LONG_BITS - 1).
Proof. apply Z.pow_le_mono_r; lia. Qed.

Lemma long_pow_split : 2 ^ LONG_BITS = 2 * 2 ^ (LONG_BITS - 1).
Proof.
  replace LONG_BITS with (Z.succ (LONG_BITS - 1)) at 1 by lia.
  rewrite Z.pow_succ_r; lia.
Qed.

Lemma long_small z : LONG_MIN <= z <= LONG_MAX -> long z = z.
Proof.
  unfold LONG_MIN, LONG_MAX, long, wrap_signed. intros H.
  pose proof long_pow_split. rewrite Z.mod_small; lia.
Qed.

Lemma long_of_int z : - 2 ^ 31 <= z < 2 ^ 31 -> long z = z.
Proof.
  intros H. apply long_small. unfold LONG_MIN, LONG_MAX.
  pose proof long_half_pos. lia.
Qed.

Lemma long_range z : LONG_MIN <= long z <= LONG_MAX.
Proof.
  unfold LONG_MIN, LONG_MAX, long, wrap_signed.
  pose proof long_pow_split. pose proof long_half_pos.
  pose proof (Z.mod_pos_bound (z + 2 ^ (LONG_BITS - 1)) (2 ^ LONG_BITS)).
  lia.
Qed.

(** ** Buffers *)

Lemma store_Some {A} (arr : list A) p x :
  0 <= p < Z.of_nat (length arr) ->
  store arr p x = Some (<[Z.to_nat p := x]> arr).
Proof.
  intros H. unfold store.
  destruct (0 <=? p) eqn:E1; [|lia].
  destruct (p <? Z.of_nat (length arr)) eqn:E2; [reflexivity|lia].
Qed.

Lemma store_length {A} (arr arr' : list A) p x :
  store arr p x = Some arr' -> length arr' = length arr.
Proof.
  unfold store. destruct (_ && _); [|discriminate].
  intros [= <-]. apply length_insert.
Qed.

Lemma load_Some {A} (arr : list A) p x :
  load arr p = Some x -> 0 <= p < Z.of_nat (length arr) /\ arr !! Z.to_nat p = Some x.
Proof.
  unfold load. destruct (0 <=? p) eqn:E; [|discriminate].
  intros H. pose proof (lookup_lt_Some _ _ _ H). split; [lia|exact H].
Qed.

Lemma c_string_app_nul (s rest : list ascii) :
  forallb (fun c => negb (is_nul c)) s = true ->
  c_string (s ++ NUL :: rest) = s.
Proof.
  induction s as [|c s IH]; simpl; [reflexivity|].
  intros H. apply andb_prop in H as [Hc Hs].
  destruct (is_nul c); [discriminate|]. by rewrite IH.
Qed.

(** ** The digit loops of [bmt_itoa] *)

Lemma rev_digits_length fuel t : (length (rev_digits fuel t) <= fuel)%nat.
Proof.
  revert t. induction fuel as [|fuel IH]; intros t; simpl; [lia|].
  destruct (0 <? t); simpl; [|lia]. specialize (IH (Z.quot t 10)). lia.
Qed.

Lemma count_digits_length fuel : forall t n,
  0 <= n -> n + Z.of_nat fuel < 2 ^ 31 ->
  count_digits fuel t n = n + Z.of_nat (length (rev_digits fuel t)).
Proof.
  induction fuel as [|fuel IH]; intros t n Hn Hb; simpl; [lia|].
  destruct (0 <? t); simpl; [|lia].
  rewrite int_small by lia. rewrite IH by lia. lia.
Qed.

Lemma drop_insert_here {A} (l : list A) q x :
  (q < length l)%nat -> drop q (<[q := x]> l) = x :: drop (S q) l.
Proof.
  intros H. rewrite drop_insert_ge by lia. rewrite Nat.sub_diag.
  destruct (lookup_lt_is_Some_2 l q H) as [y Hy].
  by rewrite (drop_S l y q Hy).
Qed.

Lemma write_digits_spec fuel : forall t p buf,
  Z.of_nat (length (rev_digits fuel t)) <= p + 1 <= Z.of_nat (length buf) ->
  write_digits fuel t p buf =
    Some (take (Z.to_nat (p + 1) - length (rev_digits fuel t)) buf
          ++ rev (rev_digits fuel t) ++ drop (Z.to_nat (p + 1)) buf).
Proof.
  induction fuel as [|fuel IH]; intros t p buf H; simpl in *.
  - rewrite Nat.sub_0_r. by rewrite take_drop.
  - destruct (0 <? t); simpl in *.
    + rewrite store_Some by lia.
      rewrite IH by (rewrite length_insert; lia).
      f_equal.
      replace (Z.to_nat (p - 1 + 1)) with (Z.to_nat p) by lia.
      replace (Z.to_nat (p + 1)) with (S (Z.to_nat p)) by lia.
      rewrite take_insert_ge by lia.
      rewrite drop_insert_here by lia.
      rewrite <- !app_assoc. reflexivity.
    + rewrite Nat.sub_0_r. by rewrite take_drop.
Qed.

(** [bmt_itoa] in radix 10, for a value other than zero: where the sign,
    the digits and the terminator end up. *)
Lemma bmt_itoa_nonzero val buf :
  val <> 0 ->
  LONG_BITS + 2 <= Z.of_nat (length buf) ->
  let t := if val <? 0 then long (- val) else val in
  let sign := if val <? 0 then ["-"%char] else [] in
  let ds := rev_digits itoa_fuel t in
  bmt_itoa val buf 10 =
    Some (sign ++ rev ds ++ NUL :: drop (length sign + length ds + 1) buf).
Proof.
  intros Hval Hlen t sign ds. unfold bmt_itoa. simpl.
  destruct (val =? 0) eqn:E0; [lia|].
  pose proof (rev_digits_length itoa_fuel t) as Hds. fold ds in Hds.
  assert (Hfuel : Z.of_nat itoa_fuel = LONG_BITS) by (unfold itoa_fuel; lia).
  destruct (val <? 0) eqn:Eneg; subst t sign; simpl.
  - rewrite store_Some by lia. simpl.
    rewrite count_digits_length by lia. fold ds.
    rewrite store_Some by (rewrite length_insert; lia).
    rewrite write_digits_spec; fold ds; rewrite ?length_insert; [|lia].
    f_equal.
    replace (Z.to_nat (0 + 1 + (0 + Z.of_nat (length ds)) - 1 + 1))
      with (S (length ds)) by lia.
    replace (Z.to_nat (0 + 1 + (0 + Z.of_nat (length ds))))
      with (S (length ds)) by lia.
    replace (S (length ds) - length ds)%nat with 1%nat by lia.
    rewrite drop_insert_here by (rewrite length_insert; lia).
    rewrite take_insert_ge by lia.
    destruct buf as [|c0 buf]; [simpl in Hlen; lia|].
    simpl. replace (length ds + 1)%nat with (S (length ds)) by lia.
    reflexivity.
  - rewrite count_digits_length by lia. fold ds.
    rewrite store_Some by lia.
    rewrite write_digits_spec; fold ds; rewrite ?length_insert; [|lia].
    f_equal.
    replace (Z.to_nat (0 + (0 + Z.of_nat (length ds)) - 1 + 1))
      with (length ds) by lia.
    replace (Z.to_nat (0 + (0 + Z.of_nat (length ds))))
      with (length ds) by lia.
    rewrite Nat.sub_diag, take_0. simpl.
    rewrite drop_insert_here by lia.
    replace (length ds + 1)%nat with (S (length ds)) by lia. reflexivity.
Qed.

Lemma bmt_itoa_128_defined val :
  exists b, bmt_itoa val (char_array 128) 10 = Some b.
Proof.
  destruct (Z.eq_dec val 0) as [->|Hval].
  - eexists. reflexivity.
  - eexists. apply bmt_itoa_nonzero; [exact Hval|].
    unfold char_array. rewrite repeat_length. lia.
Qed.

(** In the buffer of 128 characters of [bmt_run_all_tests] the
    conversion never writes out of bounds, whatever the value. *)
Lemma itoa_puts_128 val st :
  itoa_puts 128 val st = Returned tt (emit (itoa_text val) st).
Proof.
  unfold itoa_puts, itoa_text, bind, defined, bmt_platform_puts.
  destruct (bmt_itoa_128_defined val) as [b ->]. reflexivity.
Qed.

(** ** Sequencing *)

Lemma bind_Returned {A B} (m : M A) (k : A -> M B) st a st' :
  m st = Returned a st' -> (x <- m ;; k x) st = k a st'.
Proof. unfold bind. by intros ->. Qed.

Lemma bind_LongJmp {A B} (m : M A) (k : A -> M B) st st' :
  m st = LongJmp st' -> (x <- m ;; k x) st = LongJmp st'.
Proof. unfold bind. by intros ->. Qed.

Lemma bind_Undefined {A B} (m : M A) (k : A -> M B) st :
  m st = Undefined -> (x <- m ;; k x) st = Undefined.
Proof. unfold bind. by intros ->. Qed.

Lemma bind_itoa_puts_128 {B} val (k : unit -> M B) st :
  (x <- itoa_puts 128 val ;; k x) st = k tt (emit (itoa_text val) st).
Proof. apply bind_Returned, itoa_puts_128. Qed.

Lemma emit_emit s1 s2 st : emit s2 (emit s1 st) = emit (s1 ++ s2) st.
Proof. unfold emit. simpl. by rewrite app_assoc. Qed.

Lemma bind_ret {A B} (a : A) (k : A -> M B) st :
  (x <- ret a ;; k x) st = k a st.
Proof. reflexivity. Qed.

Lemma bind_assoc {A B C} (m : M A) (f : A -> M B) (k : B -> M C) st :
  (y <- (x <- m ;; f x) ;; k y) st = (x <- m ;; y <- f x ;; k y) st.
Proof. unfold bind. destruct (m st); reflexivity. Qed.

Lemma bind_puts {B} s (k : unit -> M B) st :
  (x <- bmt_platform_puts s ;; k x) st = k tt (emit s st).
Proof. reflexivity. Qed.

Lemma bind_putchar {B} c (k : unit -> M B) st :
  (x <- bmt_platform_putchar c ;; k x) st = k tt (emit [c] st).
Proof. reflexivity. Qed.

Lemma bind_get_ticks {B} (k : Z -> M B) st :
  (x <- bmt_platform_get_msec_ticks ;; k x) st = k (read_ticks st) (tick st).
Proof. reflexivity. Qed.

Lemma bind_defined {A B} (a : A) (k : A -> M B) st :
  (x <- defined (Some a) ;; k x) st = k a st.
Proof. reflexivity. Qed.

Lemma bind_write_failed_expect {B} v (k : unit -> M B) st :
  (x <- write_failed_expect v ;; k x) st = k tt (set_failed_expect v st).
Proof. reflexivity. Qed.

Lemma bind_read_failed_expect {B} (k : bool -> M B) st :
  (x <- read_failed_expect ;; k x) st
  = k (g_bmt_current_test_failed_expect st) st.
Proof. reflexivity. Qed.

Create Rewrite HintDb bmt.
#[local] Hint Rewrite @bind_assoc @bind_ret @bind_puts @bind_putchar
  @bind_get_ticks @bind_defined @bind_write_failed_expect
  @bind_read_failed_expect @bind_itoa_puts_128 emit_emit : bmt.

(** ** One iteration of the runner *)

(** What one iteration does, in terms of the way the body ends. *)
Lemma run_test_spec i cases acc st tc b :
  load cases i = Some tc ->
  func tc = Some b ->
  run_test i cases acc st =
    let start_ticks := read_ticks st in
    let finish passed_assert st' :=
      let duration := elapsed start_ticks (read_ticks st') in
      let passed := test_passed passed_assert st' in
      Returned (<[Z.to_nat i := record_test tc passed duration]> cases,
                count_test acc passed duration)
               (emit (result_line passed tc duration) (tick st')) in
    match b (test_entry tc st) with
    | Returned _ st' => finish true st'
    | LongJmp st' => finish false st'
    | Undefined => Undefined
    end.
Proof.
  intros Hload Hfunc.
  destruct (load_Some _ _ _ Hload) as [Hi _].
  unfold run_test, put_test_name. rewrite Hload.
  autorewrite with bmt.
  unfold test_entry, run_line. rewrite <- !app_assoc.
  unfold bind at 1, setjmp_call.
  destruct tc as [sn tn f lp d]; simpl in Hfunc; subst f; cbn [func].
  match goal with |- context [b ?s] => destruct (b s) as [[] st'| st'|] end;
    [| |reflexivity].
  all: autorewrite with bmt; rewrite store_Some by lia;
    autorewrite with bmt;
    cbn [suite_name test_name func last_run_passed duration_ms];
    unfold test_passed, record_test, count_test, result_line, read_ticks;
    cbn [tick set_failed_expect emit tick_source tick_reads
         g_bmt_current_test_failed_expect suite_name test_name func];
    destruct (g_bmt_current_test_failed_expect st'); cbn [andb negb];
    autorewrite with bmt; rewrite <- ?app_assoc; reflexivity.
Qed.

Lemma run_test_null i cases acc st tc :
  load cases i = Some tc -> func tc = None ->
  run_test i cases acc st = Undefined.
Proof.
  intros Hload Hfunc. unfold run_test, put_test_name. rewrite Hload.
  autorewrite with bmt. unfold bind at 1, setjmp_call. by rewrite Hfunc.
Qed.

(** One iteration is the run of the descriptor at index [i], stored back
    at index [i]. *)
Lemma run_test_descriptor i cases acc st tc :
  load cases i = Some tc ->
  run_test i cases acc st =
    (r <- run_descriptor tc acc ;;
     ret (<[Z.to_nat i := fst r]> cases, snd r)) st.
Proof.
  intros Hload. unfold bind, run_descriptor.
  destruct (func tc) as [b|] eqn:Hfunc.
  - rewrite (run_test_spec _ _ _ _ _ _ Hload Hfunc). cbn zeta.
    destruct (b (test_entry tc st)) as [[] st'|st'|]; reflexivity.
  - by apply (run_test_null _ _ _ _ tc).
Qed.

(** ** The loop over the registered tests *)

(** The loop over the indices [i], ..., [i + n - 1] of the array is the
    run, in order, of the descriptors found there. *)
Lemma run_loop_in_order n : forall i cases acc st,
  0 <= i -> i + Z.of_nat n <= Z.of_nat (length cases) ->
  Z.of_nat (length cases) < 2 ^ 31 ->
  run_loop n i cases acc st =
    (r <- run_in_order (take n (drop (Z.to_nat i) cases)) acc ;;
     ret (take (Z.to_nat i) cases ++ fst r
          ++ drop (Z.to_nat i + n) cases, snd r)) st.
Proof.
  induction n as [|n IH]; intros i cases acc st Hi Hn Hlen.
  - cbn [run_loop]. rewrite take_0. cbn [run_in_order].
    autorewrite with bmt. cbn [fst snd].
    rewrite Nat.add_0_r. cbn [app]. rewrite take_drop. reflexivity.
  - destruct (lookup_lt_is_Some_2 cases (Z.to_nat i)) as [tc Htc]; [lia|].
    assert (Hload : load cases i = Some tc).
    { unfold load. destruct (0 <=? i) eqn:E; [exact Htc|lia]. }
    cbn [run_loop]. unfold bind at 1.
    rewrite (run_test_descriptor _ _ _ _ _ Hload).
    rewrite (drop_S _ _ _ Htc), firstn_cons. cbn [run_in_order].
    unfold bind.
    destruct (run_descriptor tc acc st) as [[tc' acc'] st'|st'|];
      [|reflexivity|reflexivity].
    unfold ret at 1. cbn [fst snd].
    rewrite int_small by lia. rewrite IH; rewrite ?length_insert; try lia.
    replace (Z.to_nat (i + 1)) with (S (Z.to_nat i)) by lia.
    rewrite drop_insert_lt by lia.
    unfold bind.
    destruct (run_in_order _ acc' st') as [[tcs' acc''] st''|st''|];
      [|reflexivity|reflexivity].
    unfold ret. cbn [fst snd]. do 2 f_equal.
    rewrite drop_insert_lt by lia.
    rewrite (take_S_r _ _ tc') by (apply list_lookup_insert_eq; lia).
    rewrite take_insert_ge by lia.
    rewrite <- app_assoc. simpl. by rewrite Nat.add_succ_r.
Qed.

Lemma run_descriptor_runnable tc acc st :
  runnable tc ->
  exists passed duration st',
    run_descriptor tc acc st =
      Returned (record_test tc passed duration, count_test acc passed duration)
               st'.
Proof.
  intros (b & Hb & Hdef). unfold run_descriptor. rewrite Hb.
  specialize (Hdef (test_entry tc st)).
  destruct (b (test_entry tc st)) as [[] st'|st'|]; [| |congruence];
    cbn zeta; eauto.
Qed.

Lemma same_test_record tc passed duration :
  same_test tc (record_test tc passed duration).
Proof. by repeat split. Qed.

(** The run of a list of runnable descriptors completes; it keeps the
    identity of every test, and the three accumulators count what the
    descriptors record. *)
Lemma run_in_order_spec tcs : forall acc st,
  Forall runnable tcs ->
  0 <= tests_passed acc -> 0 <= tests_failed acc ->
  tests_passed acc + Z.of_nat (length tcs) < 2 ^ 31 ->
  tests_failed acc + Z.of_nat (length tcs) < 2 ^ 31 ->
  0 <= total_duration_ms acc < 2 ^ 32 ->
  exists tcs' acc' st',
    run_in_order tcs acc st = Returned (tcs', acc') st'
    /\ Forall2 same_test tcs tcs'
    /\ tests_failed acc' = tests_failed acc + Z.of_nat (length (failing tcs'))
    /\ tests_passed acc' = tests_passed acc + Z.of_nat (length (passing tcs'))
    /\ total_duration_ms acc'
       = uint32_t (total_duration_ms acc + sum_durations tcs').
Proof.
  induction tcs as [|tc tcs IH]; intros acc st Hrun Hp Hf Hpb Hfb Ht.
  - exists [], acc, st. repeat split; simpl; try lia; [constructor|].
    rewrite Z.add_0_r. by rewrite uint32_t_small.
  - inversion Hrun as [|? ? Htc Htcs]; subst.
    destruct (run_descriptor_runnable tc acc st Htc) as (p & d & st1 & E1).
    simpl in Hpb, Hfb.
    destruct (IH (count_test acc p d) st1 Htcs) as
      (tcs' & acc' & st' & E2 & Hsame & Hfail & Hpass & Htot).
    1-4: unfold count_test; destruct p; cbn [tests_passed tests_failed];
         rewrite ?int_small; lia.
    { apply uint32_t_range. }
    exists (record_test tc p d :: tcs'), acc', st'.
    cbn [run_in_order]. unfold bind. rewrite E1. cbn [fst snd]. rewrite E2.
    split; [reflexivity|].
    split; [constructor; [apply same_test_record|exact Hsame]|].
    unfold failing, passing, sum_durations in *.
    cbn [List.filter fold_right record_test last_run_passed duration_ms].
    rewrite Hfail, Hpass, Htot. unfold count_test.
    destruct p; cbn [negb tests_passed tests_failed total_duration_ms length];
      rewrite ?int_small by lia; repeat split; try lia.
    all: unfold uint32_t; rewrite Zplus_mod_idemp_l; f_equal; lia.
Qed.

(** ** The list of failing tests *)

Lemma emit_nil st : emit [] st = st.
Proof. destruct st. unfold emit. simpl. by rewrite app_nil_r. Qed.

Lemma list_failed_spec n : forall i cases st,
  0 <= i -> i + Z.of_nat n <= Z.of_nat (length cases) ->
  Z.of_nat (length cases) < 2 ^ 31 ->
  list_failed n i cases st =
    Returned tt (emit (failed_list (take n (drop (Z.to_nat i) cases))) st).
Proof.
  induction n as [|n IH]; intros i cases st Hi Hn Hlen.
  - cbn [list_failed]. rewrite take_0. unfold failed_list. simpl.
    by rewrite emit_nil.
  - destruct (lookup_lt_is_Some_2 cases (Z.to_nat i)) as [tc Htc]; [lia|].
    assert (Hload : load cases i = Some tc).
    { unfold load. destruct (0 <=? i) eqn:E; [exact Htc|lia]. }
    cbn [list_failed]. rewrite Hload. autorewrite with bmt.
    rewrite (drop_S _ _ _ Htc), firstn_cons.
    unfold failed_list, failing. cbn [List.filter].
    rewrite int_small by lia.
    destruct (last_run_passed tc); cbn [negb]; unfold put_test_name;
      autorewrite with bmt; rewrite IH by lia;
      replace (Z.to_nat (i + 1)) with (S (Z.to_nat i)) by lia;
      autorewrite with bmt; [reflexivity|].
    cbn [map concat]. unfold failed_list, failing, failed_line.
    rewrite <- !app_assoc. reflexivity.
Qed.

(** ** The whole run *)

Lemma print_summary_spec count cases acc st :
  0 <= count <= Z.of_nat (length cases) ->
  Z.of_nat (length cases) < 2 ^ 31 ->
  print_summary count cases acc st =
    Returned tt (emit (summary_text count (take (Z.to_nat count) cases) acc) st).
Proof.
  intros Hc Hlen.
  unfold print_summary, summary_text, summary_counts, failed_header,
    summary_verdict.
  autorewrite with bmt.
  destruct (tests_failed acc >? 0); autorewrite with bmt.
  - unfold bind at 1. rewrite list_failed_spec by lia.
    change (Z.to_nat 0) with 0%nat. rewrite drop_0.
    autorewrite with bmt.
    destruct (tests_failed acc =? 1); unfold bmt_platform_puts;
      rewrite emit_emit; rewrite <- !app_assoc; reflexivity.
  - destruct (tests_failed acc =? 1); unfold bmt_platform_puts;
      rewrite emit_emit; rewrite <- !app_assoc; reflexivity.
Qed.

Lemma registered_length g :
  registry_wf g -> length (registered g) = Z.to_nat (g_bmt_test_count g).
Proof.
  intros [Hlen Hc]. unfold registered. rewrite length_take. lia.
Qed.

(** The run of a well-formed registry whose registered tests are
    runnable: it completes, it is the run in order of the registered
    descriptors, started after the banner, followed by the summary; the
    descriptors beyond the count are left alone. *)
Lemma bmt_run_all_tests_spec g st :
  registry_wf g ->
  Forall runnable (registered g) ->
  exists tcs' acc' st1,
    run_in_order (registered g) counters_zero
      (emit (banner_text (g_bmt_test_count g)) st)
      = Returned (tcs', acc') st1
    /\ Forall2 same_test (registered g) tcs'
    /\ tests_failed acc' = Z.of_nat (length (failing tcs'))
    /\ tests_passed acc' = Z.of_nat (length (passing tcs'))
    /\ total_duration_ms acc' = uint32_t (sum_durations tcs')
    /\ bmt_run_all_tests g st =
         Returned (tests_failed acc',
                   {| g_bmt_test_cases :=
                        tcs' ++ drop (Z.to_nat (g_bmt_test_count g))
                                  (g_bmt_test_cases g);
                      g_bmt_test_count := g_bmt_test_count g |})
                  (emit (summary_text (g_bmt_test_count g) tcs' acc') st1).
Proof.
  intros Hwf Hrun. pose proof (registered_length g Hwf) as Hreg.
  destruct Hwf as [Hlen Hc]. unfold BMT_MAX_TEST_CASES in *.
  destruct (run_in_order_spec (registered g) counters_zero
              (emit (banner_text (g_bmt_test_count g)) st) Hrun)
    as (tcs' & acc' & st1 & E & Hsame & Hf & Hp & Ht);
    cbn [counters_zero tests_passed tests_failed total_duration_ms];
    try lia.
  exists tcs', acc', st1.
  cbn [counters_zero tests_passed tests_failed total_duration_ms] in *.
  rewrite Z.add_0_l in Hf, Hp, Ht.
  repeat (split; [assumption|]).
  unfold bmt_run_all_tests, bmt_platform_io_init.
  autorewrite with bmt. unfold bind at 1.
  rewrite run_loop_in_order by lia.
  change (Z.to_nat 0) with 0%nat. rewrite drop_0, take_0.
  fold (registered g). unfold banner_text in E. unfold bind at 1.
  rewrite <- ?app_assoc. fold counters_zero. rewrite E.
  unfold ret at 1. cbn [fst snd app Nat.add]. unfold bind at 1.
  pose proof (Forall2_length _ _ _ Hsame) as Hl.
  rewrite print_summary_spec; rewrite ?length_app, ?length_drop; try lia.
  rewrite take_app_length' by lia. reflexivity.
Qed.

(** ** Registration *)

Lemma registry_init_wf : registry_wf registry_init.
Proof. split; simpl; unfold BMT_MAX_TEST_CASES; lia. Qed.

Lemma bmt_register_test_room suite test f g st :
  registry_wf g ->
  g_bmt_test_count g < BMT_MAX_TEST_CASES ->
  bmt_register_test suite test f g st =
    Returned {| g_bmt_test_cases :=
                  <[Z.to_nat (g_bmt_test_count g) := new_descriptor (suite, test, f)]>
                    (g_bmt_test_cases g);
                g_bmt_test_count := g_bmt_test_count g + 1 |} st.
Proof.
  intros [Hlen Hc] Hroom. unfold bmt_register_test.
  destruct (g_bmt_test_count g <? BMT_MAX_TEST_CASES) eqn:E; [|lia].
  rewrite store_Some by lia. autorewrite with bmt.
  unfold BMT_MAX_TEST_CASES in *. rewrite int_small by lia. reflexivity.
Qed.

Lemma bmt_register_test_full suite test f g st :
  BMT_MAX_TEST_CASES <= g_bmt_test_count g ->
  bmt_register_test suite test f g st = Returned g (emit overflow_text st).
Proof.
  intros Hfull. unfold bmt_register_test.
  destruct (g_bmt_test_count g <? BMT_MAX_TEST_CASES) eqn:E; [lia|].
  reflexivity.
Qed.

Lemma bmt_register_test_wf suite test f g st :
  registry_wf g ->
  exists g' st',
    bmt_register_test suite test f g st = Returned g' st' /\ registry_wf g'.
Proof.
  intros Hwf.
  destruct (Z_lt_le_dec (g_bmt_test_count g) BMT_MAX_TEST_CASES) as [Hroom|Hfull].
  - rewrite bmt_register_test_room by assumption.
    eexists _, _. split; [reflexivity|].
    destruct Hwf as [Hlen Hc]. split; simpl; rewrite ?length_insert; lia.
  - rewrite bmt_register_test_full by assumption. eauto.
Qed.

Lemma register_all_wf ts : forall g st,
  registry_wf g ->
  exists g' st', register_all ts g st = Returned g' st' /\ registry_wf g'.
Proof.
  induction ts as [|[[suite test] f] ts IH]; intros g st Hwf.
  - eexists _, _. split; [reflexivity|assumption].
  - destruct (bmt_register_test_wf suite test f g st Hwf) as (g1 & st1 & E & Hwf1).
    cbn [register_all]. unfold bind. rewrite E. by apply IH.
Qed.

(** Registrations that fit append their descriptors, in order, and print
    nothing. *)
Lemma register_all_room ts : forall g st,
  registry_wf g ->
  g_bmt_test_count g + Z.of_nat (length ts) <= BMT_MAX_TEST_CASES ->
  exists g',
    register_all ts g st = Returned g' st
    /\ registry_wf g'
    /\ g_bmt_test_count g' = g_bmt_test_count g + Z.of_nat (length ts)
    /\ registered g' = registered g ++ map new_descriptor ts.
Proof.
  induction ts as [|[[suite test] f] ts IH]; intros g st Hwf Hroom.
  - exists g. cbn [register_all length map]. rewrite app_nil_r.
    repeat split; try apply Hwf. simpl. lia.
  - cbn [length] in Hroom. cbn [register_all]. unfold bind.
    rewrite bmt_register_test_room by (try assumption; lia).
    set (g1 := {| g_bmt_test_cases := _; g_bmt_test_count := _ |}).
    assert (Hwf1 : registry_wf g1).
    { destruct Hwf as [Hlen Hc]. split; simpl; rewrite ?length_insert; lia. }
    destruct (IH g1 st Hwf1) as (g' & E & Hwf' & Hcount & Hreg);
      [simpl; lia|].
    exists g'. split; [exact E|]. split; [exact Hwf'|].
    split; [rewrite Hcount; simpl; lia|].
    rewrite Hreg. unfold registered, g1. cbn [g_bmt_test_count g_bmt_test_cases].
    destruct Hwf as [Hlen Hc].
    replace (Z.to_nat (g_bmt_test_count g + 1))
      with (S (Z.to_nat (g_bmt_test_count g))) by lia.
    rewrite (take_S_r _ _ (new_descriptor (suite, test, f)))
      by (apply list_lookup_insert_eq; lia).
    rewrite take_insert_ge by lia.
    rewrite <- app_assoc. reflexivity.
Qed.

Lemma passing_failing_length tcs :
  (length (passing tcs) + length (failing tcs) = length tcs)%nat.
Proof.
  unfold passing, failing. induction tcs as [|tc tcs IH]; simpl; [lia|].
  destruct (last_run_passed tc); simpl; lia.
Qed.

(** The run is the run in order of the registered descriptors, between
    the banner and the summary, whether or not the bodies behave. *)
Lemma bmt_run_all_tests_in_order g st :
  registry_wf g ->
  bmt_run_all_tests g st =
    (r <- run_in_order (registered g) counters_zero ;;
     let cases' := fst r ++ drop (Z.to_nat (g_bmt_test_count g))
                              (g_bmt_test_cases g) in
     print_summary (g_bmt_test_count g) cases' (snd r) ;;
     ret (tests_failed (snd r),
          {| g_bmt_test_cases := cases';
             g_bmt_test_count := g_bmt_test_count g |}))
    (emit (banner_text (g_bmt_test_count g)) st).
Proof.
  intros [Hlen Hc]. unfold BMT_MAX_TEST_CASES in *.
  unfold bmt_run_all_tests, bmt_platform_io_init, banner_text.
  autorewrite with bmt. rewrite <- ?app_assoc.
  unfold bind at 1. rewrite run_loop_in_order by lia.
  change (Z.to_nat 0) with 0%nat. rewrite drop_0, take_0.
  fold (registered g). fold counters_zero. unfold bind.
  destruct (run_in_order _ _ _) as [[tcs' acc'] st1|st1|]; reflexivity.
Qed.

(** * The claims *)

(** C4. When the registry already holds [BMT_MAX_TEST_CASES]
    descriptors, [bmt_register_test] returns with the registry, count
    and entries, exactly as it was and with the overflow diagnostic
    printed; a registration never aborts and keeps the registry
    well-formed, so that no sequence of registrations from the initial
    registry brings the count above the capacity. *)
Theorem C4_register_at_capacity g suite test f st :
  registry_wf g ->
  (g_bmt_test_count g = BMT_MAX_TEST_CASES ->
   bmt_register_test suite test f g st = Returned g (emit overflow_text st))
  /\ (exists g' st',
        bmt_register_test suite test f g st = Returned g' st'
        /\ registry_wf g')
  /\ (forall ts st0, exists g' st',
        register_all ts registry_init st0 = Returned g' st'
        /\ g_bmt_test_count g' <= BMT_MAX_TEST_CASES).
Proof.
  intros Hwf. split; [|split].
  - intros Hfull. apply bmt_register_test_full. lia.
  - by apply bmt_register_test_wf.
  - intros ts st0.
    destruct (register_all_wf ts registry_init st0 registry_init_wf)
      as (g' & st' & E & [_ Hc]).
    exists g', st'. split; [exact E|lia].
Qed.

(** C7. Registering [N <= BMT_MAX_TEST_CASES] tests from the empty
    registry completes silently with a count of [N] and with the [N]
    descriptors of the tests, in the order of registration, as the
    registered entries; [bmt_run_all_tests] on that registry is, between
    banner and summary, the run of these descriptors one after the other
    in that order, every body being called once. *)
Theorem C7_registration_order ts st :
  Z.of_nat (length ts) <= BMT_MAX_TEST_CASES ->
  exists g,
    register_all ts registry_init st = Returned g st
    /\ g_bmt_test_count g = Z.of_nat (length ts)
    /\ registered g = map new_descriptor ts
    /\ length (registered g) = length ts
    /\ forall st0,
         bmt_run_all_tests g st0 =
           (r <- run_in_order (map new_descriptor ts) counters_zero ;;
            let cases' := fst r ++ drop (length ts) (g_bmt_test_cases g) in
            print_summary (Z.of_nat (length ts)) cases' (snd r) ;;
            ret (tests_failed (snd r),
                 {| g_bmt_test_cases := cases';
                    g_bmt_test_count := Z.of_nat (length ts) |}))
           (emit (banner_text (Z.of_nat (length ts))) st0).
Proof.
  intros Hn.
  destruct (register_all_room ts registry_init st registry_init_wf)
    as (g & E & Hwf & Hcount & Hreg); [simpl; lia|].
  change (g_bmt_test_count registry_init) with 0 in Hcount.
  change (registered registry_init) with (@nil bmt_test_case_t) in Hreg.
  rewrite Z.add_0_l in Hcount. cbn [app] in Hreg.
  exists g. repeat split; try assumption.
  - by rewrite Hreg, length_map.
  - intros st0. rewrite bmt_run_all_tests_in_order by assumption.
    rewrite Hreg, Hcount, Nat2Z.id. reflexivity.
Qed.

(** C10. A run over a well-formed registry of runnable tests completes;
    when the loop over the tests ends, the passed counter plus the failed
    counter is the number of registered tests, and the value returned,
    which is the failed counter, lies between 0 and that number. *)
Theorem C10_counters_partition g st :
  registry_wf g ->
  Forall runnable (registered g) ->
  exists cases' acc st1 g' st',
    run_loop (Z.to_nat (g_bmt_test_count g)) 0 (g_bmt_test_cases g)
      counters_zero (emit (banner_text (g_bmt_test_count g)) st)
      = Returned (cases', acc) st1
    /\ bmt_run_all_tests g st = Returned (tests_failed acc, g') st'
    /\ tests_passed acc + tests_failed acc = g_bmt_test_count g
    /\ 0 <= tests_failed acc <= g_bmt_test_count g.
Proof.
  intros Hwf Hrun.
  destruct (bmt_run_all_tests_spec g st Hwf Hrun)
    as (tcs' & acc' & st1 & E & Hsame & Hf & Hp & Ht & Erun).
  pose proof (registered_length g Hwf) as Hreg.
  pose proof (Forall2_length _ _ _ Hsame) as Hl.
  pose proof (passing_failing_length tcs') as Hpf.
  destruct Hwf as [Hlen Hc]. unfold BMT_MAX_TEST_CASES in *.
  eexists _, acc', st1, _, _. split; [|split; [exact Erun|lia]].
  rewrite run_loop_in_order by lia.
  change (Z.to_nat 0) with 0%nat. rewrite drop_0, take_0.
  fold (registered g). unfold bind. rewrite E. reflexivity.
Qed.

(** C3. A run over a well-formed registry of runnable tests returns the
    number of registered descriptors whose recorded state is failed (0
    exactly when none is), the descriptors being those registered, in
    the same order; what the run prints after the loop is the counts,
    then, only when that number is positive, the header and one
    [[  FAILED  ] suite.name] line per failing descriptor in the order of
    the registry, then the verdict. *)
Theorem C3_failure_count_and_list g st :
  registry_wf g ->
  Forall runnable (registered g) ->
  exists n g' cases' acc st1 st',
    bmt_run_all_tests g st = Returned (n, g') st'
    /\ run_loop (Z.to_nat (g_bmt_test_count g)) 0 (g_bmt_test_cases g)
         counters_zero (emit (banner_text (g_bmt_test_count g)) st)
         = Returned (cases', acc) st1
    /\ g_bmt_test_count g' = g_bmt_test_count g
    /\ Forall2 same_test (registered g) (registered g')
    /\ n = Z.of_nat (length (failing (registered g')))
    /\ (n = 0 <-> failing (registered g') = [])
    /\ output st' =
         output st1
         ++ summary_counts (g_bmt_test_count g) acc
         ++ (if n >? 0
             then failed_header n
                  ++ concat (map failed_line (failing (registered g')))
             else [])
         ++ summary_verdict n.
Proof.
  intros Hwf Hrun.
  destruct (bmt_run_all_tests_spec g st Hwf Hrun)
    as (tcs' & acc' & st1 & E & Hsame & Hf & Hp & Ht & Erun).
  pose proof (registered_length g Hwf) as Hreg.
  pose proof (Forall2_length _ _ _ Hsame) as Hl.
  destruct Hwf as [Hlen Hc]. unfold BMT_MAX_TEST_CASES in *.
  eexists _, _, _, acc', st1, _. split; [exact Erun|].
  assert (Hreg' : registered
            {| g_bmt_test_cases :=
                 tcs' ++ drop (Z.to_nat (g_bmt_test_count g)) (g_bmt_test_cases g);
               g_bmt_test_count := g_bmt_test_count g |} = tcs').
  { unfold registered. simpl. apply take_app_length'. lia. }
  rewrite Hreg'. split; [|repeat split; try assumption].
  - rewrite run_loop_in_order by lia.
    change (Z.to_nat 0) with 0%nat. rewrite drop_0, take_0.
    fold (registered g). unfold bind. rewrite E. reflexivity.
  - rewrite Hf. destruct (failing tcs'); simpl; [reflexivity|lia].
  - intros E0. rewrite Hf, E0. reflexivity.
Qed.

(** ** Durations *)

Lemma elapsed_no_wrap start_ticks end_ticks :
  0 <= start_ticks < 2 ^ 32 -> 0 <= end_ticks < 2 ^ 32 ->
  elapsed start_ticks end_ticks =
    if end_ticks >=? start_ticks then end_ticks - start_ticks
    else (0xFFFFFFFF - start_ticks) + end_ticks + 1.
Proof.
  intros Hs He. unfold elapsed.
  destruct (end_ticks >=? start_ticks) eqn:E.
  - apply uint32_t_small. lia.
  - rewrite (uint32_t_small (0xFFFFFFFF - start_ticks)) by lia.
    rewrite (uint32_t_small (_ + end_ticks)) by lia.
    apply uint32_t_small. lia.
Qed.

Lemma read_ticks_range st : 0 <= read_ticks st < 2 ^ 32.
Proof. apply uint32_t_range. Qed.

(** C5. For two 32-bit tick values the duration computed by the runner
    is [end - start] when [end >= start] and
    [(0xFFFFFFFF - start) + end + 1] otherwise, without any wrap-around
    of the intermediate results; from [0xFFFFFFF0] to [5] it is 21.  An
    iteration of the runner whose body ends, by return or by [longjmp],
    records in the descriptor that duration for the tick read before the
    body and the tick read after it, and adds it, in [uint32_t], to the
    total. *)
Theorem C5_duration i cases acc st tc b st' start_ticks end_ticks :
  0 <= start_ticks < 2 ^ 32 ->
  0 <= end_ticks < 2 ^ 32 ->
  load cases i = Some tc ->
  func tc = Some b ->
  b (test_entry tc st) = Returned tt st' \/ b (test_entry tc st) = LongJmp st' ->
  (elapsed start_ticks end_ticks =
     if end_ticks >=? start_ticks then end_ticks - start_ticks
     else (0xFFFFFFFF - start_ticks) + end_ticks + 1)
  /\ elapsed 0xFFFFFFF0 5 = 21
  /\ exists cases' acc' st'' tc',
       run_test i cases acc st = Returned (cases', acc') st''
       /\ load cases' i = Some tc'
       /\ duration_ms tc' =
            (if read_ticks st' >=? read_ticks st
             then read_ticks st' - read_ticks st
             else (0xFFFFFFFF - read_ticks st) + read_ticks st' + 1)
       /\ total_duration_ms acc'
          = uint32_t (total_duration_ms acc + duration_ms tc').
Proof.
  intros Hs He Hload Hfunc Hend.
  split; [by apply elapsed_no_wrap|]. split; [reflexivity|].
  destruct (load_Some _ _ _ Hload) as [Hi _].
  rewrite (run_test_spec _ _ _ _ _ _ Hload Hfunc). cbn zeta.
  assert (Hl : forall x, load (<[Z.to_nat i := x]> cases) i = Some x).
  { intros x. unfold load. destruct (0 <=? i) eqn:E; [|lia].
    apply list_lookup_insert_eq. lia. }
  destruct Hend as [-> | ->]; eexists _, _, _, _;
    (split; [reflexivity|]); (split; [apply Hl|]);
    cbn [record_test count_test duration_ms total_duration_ms];
    (split; [|reflexivity]);
    apply elapsed_no_wrap; apply read_ticks_range.
Qed.

(** ** Fatal and non-fatal checks *)

Lemma load_insert_here {A} (arr : list A) i x :
  0 <= i < Z.of_nat (length arr) ->
  load (<[Z.to_nat i := x]> arr) i = Some x.
Proof.
  intros Hi. unfold load. destruct (0 <=? i) eqn:E; [|lia].
  apply list_lookup_insert_eq. lia.
Qed.

(** What an iteration records, given how its body ends. *)
Lemma run_test_ends i cases acc st tc b passed_assert st' :
  load cases i = Some tc ->
  func tc = Some b ->
  ends_with (b (test_entry tc st)) passed_assert st' ->
  let duration := elapsed (read_ticks st) (read_ticks st') in
  let passed := test_passed passed_assert st' in
  run_test i cases acc st =
    Returned (<[Z.to_nat i := record_test tc passed duration]> cases,
              count_test acc passed duration)
             (emit (result_line passed tc duration) (tick st')).
Proof.
  intros Hload Hfunc Hend. cbn zeta.
  rewrite (run_test_spec _ _ _ _ _ _ Hload Hfunc). cbn zeta.
  inversion Hend as [st1 E|st1 E]; subst; reflexivity.
Qed.

(** A fatal check whose report completes.  Let the body of the
    registered test at index [i] reach, after a part [pre] that returns,
    a fatal check whose condition is false and whose report is printed.  Then the body leaves through the [longjmp]
    in the state left by the report, whatever statements [rest] follow
    the check: none of them runs.  The iteration of the runner completes
    all the same: it records the test as failed, counts it as failed and
    not as passed, and the loop goes on with the next index.  A run over
    a well-formed registry of runnable tests returns. *)
Lemma fatal_failure_isolated g i cases acc st tc
    (pre rest : body) file line ty expr fmt args st1 st2 :
  load cases i = Some tc ->
  func tc =
    Some (pre ;; BMT_ASSERT_COMMON file line false ty expr fmt args ;; rest) ->
  pre (test_entry tc st) = Returned tt st1 ->
  bmt_report_failure file line ty expr fmt args st1 = Returned tt st2 ->
  registry_wf g ->
  Forall runnable (registered g) ->
  (forall rest' : body,
     (pre ;; BMT_ASSERT_COMMON file line false ty expr fmt args ;; rest')
       (test_entry tc st) = LongJmp st2)
  /\ (exists cases' acc' st' tc',
        run_test i cases acc st = Returned (cases', acc') st'
        /\ load cases' i = Some tc'
        /\ last_run_passed tc' = false
        /\ tests_failed acc' = int (tests_failed acc + 1)
        /\ tests_passed acc' = tests_passed acc
        /\ forall n,
             run_loop (S n) i cases acc st =
               run_loop n (int (i + 1)) cases' acc' st')
  /\ (forall st0, exists n g' st',
        bmt_run_all_tests g st0 = Returned (n, g') st').
Proof.
  intros Hload Hfunc Hpre Hrep Hwf Hrun.
  assert (Hjmp : forall rest' : body,
     (pre ;; BMT_ASSERT_COMMON file line false ty expr fmt args ;; rest')
       (test_entry tc st) = LongJmp st2).
  { intros rest'. unfold bind. rewrite Hpre.
    unfold BMT_ASSERT_COMMON. cbn [negb]. unfold bind. rewrite Hrep.
    reflexivity. }
  split; [exact Hjmp|]. split.
  - destruct (load_Some _ _ _ Hload) as [Hi _].
    assert (Hend : ends_with
              ((pre ;; BMT_ASSERT_COMMON file line false ty expr fmt args ;; rest)
                 (test_entry tc st)) false st2).
    { rewrite Hjmp. constructor. }
    pose proof (run_test_ends i cases acc st tc _ false st2 Hload Hfunc Hend)
      as E. cbn zeta in E.
    eexists _, _, _, _. split; [exact E|].
    split; [by apply load_insert_here|].
    repeat split. intros n. cbn [run_loop]. unfold bind. rewrite E.
    reflexivity.
  - intros st0.
    destruct (bmt_run_all_tests_spec g st0 Hwf Hrun)
      as (tcs' & acc' & st1' & _ & _ & _ & _ & _ & Erun).
    eauto.
Qed.

(** A non-fatal check whose report completes.  A non-fatal check whose
    condition is false and whose report is printed sets the flag and hands over to the statements that follow
    it, which run in the state left by the report with the flag set.
    The runner calls every body with the flag reset, and the state it
    records for the test is: the body returned, and the flag is false
    when the body ends. *)
Lemma expect_failure_continues i cases acc st tc b passed_assert st'
    (rest : body) file line ty expr fmt args st1 st2 :
  bmt_report_failure file line ty expr fmt args st1 = Returned tt st2 ->
  load cases i = Some tc ->
  func tc = Some b ->
  ends_with (b (test_entry tc st)) passed_assert st' ->
  (BMT_EXPECT_COMMON file line false ty expr fmt args ;; rest) st1
    = rest (set_failed_expect true st2)
  /\ g_bmt_current_test_failed_expect (set_failed_expect true st2) = true
  /\ output (set_failed_expect true st2) = output st2
  /\ g_bmt_current_test_failed_expect (test_entry tc st) = false
  /\ exists cases' acc' st'' tc',
       run_test i cases acc st = Returned (cases', acc') st''
       /\ load cases' i = Some tc'
       /\ last_run_passed tc'
          = passed_assert && negb (g_bmt_current_test_failed_expect st').
Proof.
  intros Hrep Hload Hfunc Hend.
  split; [|repeat split].
  - unfold BMT_EXPECT_COMMON. cbn [negb]. unfold bind. rewrite Hrep.
    reflexivity.
  - destruct (load_Some _ _ _ Hload) as [Hi _].
    pose proof (run_test_ends i cases acc st tc b _ _ Hload Hfunc Hend) as E.
    cbn zeta in E.
    eexists _, _, _, _. split; [exact E|].
    split; [by apply load_insert_here|reflexivity].
Qed.

(** ** ADD_FAILURE *)

(** [ADD_FAILURE()] only prints: when it returns, the run state differs
    from the one it started in by the text of the report. *)
Lemma ADD_FAILURE_emits file line st :
  ADD_FAILURE file line st = Undefined
  \/ exists txt, ADD_FAILURE file line st = Returned tt (emit txt st).
Proof.
  unfold ADD_FAILURE, bmt_report_failure. autorewrite with bmt.
  unfold bind at 1, itoa_puts, bind at 1, defined at 1.
  destruct (bmt_itoa (long line) (char_array 12) 10) as [b|]; [|by left].
  autorewrite with bmt. unfold bind at 1, defined.
  destruct (failure_line _ _) as [buffer|]; [|by left].
  autorewrite with bmt. right. unfold ret. eauto.
Qed.

(** A test whose body is a lone [ADD_FAILURE()] is recorded as passed and
    is not counted as failed. *)
Lemma ADD_FAILURE_test_passes i cases acc st tc file line :
  load cases i = Some tc ->
  func tc = Some (ADD_FAILURE file line) ->
  ADD_FAILURE file line (test_entry tc st) <> Undefined ->
  exists cases' acc' st' tc',
    run_test i cases acc st = Returned (cases', acc') st'
    /\ load cases' i = Some tc'
    /\ last_run_passed tc' = true
    /\ tests_failed acc' = tests_failed acc.
Proof.
  intros Hload Hfunc Hdef.
  destruct (load_Some _ _ _ Hload) as [Hi _].
  destruct (ADD_FAILURE_emits file line (test_entry tc st)) as [E|[txt E]];
    [contradiction|].
  assert (Hend : ends_with (ADD_FAILURE file line (test_entry tc st)) true
                   (emit txt (test_entry tc st))).
  { rewrite E. constructor. }
  pose proof (run_test_ends i cases acc st tc _ _ _ Hload Hfunc Hend) as R.
  cbn zeta in R. eexists _, _, _, _. split; [exact R|].
  split; [by apply load_insert_here|]. split; reflexivity.
Qed.

(** ** The message loop *)

(** A directive that is neither [%s] nor [%ld] is printed as it stands
    and the loop goes on behind its second character, also when that
    character is the terminator. *)
Lemma format_loop_verbatim d p2 args st :
  Ascii.eqb d "s" = false ->
  (Ascii.eqb d "l" = false
   \/ exists e p3, p2 = e :: p3 /\ Ascii.eqb e "d" = false) ->
  format_loop ("%"%char :: d :: p2) args st =
    format_loop p2 args (emit ["%"%char; d] st).
Proof.
  intros Hs Hl. cbn [format_loop].
  change (is_nul "%") with false. change (Ascii.eqb "%" "%") with true.
  cbn match. rewrite Hs.
  destruct Hl as [Hl | (e & p3 & -> & He)].
  - rewrite Hl. autorewrite with bmt. reflexivity.
  - destruct (Ascii.eqb d "l"); [rewrite He|]; autorewrite with bmt;
      reflexivity.
Qed.

(** A format whose last character before the terminator is [%]: the loop
    prints the [%] and the terminator and then reads what lies behind
    the terminator. *)
Lemma format_loop_percent_at_end tail args st :
  format_loop ("%"%char :: NUL :: tail) args st =
    format_loop tail args (emit ["%"%char; NUL] st).
Proof. apply format_loop_verbatim; [reflexivity|by left]. Qed.

Lemma last_cons_cons {A} (x y : A) l : last (x :: y :: l) = last (y :: l).
Proof. reflexivity. Qed.

(** When the last character of the message format is not [%], the loop
    stops at the terminator of the format, unless an argument is missing
    or of the wrong type, or a [%ld] text does not fit its buffer. *)
Lemma format_loop_stops_at_terminator n : forall s tail args st,
  (length s <= n)%nat ->
  forallb (fun c => negb (is_nul c)) s = true ->
  last s <> Some "%"%char ->
  format_loop (s ++ NUL :: tail) args st = Undefined
  \/ exists args' st',
       format_loop (s ++ NUL :: tail) args st
       = Returned (NUL :: tail, args') st'.
Proof.
  induction n as [|n IH]; intros s tail args st Hn Hnul Hlast.
  - destruct s; [|simpl in Hn; lia]. right. by eexists _, _.
  - destruct s as [|c s1]; [right; by eexists _, _|].
    cbn [forallb] in Hnul. apply andb_prop in Hnul as [Hc Hnul1].
    apply negb_true_iff in Hc.
    assert (IH1 : forall args st,
      format_loop (s1 ++ NUL :: tail) args st = Undefined
      \/ exists args' st',
           format_loop (s1 ++ NUL :: tail) args st
           = Returned (NUL :: tail, args') st').
    { intros args0 st0. apply IH; [simpl in Hn; lia|exact Hnul1|].
      destruct s1; [discriminate|exact Hlast]. }
    cbn [app format_loop]. rewrite Hc.
    destruct (Ascii.eqb c "%") eqn:Epct;
      [|autorewrite with bmt; apply IH1].
    destruct s1 as [|d s2].
    { apply Ascii.eqb_eq in Epct. subst c. by destruct Hlast. }
    cbn [forallb] in Hnul1. apply andb_prop in Hnul1 as [Hd Hnul2].
    assert (IH2 : forall args st,
      format_loop (s2 ++ NUL :: tail) args st = Undefined
      \/ exists args' st',
           format_loop (s2 ++ NUL :: tail) args st
           = Returned (NUL :: tail, args') st').
    { intros args0 st0. apply IH; [simpl in Hn; lia|exact Hnul2|].
      destruct s2; [discriminate|]. by rewrite !last_cons_cons in Hlast. }
    cbn [app]. destruct (Ascii.eqb d "s").
    { destruct args as [|[str| |] args]; try by left.
      autorewrite with bmt. apply IH2. }
    destruct (Ascii.eqb d "l"); [|autorewrite with bmt; apply IH2].
    destruct s2 as [|e s3]; cbn [app].
    { change (Ascii.eqb NUL "d") with false. autorewrite with bmt.
      right. by eexists _, _. }
    destruct (Ascii.eqb e "d"); [|autorewrite with bmt; apply IH2].
    destruct args as [|[| v |] args]; try by left.
    cbn [forallb] in Hnul2. apply andb_prop in Hnul2 as [He Hnul3].
    unfold bind at 1, itoa_puts, bind at 1, defined.
    destruct (bmt_itoa v (char_array 20) 10) as [b0|]; [|by left].
    cbn beta iota. apply IH; [simpl in Hn; lia|exact Hnul3|].
    destruct s3; [discriminate|]. by rewrite !last_cons_cons in Hlast.
Qed.

(** ** The decimal text of [bmt_itoa] *)

Lemma digit_char_code d :
  0 <= d <= 9 -> Z.of_N (N_of_ascii (digit_char d)) = d + 48.
Proof.
  intros Hd. unfold digit_char.
  rewrite N_ascii_embedding.
  - rewrite Z.mod_small by lia. lia.
  - rewrite Z.mod_small by lia. lia.
Qed.

Lemma digit_char_is_digit d : 0 <= d <= 9 -> is_digit (digit_char d) = true.
Proof.
  intros Hd. unfold is_digit. rewrite digit_char_code by assumption.
  cbn zeta. apply andb_true_intro. split; lia.
Qed.

Lemma is_digit_not_nul c : is_digit c = true -> negb (is_nul c) = true.
Proof.
  unfold is_nul. destruct (Ascii.eqb_spec c NUL) as [->|]; [|reflexivity].
  discriminate.
Qed.

Lemma decimal_value_snoc ds c :
  decimal_value (ds ++ [c])
  = 10 * decimal_value ds + (Z.of_N (N_of_ascii c) - 48).
Proof. unfold decimal_value. by rewrite fold_left_app. Qed.

Lemma rev_digits_zero fuel t : t <= 0 -> rev_digits fuel t = [].
Proof.
  intros Ht. destruct fuel; simpl; [reflexivity|].
  destruct (0 <? t) eqn:E; [lia|reflexivity].
Qed.

(** With enough iterations the digits written for [t] are its decimal
    numeral. *)
Lemma rev_digits_numeral fuel : forall t,
  0 < t < 2 ^ Z.of_nat fuel ->
  is_numeral (rev (rev_digits fuel t))
  /\ decimal_value (rev (rev_digits fuel t)) = t.
Proof.
  induction fuel as [|fuel IH]; intros t Ht.
  - simpl in Ht. lia.
  - cbn [rev_digits]. destruct (0 <? t) eqn:E; [|lia].
    assert (Hq : t = 10 * Z.quot t 10 + Z.rem t 10) by apply Z.quot_rem'.
    assert (Hr : 0 <= Z.rem t 10 < 10) by (apply Z.rem_bound_pos; lia).
    assert (Hq0 : 0 <= Z.quot t 10) by (apply Z.quot_pos; lia).
    assert (Hpow : 2 ^ Z.of_nat (S fuel) = 2 * 2 ^ Z.of_nat fuel).
    { rewrite Nat2Z.inj_succ, Z.pow_succ_r; lia. }
    cbn [rev]. rewrite decimal_value_snoc, digit_char_code by lia.
    destruct (Z.eq_dec (Z.quot t 10) 0) as [Hz|Hnz].
    + rewrite Hz, rev_digits_zero by lia. cbn [rev app].
      split; [|unfold decimal_value; simpl; lia].
      split; [discriminate|]. split.
      * cbn [forallb]. rewrite digit_char_is_digit by lia. reflexivity.
      * cbn [hd_error]. intros [= Ed].
        pose proof (digit_char_code (Z.rem t 10)) as Hc.
        rewrite Ed in Hc. simpl in Hc. lia.
    + destruct (IH (Z.quot t 10)) as [(Hne & Hdig & Hhd) Hval]; [lia|].
      split; [|rewrite Hval; lia].
      split; [|split].
      * intros Habs. by apply app_eq_nil in Habs as [_ ?].
      * rewrite forallb_app, Hdig. cbn [forallb].
        rewrite digit_char_is_digit by lia. reflexivity.
      * destruct (rev (rev_digits fuel (Z.quot t 10))) as [|c cs];
          [congruence|exact Hhd].
Qed.

(** For every [long] other than zero and [LONG_MIN] the text of
    [bmt_itoa] is the sign, when the value is negative, and the decimal
    numeral of the magnitude. *)
Lemma itoa_text_decimal val :
  LONG_MIN < val <= LONG_MAX -> val <> 0 ->
  exists ds,
    itoa_text val = (if val <? 0 then ["-"%char] else []) ++ ds
    /\ is_numeral ds
    /\ decimal_value ds = Z.abs val.
Proof.
  intros Hrange Hnz. unfold itoa_text.
  rewrite bmt_itoa_nonzero;
    [|assumption|unfold char_array; rewrite repeat_length; lia].
  cbn zeta.
  set (t := if val <? 0 then long (- val) else val).
  assert (Ht : t = Z.abs val).
  { subst t. unfold LONG_MIN, LONG_MAX in Hrange.
    destruct (val <? 0) eqn:E; [|lia].
    rewrite long_small; unfold LONG_MIN, LONG_MAX; lia. }
  assert (Hfuel : Z.of_nat itoa_fuel = LONG_BITS) by (unfold itoa_fuel; lia).
  destruct (rev_digits_numeral itoa_fuel t) as [Hnum Hval].
  { rewrite Hfuel, long_pow_split. unfold LONG_MIN, LONG_MAX in Hrange. lia. }
  exists (rev (rev_digits itoa_fuel t)).
  split; [|split; [exact Hnum|by rewrite Hval]].
  rewrite app_assoc. apply c_string_app_nul.
  rewrite forallb_app. destruct Hnum as (_ & Hdig & _).
  apply andb_true_intro. split.
  - destruct (val <? 0); reflexivity.
  - apply forallb_forall. intros c Hc.
    apply is_digit_not_nul. by apply (proj1 (forallb_forall _ _) Hdig).
Qed.

Lemma itoa_text_zero : itoa_text 0 = text "0".
Proof. reflexivity. Qed.

Lemma rev_digits_all_digits fuel : forall t,
  forallb is_digit (rev_digits fuel t) = true.
Proof.
  induction fuel as [|fuel IH]; intros t; cbn [rev_digits forallb];
    [reflexivity|].
  destruct (0 <? t) eqn:E; [|reflexivity].
  cbn [forallb]. rewrite IH, digit_char_is_digit; [reflexivity|].
  pose proof (Z.rem_bound_pos t 10). lia.
Qed.

Lemma c_string_sign_digits val fuel t rest :
  c_string ((if val <? 0 then ["-"%char] else []) ++ rev (rev_digits fuel t)
            ++ NUL :: rest)
  = (if val <? 0 then ["-"%char] else []) ++ rev (rev_digits fuel t).
Proof.
  rewrite app_assoc. apply c_string_app_nul.
  rewrite forallb_app. apply andb_true_intro. split.
  - destruct (val <? 0); reflexivity.
  - apply forallb_forall. intros c Hc. apply is_digit_not_nul.
    apply (proj1 (forallb_forall _ _) (rev_digits_all_digits fuel t)).
    by apply in_rev.
Qed.

(** The text that [bmt_itoa] leaves does not depend on what the buffer
    held before, nor on its size once the text fits: a buffer that is
    used again, as [buffer] in [bmt_run_all_tests], behaves as a new
    one. *)
Lemma bmt_itoa_any_buffer val buf :
  LONG_BITS + 2 <= Z.of_nat (length buf) ->
  option_map c_string (bmt_itoa val buf 10) = Some (itoa_text val).
Proof.
  intros Hlen. destruct (Z.eq_dec val 0) as [->|Hval].
  - destruct buf as [|c0 [|c1 buf]]; simpl in Hlen; try lia.
    unfold bmt_itoa, strcpy.
    change (strcpy_at (c0 :: c1 :: buf) 0 (text "0"))
      with (match store (c0 :: c1 :: buf) 0 "0"%char with
            | Some buf' => store buf' (0 + 1) NUL
            | None => None
            end).
    rewrite store_Some by (cbn [length]; lia).
    rewrite store_Some by (rewrite length_insert; cbn [length]; lia).
    reflexivity.
  - unfold itoa_text.
    rewrite (bmt_itoa_nonzero val buf Hval Hlen).
    rewrite (bmt_itoa_nonzero val (char_array 128) Hval)
      by (unfold char_array; rewrite repeat_length; lia).
    cbn zeta. cbn [option_map]. by rewrite !c_string_sign_digits.
Qed.

(** For [LONG_MIN] the negation wraps back to [LONG_MIN], both digit
    loops are skipped and the text is the sign alone. *)
Lemma itoa_text_LONG_MIN : itoa_text LONG_MIN = ["-"%char].
Proof.
  unfold itoa_text. pose proof long_half_pos as Hh.
  rewrite bmt_itoa_nonzero;
    [|unfold LONG_MIN; lia|unfold char_array; rewrite repeat_length; lia].
  cbn zeta.
  assert (Hneg : (LONG_MIN <? 0) = true) by (unfold LONG_MIN; lia).
  rewrite Hneg.
  assert (Hwrap : long (- LONG_MIN) = LONG_MIN).
  { unfold long, wrap_signed, LONG_MIN. pose proof long_pow_split as Hp.
    rewrite Z.opp_involutive.
    replace (2 ^ (LONG_BITS - 1) + 2 ^ (LONG_BITS - 1)) with
      (0 + 1 * 2 ^ LONG_BITS) by lia.
    rewrite Z.mod_add by lia. rewrite Z.mod_0_l by lia. lia. }
  rewrite Hwrap, rev_digits_zero by (unfold LONG_MIN; lia).
  reflexivity.
Qed.

(** * Further properties of the code *)

(** ** String copies into a buffer *)

Lemma strcpy_at_spec s : forall buf p,
  0 <= p -> p + Z.of_nat (length s) < Z.of_nat (length buf) ->
  strcpy_at buf p s =
    Some (take (Z.to_nat p) buf ++ s
          ++ NUL :: drop (Z.to_nat p + length s + 1) buf).
Proof.
  induction s as [|c s IH]; intros buf p Hp Hfit; cbn [strcpy_at length] in *.
  - rewrite store_Some by lia. f_equal.
    rewrite (insert_take_drop buf (Z.to_nat p) NUL) by lia.
    replace (Z.to_nat p + 0 + 1)%nat with (S (Z.to_nat p)) by lia.
    reflexivity.
  - rewrite store_Some by lia.
    rewrite IH by (rewrite ?length_insert; lia). f_equal.
    replace (Z.to_nat (p + 1)) with (S (Z.to_nat p)) by lia.
    rewrite (take_S_r _ _ c) by (apply list_lookup_insert_eq; lia).
    rewrite take_insert_ge by lia.
    rewrite drop_insert_lt by lia.
    rewrite <- app_assoc. cbn [app].
    replace (S (Z.to_nat p) + length s + 1)%nat
      with (Z.to_nat p + S (length s) + 1)%nat by lia.
    reflexivity.
Qed.

Lemma strcpy_at_overflow s : forall buf p,
  0 <= p -> Z.of_nat (length buf) <= p + Z.of_nat (length s) ->
  strcpy_at buf p s = None.
Proof.
  induction s as [|c s IH]; intros buf p Hp Hover; cbn [strcpy_at length] in *.
  - unfold store. destruct (p <? Z.of_nat (length buf)) eqn:E; [lia|].
    by rewrite andb_false_r.
  - destruct (store buf p c) as [buf'|] eqn:E; [|reflexivity].
    apply IH; [lia|]. rewrite (store_length _ _ _ _ E). lia.
Qed.

Lemma store_None {A} (arr : list A) p x :
  Z.of_nat (length arr) <= p -> store arr p x = None.
Proof.
  intros H. unfold store.
  destruct (p <? Z.of_nat (length arr)) eqn:E; [lia|].
  by rewrite andb_false_r.
Qed.

(** ** The buffer that [bmt_itoa] needs *)

(** The sign and the digits that [bmt_itoa] writes for [val]. *)
Lemma bmt_itoa_exact val buf :
  val <> 0 ->
  let t := if val <? 0 then long (- val) else val in
  let sign := if val <? 0 then ["-"%char] else [] in
  let ds := rev_digits itoa_fuel t in
  bmt_itoa val buf 10 =
    if (length sign + length ds + 1 <=? length buf)%nat
    then Some (sign ++ rev ds
               ++ NUL :: drop (length sign + length ds + 1) buf)
    else None.
Proof.
  intros Hval t sign ds. unfold bmt_itoa. simpl.
  destruct (val =? 0) eqn:E0; [lia|].
  pose proof (rev_digits_length itoa_fuel t) as Hds. fold ds in Hds.
  assert (Hfuel : Z.of_nat itoa_fuel = LONG_BITS) by (unfold itoa_fuel; lia).
  destruct (Nat.leb_spec (length sign + length ds + 1) (length buf))
    as [Hfit|Hshort].
  - destruct (val <? 0) eqn:Eneg; subst t sign; simpl in Hfit |- *.
    + rewrite store_Some by lia. simpl.
      rewrite count_digits_length by lia. fold ds.
      rewrite store_Some by (rewrite length_insert; lia).
      rewrite write_digits_spec; fold ds; rewrite ?length_insert; [|lia].
      f_equal.
      replace (Z.to_nat (0 + 1 + (0 + Z.of_nat (length ds)) - 1 + 1))
        with (S (length ds)) by lia.
      replace (Z.to_nat (0 + 1 + (0 + Z.of_nat (length ds))))
        with (S (length ds)) by lia.
      replace (S (length ds) - length ds)%nat with 1%nat by lia.
      rewrite drop_insert_here by (rewrite length_insert; lia).
      rewrite take_insert_ge by lia.
      destruct buf as [|c0 buf]; [simpl in Hfit; lia|].
      simpl. replace (length ds + 1)%nat with (S (length ds)) by lia.
      reflexivity.
    + rewrite count_digits_length by lia. fold ds.
      rewrite store_Some by lia.
      rewrite write_digits_spec; fold ds; rewrite ?length_insert; [|lia].
      f_equal.
      replace (Z.to_nat (0 + (0 + Z.of_nat (length ds)) - 1 + 1))
        with (length ds) by lia.
      replace (Z.to_nat (0 + (0 + Z.of_nat (length ds))))
        with (length ds) by lia.
      rewrite Nat.sub_diag, take_0. simpl.
      rewrite drop_insert_here by lia.
      replace (length ds + 1)%nat with (S (length ds)) by lia. reflexivity.
  - destruct (val <? 0) eqn:Eneg; subst t sign; simpl in Hshort |- *.
    + destruct (store buf 0 "-"%char) as [buf'|] eqn:Es; [|reflexivity].
      simpl. rewrite count_digits_length by lia. fold ds.
      rewrite store_None; [reflexivity|].
      rewrite (store_length _ _ _ _ Es). lia.
    + rewrite count_digits_length by lia. fold ds.
      rewrite store_None; [reflexivity|lia].
Qed.

Lemma itoa_text_length val :
  val <> 0 ->
  length (itoa_text val)
  = Nat.add (if val <? 0 then 1%nat else 0%nat)
      (length (rev_digits itoa_fuel (if val <? 0 then long (- val) else val))).
Proof.
  intros Hval. unfold itoa_text.
  rewrite (bmt_itoa_nonzero val (char_array 128) Hval)
    by (unfold char_array; rewrite repeat_length; lia).
  cbn zeta. rewrite c_string_sign_digits, length_app, length_rev.
  destruct (val <? 0); reflexivity.
Qed.

Lemma c_string_no_nul buf : no_nul (c_string buf) = true.
Proof.
  induction buf as [|c buf IH]; [reflexivity|]. cbn [c_string].
  destruct (is_nul c) eqn:E; [reflexivity|].
  unfold no_nul in *. cbn [forallb]. by rewrite E, IH.
Qed.

Lemma itoa_text_no_nul val : no_nul (itoa_text val) = true.
Proof.
  unfold itoa_text. destruct (bmt_itoa _ _ _); [apply c_string_no_nul|].
  reflexivity.
Qed.

(** Where [bmt_itoa] puts its text, and when the buffer is too small. *)
Lemma bmt_itoa_layout val buf :
  bmt_itoa val buf 10 =
    if (length (itoa_text val) + 1 <=? length buf)%nat
    then Some (itoa_text val
               ++ NUL :: drop (length (itoa_text val) + 1) buf)
    else None.
Proof.
  destruct (Z.eq_dec val 0) as [->|Hval].
  - rewrite itoa_text_zero. unfold bmt_itoa, strcpy.
    change (negb (10 =? 10)) with false. change (0 =? 0) with true.
    cbn match. cbn [text list_ascii_of_string length Nat.add].
    destruct (Nat.leb_spec 2 (length buf)) as [Hfit|Hshort].
    + rewrite strcpy_at_spec by (cbn [length]; lia).
      change (Z.to_nat 0) with 0%nat. rewrite take_0. reflexivity.
    + apply strcpy_at_overflow; cbn [length]; lia.
  - pose proof (itoa_text_length val Hval) as Hlen.
    assert (Htext : itoa_text val
              = (if val <? 0 then ["-"%char] else [])
                ++ rev (rev_digits itoa_fuel
                          (if val <? 0 then long (- val) else val))).
    { unfold itoa_text.
      rewrite (bmt_itoa_nonzero val (char_array 128) Hval)
        by (unfold char_array; rewrite repeat_length; lia).
      cbn zeta. apply c_string_sign_digits. }
    rewrite (bmt_itoa_exact val buf Hval). cbn zeta.
    rewrite Hlen, Htext.
    replace (length (if val <? 0 then ["-"%char] else []))
      with (if val <? 0 then 1%nat else 0%nat) by (by destruct (val <? 0)).
    rewrite <- app_assoc. reflexivity.
Qed.

(** [itoa_puts] with an array of [size] characters prints the text when
    the text and its terminator fit, and is undefined otherwise. *)
Lemma itoa_puts_size size val st :
  itoa_puts size val st =
    if (length (itoa_text val) + 1 <=? size)%nat
    then Returned tt (emit (itoa_text val) st)
    else Undefined.
Proof.
  unfold itoa_puts, bind, defined. rewrite bmt_itoa_layout.
  unfold char_array. rewrite repeat_length.
  destruct (_ <=? _)%nat; [|reflexivity].
  unfold bmt_platform_puts. rewrite c_string_app_nul; [reflexivity|].
  apply itoa_text_no_nul.
Qed.

Lemma bind_itoa_puts_size {B} size val (k : unit -> M B) st :
  (x <- itoa_puts size val ;; k x) st =
    if (length (itoa_text val) + 1 <=? size)%nat
    then k tt (emit (itoa_text val) st)
    else Undefined.
Proof.
  unfold bind at 1. rewrite itoa_puts_size.
  by destruct (_ <=? _)%nat.
Qed.

(** ** The number of digits *)

Lemma rev_digits_length_le k : forall fuel t,
  t < 10 ^ Z.of_nat k -> (length (rev_digits fuel t) <= k)%nat.
Proof.
  induction k as [|k IH]; intros fuel t Ht.
  - rewrite rev_digits_zero; [simpl; lia|]. simpl in Ht. lia.
  - destruct fuel as [|fuel]; cbn [rev_digits length]; [lia|].
    destruct (0 <? t) eqn:E; cbn [length]; [|lia].
    apply le_n_S, IH.
    rewrite Nat2Z.inj_succ, Z.pow_succ_r in Ht by lia.
    apply Z.quot_lt_upper_bound; lia.
Qed.

Lemma rev_digits_length_gt k : forall fuel t,
  10 ^ Z.of_nat k <= t < 2 ^ Z.of_nat fuel ->
  (k < length (rev_digits fuel t))%nat.
Proof.
  induction k as [|k IH]; intros fuel t Ht.
  - destruct fuel as [|fuel]; [simpl in Ht; lia|]. cbn [rev_digits].
    destruct (0 <? t) eqn:E; [cbn [length]; lia|]. simpl in Ht. lia.
  - destruct fuel as [|fuel].
    { assert (0 < 10 ^ Z.of_nat (S k)) by (apply Z.pow_pos_nonneg; lia).
      simpl in Ht. lia. }
    assert (Hpos : 0 < 10 ^ Z.of_nat k) by (apply Z.pow_pos_nonneg; lia).
    rewrite Nat2Z.inj_succ, Z.pow_succ_r in Ht by lia.
    rewrite (Nat2Z.inj_succ fuel), (Z.pow_succ_r 2) in Ht by lia.
    cbn [rev_digits]. destruct (0 <? t) eqn:E; [|lia]. cbn [length].
    apply -> Nat.succ_lt_mono. apply IH.
    pose proof (Z.quot_rem' t 10) as Hq.
    pose proof (Z.rem_bound_pos t 10) as Hr.
    split.
    + apply Z.quot_le_lower_bound; lia.
    + apply Z.quot_lt_upper_bound; lia.
Qed.

Lemma long_max_bound : LONG_MAX < 2 ^ 63.
Proof.
  unfold LONG_MAX.
  assert (2 ^ (LONG_BITS - 1) <= 2 ^ 63) by (apply Z.pow_le_mono_r; lia).
  lia.
Qed.

(** The magnitude that [bmt_itoa] converts for a negative value is the
    negated value, or is not positive at all. *)
Lemma long_opp_bound z :
  0 < z -> long z <= z.
Proof.
  intros Hz. destruct (Z_le_gt_dec z LONG_MAX) as [Hle|Hgt].
  - rewrite long_small; [lia|]. unfold LONG_MIN, LONG_MAX in *.
    pose proof long_half_pos. lia.
  - pose proof (long_range z). lia.
Qed.

Lemma itoa_text_length_le val (k : nat) :
  (0 < k)%nat ->
  val <= LONG_MAX ->
  (if val <? 0 then - val else val) < 10 ^ Z.of_nat k ->
  (length (itoa_text val) <= (if (val <? 0)%Z then 1 else 0) + k)%nat.
Proof.
  intros Hpos Hmax Hk. destruct (Z.eq_dec val 0) as [->|Hval].
  - rewrite itoa_text_zero. cbn [text list_ascii_of_string length].
    simpl. lia.
  - rewrite itoa_text_length by assumption.
    destruct (val <? 0) eqn:E.
    + apply Nat.add_le_mono_l, rev_digits_length_le.
      pose proof (long_opp_bound (- val)). lia.
    + apply Nat.add_le_mono_l, rev_digits_length_le. lia.
Qed.

Lemma parse_decimal_digits ds :
  forallb is_digit ds = true -> parse_decimal ds = decimal_value ds.
Proof.
  destruct ds as [|c ds]; [reflexivity|]. cbn [forallb parse_decimal].
  intros H. apply andb_prop in H as [Hc _].
  destruct (Ascii.eqb_spec c "-") as [->|]; [discriminate|reflexivity].
Qed.

Lemma itoa_text_round_trip_digits val :
  LONG_MIN < val <= LONG_MAX ->
  parse_decimal (itoa_text val) = val
  /\ exists ds,
       itoa_text val = (if val <? 0 then ["-"%char] else []) ++ ds
       /\ ds <> []
       /\ forallb is_digit ds = true
       /\ (hd_error ds = Some "0"%char <-> val = 0).
Proof.
  intros Hrange. destruct (Z.eq_dec val 0) as [->|Hval].
  - rewrite itoa_text_zero. split; [reflexivity|].
    exists (text "0"). repeat split; try reflexivity; discriminate.
  - destruct (itoa_text_decimal val Hrange Hval)
      as (ds & Htext & (Hne & Hdig & Hhd) & Hvalue).
    split.
    + rewrite Htext. destruct (val <? 0) eqn:E.
      * cbn [app parse_decimal]. change (Ascii.eqb "-" "-") with true.
        cbn match. lia.
      * cbn [app]. rewrite parse_decimal_digits by assumption. lia.
    + exists ds. repeat split; try assumption; intros; contradiction.
Qed.

(** X1. Round trip of the decimal conversion: for every [long] but
    [LONG_MIN], reading back the text of [bmt_itoa] gives the value; the
    text is a ['-'] exactly for a negative value, followed by digits only,
    at least one, the first of which is ['0'] for the value zero only. *)
Theorem itoa_text_round_trip val :
  LONG_MIN < val <= LONG_MAX ->
  parse_decimal (itoa_text val) = val
  /\ exists ds,
       itoa_text val = (if val <? 0 then ["-"%char] else []) ++ ds
       /\ ds <> []
       /\ forallb is_digit ds = true
       /\ (hd_error ds = Some "0"%char <-> val = 0).
Proof. apply itoa_text_round_trip_digits. Qed.

(** X2. What [bmt_itoa] does to its buffer.  In radix 10 it needs the
    characters of the text and one more: with that much room it leaves
    the text, the terminator and, behind them, the buffer as it was;
    with less it writes outside the buffer.  In any other radix it
    leaves ["radix_err"] in the same way, whatever the value, and needs
    ten characters. *)
Theorem bmt_itoa_buffer val buf radix :
  bmt_itoa val buf radix =
    let txt := if radix =? 10 then itoa_text val else text "radix_err" in
    if (length txt + 1 <=? length buf)%nat
    then Some (txt ++ NUL :: drop (length txt + 1) buf)
    else None.
Proof.
  cbn zeta. destruct (radix =? 10) eqn:E.
  - apply Z.eqb_eq in E. subst radix. apply bmt_itoa_layout.
  - unfold bmt_itoa, strcpy. rewrite E. cbn [negb].
    destruct (Nat.leb_spec (length (text "radix_err") + 1) (length buf))
      as [Hfit|Hshort].
    + rewrite strcpy_at_spec by (cbn [text list_ascii_of_string length] in *; lia).
      change (Z.to_nat 0) with 0%nat. rewrite take_0. reflexivity.
    + apply strcpy_at_overflow;
        cbn [text list_ascii_of_string length] in *; lia.
Qed.

Lemma itoa_puts_line_buf line st :
  - 2 ^ 31 <= line < 2 ^ 31 ->
  itoa_puts 12 (long line) st = Returned tt (emit (itoa_text (long line)) st).
Proof.
  intros Hline. pose proof long_half_pos as Hh.
  rewrite itoa_puts_size. rewrite long_of_int by assumption.
  assert (Hl : (length (itoa_text line)
                <= (if (line <? 0)%Z then 1 else 0) + 10)%nat).
  { apply itoa_text_length_le; [lia|unfold LONG_MAX; lia|].
    change (Z.of_nat 10) with 10. destruct (line <? 0) eqn:E; lia. }
  destruct (Nat.leb_spec (length (itoa_text line) + 1) 12);
    [reflexivity|]. destruct (line <? 0); lia.
Qed.

Lemma itoa_puts_temp_buf val st :
  - 10 ^ 18 < val <= LONG_MAX ->
  itoa_puts 20 val st = Returned tt (emit (itoa_text val) st).
Proof.
  intros Hval. pose proof long_max_bound as Hm. rewrite itoa_puts_size.
  assert (Hl : (length (itoa_text val) <= 19)%nat).
  { destruct (val <? 0) eqn:E.
    - pose proof (itoa_text_length_le val 18 ltac:(lia) (proj2 Hval)) as Hl.
      rewrite E in Hl. change (Z.of_nat 18) with 18 in Hl.
      apply Hl. lia.
    - pose proof (itoa_text_length_le val 19 ltac:(lia) (proj2 Hval)) as Hl.
      rewrite E in Hl. change (Z.of_nat 19) with 19 in Hl.
      apply Hl. lia. }
  destruct (Nat.leb_spec (length (itoa_text val) + 1) 20);
    [reflexivity|lia].
Qed.

Lemma itoa_puts_temp_buf_overflow val st :
  LONG_MIN < val <= - 10 ^ 18 ->
  itoa_puts 20 val st = Undefined.
Proof.
  intros Hval. rewrite itoa_puts_size.
  assert (Hneg : (val <? 0) = true) by lia.
  rewrite itoa_text_length by lia. rewrite Hneg.
  assert (Hfuel : Z.of_nat itoa_fuel = LONG_BITS)
    by (unfold itoa_fuel; lia).
  assert (Ht : long (- val) = - val).
  { apply long_small. unfold LONG_MIN, LONG_MAX in *. lia. }
  pose proof (rev_digits_length_gt 18 itoa_fuel (long (- val))) as Hd.
  rewrite Ht in *. change (Z.of_nat 18) with 18 in Hd.
  rewrite Hfuel, long_pow_split in Hd.
  unfold LONG_MIN in Hval.
  destruct (Nat.leb_spec (1 + length (rev_digits itoa_fuel (- val)) + 1) 20);
    [|reflexivity].
  assert (18 < length (rev_digits itoa_fuel (- val)))%nat by (apply Hd; lia).
  lia.
Qed.

(** X3. The arrays that hold a converted number.  [line_buf[12]] of
    [bmt_report_failure] holds the text of every [int] line number, and
    the 128 characters of the runner hold the text of every value.
    [temp_buf[20]], used for [%ld], holds the text of every [long] above
    [-10^18]; for the others, [LONG_MIN] apart, the conversion writes
    outside the array. *)
Theorem itoa_arrays_suffice st :
  (forall line, - 2 ^ 31 <= line < 2 ^ 31 ->
     itoa_puts 12 (long line) st
     = Returned tt (emit (itoa_text (long line)) st))
  /\ (forall val,
        itoa_puts 128 val st = Returned tt (emit (itoa_text val) st))
  /\ (forall val, - 10 ^ 18 < val <= LONG_MAX ->
        itoa_puts 20 val st = Returned tt (emit (itoa_text val) st))
  /\ (forall val, LONG_MIN < val <= - 10 ^ 18 ->
        itoa_puts 20 val st = Undefined).
Proof.
  split; [|split; [|split]].
  - intros line. apply itoa_puts_line_buf.
  - intros val. apply itoa_puts_128.
  - intros val. apply itoa_puts_temp_buf.
  - intros val. apply itoa_puts_temp_buf_overflow.
Qed.

(** ** The line assembled in [buffer[256]] *)

Lemma no_nul_app s1 s2 : no_nul (s1 ++ s2) = no_nul s1 && no_nul s2.
Proof. unfold no_nul. apply forallb_app. Qed.

(** [strcat] on a buffer that holds the C string [s0]: the room behind
    the terminator decides. *)
Lemma strcat_cstr s0 rest s :
  no_nul s0 = true ->
  strcat (s0 ++ NUL :: rest) s =
    if (length s <=? length rest)%nat
    then Some ((s0 ++ s) ++ NUL :: drop (length s) rest)
    else None.
Proof.
  intros Hs0. unfold strcat, strlen.
  rewrite (c_string_app_nul s0 rest Hs0).
  destruct (Nat.leb_spec (length s) (length rest)) as [Hfit|Hover].
  - rewrite strcpy_at_spec
      by (rewrite ?length_app; cbn [length]; lia).
    rewrite Nat2Z.id. f_equal.
    rewrite take_app_length, <- app_assoc. do 2 f_equal.
    rewrite drop_app_ge by lia.
    replace (length s0 + length s + 1 - length s0)%nat
      with (S (length s)) by lia.
    reflexivity.
  - apply strcpy_at_overflow; rewrite ?length_app; cbn [length]; lia.
Qed.

Lemma bind_Some {A B} (x : A) (f : A -> option B) : (Some x ≫= f) = f x.
Proof. reflexivity. Qed.

Lemma bind_None {A B} (f : A -> option B) : (None ≫= f) = None.
Proof. reflexivity. Qed.

Lemma failure_line_exact ty expr :
  no_nul ty = true -> no_nul expr = true ->
  option_map c_string (failure_line ty expr) =
    if (length ty + length expr <=? 249)%nat
    then Some (failure_text ty expr)
    else None.
Proof.
  intros Hty Hexpr. unfold failure_line.
  change (strcpy (char_array 256) (text "  "))
    with (Some (text "  " ++ NUL :: repeat NUL 253)).
  rewrite bind_Some.
  rewrite strcat_cstr by reflexivity. rewrite repeat_length.
  destruct (Nat.leb_spec (length ty) 253) as [Hty253|Hbig];
    [|rewrite bind_None; cbn [option_map];
      destruct (Nat.leb_spec (length ty + length expr) 249); [lia|reflexivity]].
  rewrite bind_Some.
  set (r1 := drop (length ty) (repeat NUL 253)).
  assert (Hr1 : length r1 = (253 - length ty)%nat)
    by (subst r1; rewrite length_drop, repeat_length; lia).
  rewrite strcat_cstr by (rewrite no_nul_app, Hty; reflexivity).
  change (length (text "(")) with 1%nat.
  destruct (Nat.leb_spec 1 (length r1)) as [Hr1pos|Hr1zero];
    [|rewrite bind_None; cbn [option_map];
      destruct (Nat.leb_spec (length ty + length expr) 249); [lia|reflexivity]].
  rewrite bind_Some.
  set (r2 := drop 1 r1).
  assert (Hr2 : length r2 = (252 - length ty)%nat)
    by (subst r2; rewrite length_drop; lia).
  set (s2 := (text "  " ++ ty) ++ text "(").
  assert (Hs2 : no_nul s2 = true)
    by (subst s2; rewrite !no_nul_app, Hty; reflexivity).
  assert (Hl2 : length s2 = (3 + length ty)%nat)
    by (subst s2; rewrite !length_app; cbn [text list_ascii_of_string length]; lia).
  unfold strncat.
  change (strcpy_at (s2 ++ NUL :: r2) (strlen (s2 ++ NUL :: r2)))
    with (strcat (s2 ++ NUL :: r2)).
  unfold strlen at 1. rewrite (c_string_app_nul s2 r2 Hs2), Hl2.
  set (n := Z.to_nat ((256 - Z.of_nat (3 + length ty) - 2) mod 2 ^ 32)).
  rewrite strcat_cstr by assumption.
  destruct (Nat.leb_spec (length (take n expr)) (length r2)) as [Hfit|Hover];
    [rewrite bind_Some|rewrite bind_None].
  - set (r3 := drop (length (take n expr)) r2).
    assert (Hr3 : length r3 = (252 - length ty - length (take n expr))%nat)
      by (subst r3; rewrite length_drop; lia).
    assert (Hs3 : no_nul (s2 ++ take n expr) = true).
    { rewrite no_nul_app, Hs2. cbn [andb]. unfold no_nul in *.
      apply forallb_forall. intros c Hc.
      apply (proj1 (forallb_forall _ _) Hexpr).
      apply list_elem_of_In. apply list_elem_of_In in Hc.
      by apply (subseteq_take n expr). }
    rewrite strcat_cstr by assumption.
    change (length (text ")" ++ CRLF)) with 3%nat.
    destruct (Nat.leb_spec 3 (length r3)) as [Hend|Hend];
      [rewrite bind_Some|rewrite bind_None]; cbn [option_map].
    + rewrite c_string_app_nul
        by (rewrite no_nul_app, Hs3; reflexivity).
      assert (Hn : (length ty <= 249)%nat) by lia.
      assert (Hnval : n = (251 - length ty)%nat).
      { subst n. rewrite Z.mod_small by lia. lia. }
      assert (Htake : take n expr = expr).
      { apply take_ge. rewrite length_take in Hr3, Hfit. lia. }
      rewrite Htake in *.
      destruct (Nat.leb_spec (length ty + length expr) 249); [|lia].
      f_equal. subst s2. unfold failure_text.
      rewrite <- !app_assoc. reflexivity.
    + destruct (Nat.leb_spec (length ty + length expr) 249) as [Hsmall|];
        [|reflexivity].
      assert (Hnval : n = (251 - length ty)%nat).
      { subst n. rewrite Z.mod_small by lia. lia. }
      rewrite length_take in Hr3. lia.
  - cbn [option_map].
    destruct (Nat.leb_spec (length ty + length expr) 249) as [Hsmall|];
      [|reflexivity].
    assert (Hnval : n = (251 - length ty)%nat).
    { subst n. rewrite Z.mod_small by lia. lia. }
    rewrite length_take in Hover. lia.
Qed.

(** ** Reports *)

(** The message loop only prints: it never leaves through [longjmp],
    and the state it returns differs from the one it started in by the
    text printed. *)
Lemma format_loop_emits n : forall p args st,
  (length p <= n)%nat ->
  format_loop p args st = Undefined
  \/ exists p' args' txt,
       format_loop p args st = Returned (p', args') (emit txt st).
Proof.
  induction n as [|n IH]; intros p args st Hn.
  - destruct p; [by left|cbn [length] in *; lia].
  - destruct p as [|c p1]; [by left|]. cbn [format_loop].
    assert (Hstep : forall q args0 txt0,
      (length q <= n)%nat ->
      format_loop q args0 (emit txt0 st) = Undefined
      \/ exists p' args' txt,
           format_loop q args0 (emit txt0 st)
           = Returned (p', args') (emit txt st)).
    { intros q args0 txt0 Hq.
      destruct (IH q args0 (emit txt0 st) Hq) as [E|(p' & args' & txt & E)];
        [by left|]. right. exists p', args', (txt0 ++ txt).
      by rewrite E, emit_emit. }
    destruct (is_nul c).
    { right. exists (c :: p1), args, []. by rewrite emit_nil. }
    destruct (Ascii.eqb c "%");
      [|autorewrite with bmt; apply Hstep; cbn [length] in *; lia].
    destruct p1 as [|d p2]; [by left|].
    destruct (Ascii.eqb d "s").
    { destruct args as [|[str| |] args]; try by left.
      autorewrite with bmt. apply Hstep. cbn [length] in *. lia. }
    destruct (Ascii.eqb d "l");
      [|autorewrite with bmt; apply Hstep; cbn [length] in *; lia].
    destruct p2 as [|e p3]; [by left|].
    destruct (Ascii.eqb e "d");
      [|autorewrite with bmt; apply Hstep; cbn [length] in *; lia].
    destruct args as [|[| v |] args]; try by left.
    rewrite bind_itoa_puts_size.
    destruct (_ <=? _)%nat; [|by left].
    apply Hstep. cbn [length] in *. lia.
Qed.

Lemma bmt_report_failure_result file line ty expr fmt args st r :
  bmt_report_failure file line ty expr fmt args st = r ->
  r = Undefined \/ exists txt, r = Returned tt (emit txt st).
Proof.
  unfold bmt_report_failure. autorewrite with bmt.
  rewrite bind_itoa_puts_size.
  destruct (_ <=? _)%nat; [|intros <-; by left].
  autorewrite with bmt. unfold bind at 1, defined.
  destruct (failure_line ty expr) as [buffer|]; [|intros <-; by left].
  autorewrite with bmt. destruct fmt as [fmt|].
  - autorewrite with bmt. unfold bind at 1.
    match goal with |- context [format_loop fmt args ?s] =>
      destruct (format_loop_emits (length fmt) fmt args s (le_n _))
        as [E|(p' & args' & txt & E)]; rewrite E end;
      intros <-; [by left|].
    right. unfold bmt_platform_puts. rewrite !emit_emit. eauto.
  - intros <-. right. unfold ret. eauto.
Qed.

Lemma bmt_report_failure_emits file line ty expr fmt args st :
  bmt_report_failure file line ty expr fmt args st = Undefined
  \/ exists txt,
       bmt_report_failure file line ty expr fmt args st
       = Returned tt (emit txt st).
Proof. by apply (bmt_report_failure_result file line ty expr fmt args st). Qed.

(** The report of a check without message. *)
Lemma report_without_message file line ty expr st :
  - 2 ^ 31 <= line < 2 ^ 31 ->
  no_nul ty = true -> no_nul expr = true ->
  bmt_report_failure file line ty expr None [] st =
    if (length ty + length expr <=? 249)%nat
    then Returned tt (emit (report_head file line ty expr) st)
    else Undefined.
Proof.
  intros Hline Hty Hexpr. unfold bmt_report_failure. autorewrite with bmt.
  unfold bind at 1.
  rewrite itoa_puts_line_buf by assumption.
  autorewrite with bmt. unfold bind at 1, defined.
  pose proof (failure_line_exact ty expr Hty Hexpr) as Hfl.
  destruct (failure_line ty expr) as [buffer|];
    destruct (_ <=? _)%nat; try discriminate; [|reflexivity].
  injection Hfl as Hfl. autorewrite with bmt. rewrite Hfl.
  unfold ret, report_head. rewrite <- !app_assoc. reflexivity.
Qed.

(** ** The message loop, directive by directive *)

Lemma format_loop_lit c rest args st :
  plain_char c = true ->
  format_loop (c :: rest) args st = format_loop rest args (emit [c] st).
Proof.
  unfold plain_char. intros [Hn Hp]%andb_prop.
  apply negb_true_iff in Hn, Hp. cbn [format_loop]. rewrite Hn, Hp.
  autorewrite with bmt. reflexivity.
Qed.

Lemma format_loop_plain s : forall rest args st,
  forallb plain_char s = true ->
  format_loop (s ++ rest) args st = format_loop rest args (emit s st).
Proof.
  induction s as [|c s IH]; intros rest args st Hs.
  - by rewrite emit_nil.
  - cbn [forallb] in Hs. apply andb_prop in Hs as [Hc Hs].
    cbn [app]. rewrite format_loop_lit by assumption.
    rewrite IH by assumption. by rewrite emit_emit.
Qed.

Lemma format_loop_s rest s_arg args st :
  format_loop ("%"%char :: "s"%char :: rest) (VaStr s_arg :: args) st =
    format_loop rest args
      (emit (match s_arg with Some str => str | None => text "(null)" end) st).
Proof. reflexivity. Qed.

Lemma format_loop_ld rest d_arg args st :
  format_loop ("%"%char :: "l"%char :: "d"%char :: rest) (VaLong d_arg :: args) st =
    if (length (itoa_text d_arg) + 1 <=? 20)%nat
    then format_loop rest args (emit (itoa_text d_arg) st)
    else Undefined.
Proof.
  cbn [format_loop].
  change (is_nul "%") with false. change (Ascii.eqb "%" "%") with true.
  change (Ascii.eqb "l" "s") with false. change (Ascii.eqb "l" "l") with true.
  change (Ascii.eqb "d" "d") with true. cbn match.
  apply bind_itoa_puts_size.
Qed.

Lemma format_loop_verb d rest args st :
  directive_ok (Verb d) = true ->
  format_loop ("%"%char :: d :: rest) args st =
    format_loop rest args (emit ["%"%char; d] st).
Proof.
  cbn [directive_ok]. intros [[_ Hs]%andb_prop Hl]%andb_prop.
  apply negb_true_iff in Hs, Hl.
  apply format_loop_verbatim; [exact Hs|by left].
Qed.

Lemma format_loop_render ds tail args st :
  forallb directive_ok ds = true ->
  format_loop (format_of ds ++ NUL :: tail) args st =
    match render ds args with
    | Some (txt, args') => Returned (NUL :: tail, args') (emit txt st)
    | None => Undefined
    end.
Proof.
  revert tail args st. induction ds as [|d ds IH]; intros tail args st Hok.
  - cbn [format_of map concat app render]. by rewrite emit_nil.
  - cbn [forallb] in Hok. apply andb_prop in Hok as [Hd Hok].
    unfold format_of in *. cbn [map concat]. rewrite <- app_assoc.
    destruct d as [c| | |c]; cbn [directive_chars render].
    + cbn [app]. rewrite format_loop_lit by exact Hd. rewrite IH by exact Hok.
      destruct (render ds args) as [[txt args']|]; [|reflexivity].
      rewrite bind_Some. cbn [fst snd]. by rewrite emit_emit.
    + change (text "%s") with ["%"%char; "s"%char]. cbn [app].
      destruct args as [|[s_arg| |] args]; try reflexivity.
      rewrite format_loop_s, IH by exact Hok.
      destruct (render ds args) as [[txt args']|]; [|reflexivity].
      rewrite bind_Some. cbn [fst snd]. by rewrite emit_emit.
    + change (text "%ld") with ["%"%char; "l"%char; "d"%char]. cbn [app].
      destruct args as [|[| d_arg |] args]; try reflexivity.
      rewrite format_loop_ld.
      destruct (_ <=? _)%nat; [|reflexivity].
      rewrite IH by exact Hok.
      destruct (render ds args) as [[txt args']|]; [|reflexivity].
      rewrite bind_Some. cbn [fst snd]. by rewrite emit_emit.
    + cbn [app]. rewrite format_loop_verb by exact Hd. rewrite IH by exact Hok.
      destruct (render ds args) as [[txt args']|]; [|reflexivity].
      rewrite bind_Some. cbn [fst snd]. by rewrite emit_emit.
Qed.

(** X4. The message loop on a format made of plain characters, [%s],
    [%ld] and other two-character [%] sequences: it prints the text that
    [render] gives for the arguments, stops at the terminator of the
    format and leaves the arguments that no directive took; it is
    undefined exactly when [render] fails, that is when an argument is
    missing or of another type or a number does not fit [temp_buf]. *)
Theorem message_loop_renders ds tail args st :
  forallb directive_ok ds = true ->
  format_loop (format_of ds ++ NUL :: tail) args st =
    match render ds args with
    | Some (txt, args') => Returned (NUL :: tail, args') (emit txt st)
    | None => Undefined
    end.
Proof. apply format_loop_render. Qed.

Lemma itoa_text_fits_temp_buf val :
  - 10 ^ 18 < val <= LONG_MAX ->
  (length (itoa_text val) + 1 <=? 20)%nat = true.
Proof.
  intros Hval.
  pose proof (itoa_puts_temp_buf val demo_state Hval) as E.
  rewrite itoa_puts_size in E.
  by destruct (_ <=? _)%nat.
Qed.

Lemma format_two_longs pre mid post v1 v2 st :
  forallb plain_char pre = true ->
  forallb plain_char mid = true ->
  forallb plain_char post = true ->
  - 10 ^ 18 < v1 <= LONG_MAX ->
  - 10 ^ 18 < v2 <= LONG_MAX ->
  format_loop (literal (pre ++ text "%ld" ++ mid ++ text "%ld" ++ post))
    [VaLong v1; VaLong v2] st
  = Returned ([NUL], [])
      (emit (pre ++ itoa_text v1 ++ mid ++ itoa_text v2 ++ post) st).
Proof.
  intros Hpre Hmid Hpost Hv1 Hv2. unfold literal.
  rewrite <- !app_assoc.
  rewrite format_loop_plain by assumption.
  change (text "%ld") with ["%"%char; "l"%char; "d"%char]. cbn [app].
  rewrite format_loop_ld, itoa_text_fits_temp_buf by assumption.
  rewrite format_loop_plain by assumption.
  rewrite format_loop_ld, itoa_text_fits_temp_buf by assumption.
  rewrite format_loop_plain by assumption.
  rewrite !emit_emit, <- ?app_assoc. reflexivity.
Qed.

(** ** The whole report *)

Lemma bmt_report_failure_split file line ty expr fmt args st :
  - 2 ^ 31 <= line < 2 ^ 31 ->
  no_nul ty = true -> no_nul expr = true ->
  bmt_report_failure file line ty expr fmt args st =
    if (length ty + length expr <=? 249)%nat
    then match fmt with
         | None => Returned tt (emit (report_head file line ty expr) st)
         | Some fmt =>
             (_ <- format_loop fmt args ;; bmt_platform_puts CRLF)
               (emit (report_head file line ty expr ++ text "    Message: ") st)
         end
    else Undefined.
Proof.
  intros Hline Hty Hexpr. unfold bmt_report_failure. autorewrite with bmt.
  unfold bind at 1.
  rewrite itoa_puts_line_buf by assumption.
  autorewrite with bmt. unfold bind at 1, defined.
  pose proof (failure_line_exact ty expr Hty Hexpr) as Hfl.
  destruct (failure_line ty expr) as [buffer|];
    destruct (_ <=? _)%nat; try discriminate; [|reflexivity].
  injection Hfl as Hfl. autorewrite with bmt. rewrite Hfl.
  destruct fmt as [fmt|].
  - autorewrite with bmt. unfold report_head. rewrite <- !app_assoc.
    reflexivity.
  - unfold ret, report_head. rewrite <- !app_assoc. reflexivity.
Qed.

Lemma comparison_report_spec file line ty expr pre mid post v1 v2 st :
  - 2 ^ 31 <= line < 2 ^ 31 ->
  no_nul ty = true -> no_nul expr = true ->
  (length ty + length expr <= 249)%nat ->
  forallb plain_char pre = true ->
  forallb plain_char mid = true ->
  forallb plain_char post = true ->
  - 10 ^ 18 < v1 <= LONG_MAX ->
  - 10 ^ 18 < v2 <= LONG_MAX ->
  bmt_report_failure file line ty expr
    (Some (literal (pre ++ text "%ld" ++ mid ++ text "%ld" ++ post)))
    [VaLong v1; VaLong v2] st
  = Returned tt
      (emit (comparison_report file line ty expr pre v1 mid v2 post) st).
Proof.
  intros Hline Hty Hexpr Hlen Hpre Hmid Hpost Hv1 Hv2.
  rewrite bmt_report_failure_split by assumption.
  destruct (Nat.leb_spec (length ty + length expr) 249); [|lia].
  unfold bind. rewrite format_two_longs by assumption.
  unfold bmt_platform_puts, comparison_report.
  rewrite !emit_emit, <- !app_assoc. reflexivity.
Qed.


(** ** The checks of [baremetal_test.h] *)

Lemma fatal_check_without_message file line condition ty expr st :
  - 2 ^ 31 <= line < 2 ^ 31 ->
  no_nul ty = true -> no_nul expr = true ->
  (length ty + length expr <= 249)%nat ->
  BMT_ASSERT_COMMON file line condition ty expr None [] st =
    if condition then Returned tt st
    else LongJmp (emit (report_head file line ty expr) st).
Proof.
  intros Hline Hty Hexpr Hlen. unfold BMT_ASSERT_COMMON.
  destruct condition; [reflexivity|]. cbn [negb]. unfold bind.
  rewrite bmt_report_failure_split by assumption.
  by destruct (Nat.leb_spec (length ty + length expr) 249); [|lia].
Qed.

Lemma nonfatal_check_without_message file line condition ty expr st :
  - 2 ^ 31 <= line < 2 ^ 31 ->
  no_nul ty = true -> no_nul expr = true ->
  (length ty + length expr <= 249)%nat ->
  BMT_EXPECT_COMMON file line condition ty expr None [] st =
    if condition then Returned tt st
    else Returned tt
           (set_failed_expect true (emit (report_head file line ty expr) st)).
Proof.
  intros Hline Hty Hexpr Hlen. unfold BMT_EXPECT_COMMON.
  destruct condition; [reflexivity|]. cbn [negb]. unfold bind.
  rewrite bmt_report_failure_split by assumption.
  by destruct (Nat.leb_spec (length ty + length expr) 249); [|lia].
Qed.

Lemma fatal_comparison file line condition ty expr pre mid post v1 v2 st :
  - 2 ^ 31 <= line < 2 ^ 31 ->
  no_nul ty = true -> no_nul expr = true ->
  (length ty + length expr <= 249)%nat ->
  forallb plain_char pre = true ->
  forallb plain_char mid = true ->
  forallb plain_char post = true ->
  - 10 ^ 18 < v1 <= LONG_MAX ->
  - 10 ^ 18 < v2 <= LONG_MAX ->
  BMT_ASSERT_COMMON file line condition ty expr
    (Some (literal (pre ++ text "%ld" ++ mid ++ text "%ld" ++ post)))
    [VaLong v1; VaLong v2] st =
    if condition then Returned tt st
    else LongJmp
           (emit (comparison_report file line ty expr pre v1 mid v2 post) st).
Proof.
  intros. unfold BMT_ASSERT_COMMON.
  destruct condition; [reflexivity|]. cbn [negb]. unfold bind.
  by rewrite comparison_report_spec by assumption.
Qed.

Lemma nonfatal_comparison file line condition ty expr pre mid post v1 v2 st :
  - 2 ^ 31 <= line < 2 ^ 31 ->
  no_nul ty = true -> no_nul expr = true ->
  (length ty + length expr <= 249)%nat ->
  forallb plain_char pre = true ->
  forallb plain_char mid = true ->
  forallb plain_char post = true ->
  - 10 ^ 18 < v1 <= LONG_MAX ->
  - 10 ^ 18 < v2 <= LONG_MAX ->
  BMT_EXPECT_COMMON file line condition ty expr
    (Some (literal (pre ++ text "%ld" ++ mid ++ text "%ld" ++ post)))
    [VaLong v1; VaLong v2] st =
    if condition then Returned tt st
    else Returned tt
           (set_failed_expect true
              (emit (comparison_report file line ty expr pre v1 mid v2 post) st)).
Proof.
  intros. unfold BMT_EXPECT_COMMON.
  destruct condition; [reflexivity|]. cbn [negb]. unfold bind.
  by rewrite comparison_report_spec by assumption.
Qed.

Ltac text_length :=
  rewrite ?length_app; cbn [length text list_ascii_of_string]; lia.

Ltac text_no_nul :=
  rewrite ?no_nul_app;
  repeat match goal with H : no_nul _ = true |- _ => rewrite H end;
  reflexivity.

(** X5. The boolean checks and [FAIL()].  A check whose condition
    holds returns without any effect.  A failing [ASSERT_TRUE] or
    [ASSERT_FALSE], and every [FAIL()], prints the two lines of the report
    and leaves through the [longjmp]; a failing [EXPECT_TRUE] or
    [EXPECT_FALSE] prints them, sets the flag and returns.  The
    stringified condition has at most 237 characters. *)
Theorem boolean_checks file line condition expr st :
  - 2 ^ 31 <= line < 2 ^ 31 ->
  no_nul expr = true ->
  (length expr <= 237)%nat ->
  let reported ty := emit (report_head file line ty expr) st in
  ASSERT_TRUE file line condition expr st
    = (if condition then Returned tt st
       else LongJmp (reported (text "ASSERT_TRUE")))
  /\ ASSERT_FALSE file line condition expr st
    = (if condition then LongJmp (reported (text "ASSERT_FALSE"))
       else Returned tt st)
  /\ EXPECT_TRUE file line condition expr st
    = (if condition then Returned tt st
       else Returned tt (set_failed_expect true (reported (text "EXPECT_TRUE"))))
  /\ EXPECT_FALSE file line condition expr st
    = (if condition
       then Returned tt (set_failed_expect true (reported (text "EXPECT_FALSE")))
       else Returned tt st)
  /\ FAIL file line st
    = LongJmp (emit (report_head file line (text "FAIL")
                       (text "Explicit failure triggered by FAIL()")) st).
Proof.
  intros Hline Hexpr Hlen. cbn zeta.
  unfold ASSERT_TRUE, ASSERT_FALSE, EXPECT_TRUE, EXPECT_FALSE, FAIL.
  repeat split.
  - apply fatal_check_without_message; try assumption; [reflexivity|text_length].
  - rewrite fatal_check_without_message;
      try assumption; [by destruct condition|reflexivity|text_length].
  - apply nonfatal_check_without_message; try assumption;
      [reflexivity|text_length].
  - rewrite nonfatal_check_without_message;
      try assumption; [by destruct condition|reflexivity|text_length].
  - rewrite fatal_check_without_message;
      try assumption; try reflexivity. text_length.
Qed.

(** X6. The six comparisons of the [ASSERT] family.  The operands are
    compared after their conversion to [long]; when the relation holds the
    check returns without any effect, otherwise it prints the report, with
    the two converted values in the message, and leaves through the
    [longjmp]. *)
Theorem ASSERT_comparisons file line val1 val2 e1 e2 st :
  - 2 ^ 31 <= line < 2 ^ 31 ->
  no_nul e1 = true -> no_nul e2 = true ->
  (length e1 + length e2 <= 236)%nat ->
  - 10 ^ 18 < long val1 -> - 10 ^ 18 < long val2 ->
  let outcome (holds : bool) ty op pre mid post :=
    if holds then Returned tt st
    else LongJmp
           (emit (comparison_report file line ty (e1 ++ op ++ e2)
                    pre (long val1) mid (long val2) post) st) in
  ASSERT_EQ file line val1 val2 e1 e2 st
    = outcome (long val1 =? long val2) (text "ASSERT_EQ") (text " == ")
        (text "Expected: ") (text ", Actual: ") []
  /\ ASSERT_NE file line val1 val2 e1 e2 st
    = outcome (negb (long val1 =? long val2)) (text "ASSERT_NE") (text " != ")
        (text "Expected: ") (text " != ") (text ", but they are equal")
  /\ ASSERT_LT file line val1 val2 e1 e2 st
    = outcome (long val1 <? long val2) (text "ASSERT_LT") (text " < ")
        (text "Expected: ") (text " < ") []
  /\ ASSERT_LE file line val1 val2 e1 e2 st
    = outcome (long val1 <=? long val2) (text "ASSERT_LE") (text " <= ")
        (text "Expected: ") (text " <= ") []
  /\ ASSERT_GT file line val1 val2 e1 e2 st
    = outcome (long val1 >? long val2) (text "ASSERT_GT") (text " > ")
        (text "Expected: ") (text " > ") []
  /\ ASSERT_GE file line val1 val2 e1 e2 st
    = outcome (long val1 >=? long val2) (text "ASSERT_GE") (text " >= ")
        (text "Expected: ") (text " >= ") [].
Proof.
  intros Hline He1 He2 Hlen Hv1 Hv2. cbn zeta.
  pose proof (long_range val1) as [_ Hm1].
  pose proof (long_range val2) as [_ Hm2].
  unfold ASSERT_EQ, ASSERT_NE, ASSERT_LT, ASSERT_LE, ASSERT_GT, ASSERT_GE.
  repeat split.
  - refine (fatal_comparison _ _ _ _ _ (text "Expected: ") (text ", Actual: ")
              [] _ _ _ Hline _ _ _ _ _ _ _ _);
      try reflexivity; try (split; assumption); [text_no_nul|text_length].
  - refine (fatal_comparison _ _ _ _ _ (text "Expected: ") (text " != ")
              (text ", but they are equal") _ _ _ Hline _ _ _ _ _ _ _ _);
      try reflexivity; try (split; assumption); [text_no_nul|text_length].
  - refine (fatal_comparison _ _ _ _ _ (text "Expected: ") (text " < ")
              [] _ _ _ Hline _ _ _ _ _ _ _ _);
      try reflexivity; try (split; assumption); [text_no_nul|text_length].
  - refine (fatal_comparison _ _ _ _ _ (text "Expected: ") (text " <= ")
              [] _ _ _ Hline _ _ _ _ _ _ _ _);
      try reflexivity; try (split; assumption); [text_no_nul|text_length].
  - refine (fatal_comparison _ _ _ _ _ (text "Expected: ") (text " > ")
              [] _ _ _ Hline _ _ _ _ _ _ _ _);
      try reflexivity; try (split; assumption); [text_no_nul|text_length].
  - refine (fatal_comparison _ _ _ _ _ (text "Expected: ") (text " >= ")
              [] _ _ _ Hline _ _ _ _ _ _ _ _);
      try reflexivity; try (split; assumption); [text_no_nul|text_length].
Qed.

(** X7. The six comparisons of the [EXPECT] family: as for the [ASSERT]
    family, but a failing check sets the flag behind its report and
    returns. *)
Theorem EXPECT_comparisons file line val1 val2 e1 e2 st :
  - 2 ^ 31 <= line < 2 ^ 31 ->
  no_nul e1 = true -> no_nul e2 = true ->
  (length e1 + length e2 <= 236)%nat ->
  - 10 ^ 18 < long val1 -> - 10 ^ 18 < long val2 ->
  let outcome (holds : bool) ty op pre mid post :=
    if holds then Returned tt st
    else Returned tt
           (set_failed_expect true
              (emit (comparison_report file line ty (e1 ++ op ++ e2)
                       pre (long val1) mid (long val2) post) st)) in
  EXPECT_EQ file line val1 val2 e1 e2 st
    = outcome (long val1 =? long val2) (text "EXPECT_EQ") (text " == ")
        (text "Expected: ") (text ", Actual: ") []
  /\ EXPECT_NE file line val1 val2 e1 e2 st
    = outcome (negb (long val1 =? long val2)) (text "EXPECT_NE") (text " != ")
        (text "Expected: ") (text " != ") (text ", but they are equal")
  /\ EXPECT_LT file line val1 val2 e1 e2 st
    = outcome (long val1 <? long val2) (text "EXPECT_LT") (text " < ")
        (text "Expected: ") (text " < ") []
  /\ EXPECT_LE file line val1 val2 e1 e2 st
    = outcome (long val1 <=? long val2) (text "EXPECT_LE") (text " <= ")
        (text "Expected: ") (text " <= ") []
  /\ EXPECT_GT file line val1 val2 e1 e2 st
    = outcome (long val1 >? long val2) (text "EXPECT_GT") (text " > ")
        (text "Expected: ") (text " > ") []
  /\ EXPECT_GE file line val1 val2 e1 e2 st
    = outcome (long val1 >=? long val2) (text "EXPECT_GE") (text " >= ")
        (text "Expected: ") (text " >= ") [].
Proof.
  intros Hline He1 He2 Hlen Hv1 Hv2. cbn zeta.
  pose proof (long_range val1) as [_ Hm1].
  pose proof (long_range val2) as [_ Hm2].
  unfold EXPECT_EQ, EXPECT_NE, EXPECT_LT, EXPECT_LE, EXPECT_GT, EXPECT_GE.
  repeat split.
  - refine (nonfatal_comparison _ _ _ _ _ (text "Expected: ") (text ", Actual: ")
              [] _ _ _ Hline _ _ _ _ _ _ _ _);
      try reflexivity; try (split; assumption); [text_no_nul|text_length].
  - refine (nonfatal_comparison _ _ _ _ _ (text "Expected: ") (text " != ")
              (text ", but they are equal") _ _ _ Hline _ _ _ _ _ _ _ _);
      try reflexivity; try (split; assumption); [text_no_nul|text_length].
  - refine (nonfatal_comparison _ _ _ _ _ (text "Expected: ") (text " < ")
              [] _ _ _ Hline _ _ _ _ _ _ _ _);
      try reflexivity; try (split; assumption); [text_no_nul|text_length].
  - refine (nonfatal_comparison _ _ _ _ _ (text "Expected: ") (text " <= ")
              [] _ _ _ Hline _ _ _ _ _ _ _ _);
      try reflexivity; try (split; assumption); [text_no_nul|text_length].
  - refine (nonfatal_comparison _ _ _ _ _ (text "Expected: ") (text " > ")
              [] _ _ _ Hline _ _ _ _ _ _ _ _);
      try reflexivity; try (split; assumption); [text_no_nul|text_length].
  - refine (nonfatal_comparison _ _ _ _ _ (text "Expected: ") (text " >= ")
              [] _ _ _ Hline _ _ _ _ _ _ _ _);
      try reflexivity; try (split; assumption); [text_no_nul|text_length].
Qed.

(** X8. The room of [buffer[256]].  When the assertion type and the
    expression have more than 249 characters together, the call writes
    behind the end of [buffer], whatever the message; otherwise the line
    holds the whole expression: the bound given to [strncat] never cuts
    it. *)
Theorem report_buffer_bound file line ty expr st :
  - 2 ^ 31 <= line < 2 ^ 31 ->
  no_nul ty = true -> no_nul expr = true ->
  ((249 < length ty + length expr)%nat ->
   forall fmt args,
     bmt_report_failure file line ty expr fmt args st = Undefined)
  /\ ((length ty + length expr <= 249)%nat ->
      bmt_report_failure file line ty expr None [] st
      = Returned tt
          (emit (file ++ [":"%char] ++ itoa_text (long line)
                 ++ text ": Failure" ++ CRLF
                 ++ text "  " ++ ty ++ text "(" ++ expr ++ text ")" ++ CRLF)
             st)).
Proof.
  intros Hline Hty Hexpr. split.
  - intros Hlen fmt args. rewrite bmt_report_failure_split by assumption.
    by destruct (Nat.leb_spec (length ty + length expr) 249); [lia|].
  - intros Hlen. rewrite bmt_report_failure_split by assumption.
    by destruct (Nat.leb_spec (length ty + length expr) 249); [|lia].
Qed.

(** X9. A report only prints.  [bmt_report_failure] never leaves through
    the [longjmp]; when it returns, the output has grown by the text of
    the report, and neither the flag of the EXPECT macros nor the tick
    counter has changed. *)
Theorem report_only_prints file line ty expr fmt args st :
  (forall st', bmt_report_failure file line ty expr fmt args st <> LongJmp st')
  /\ (forall st',
        bmt_report_failure file line ty expr fmt args st = Returned tt st' ->
        (exists txt, output st' = output st ++ txt)
        /\ g_bmt_current_test_failed_expect st'
           = g_bmt_current_test_failed_expect st
        /\ tick_reads st' = tick_reads st
        /\ tick_source st' = tick_source st).
Proof.
  split; intros st'.
  - intros E.
    destruct (bmt_report_failure_result _ _ _ _ _ _ _ _ E) as [?|[? ?]];
      discriminate.
  - intros E.
    destruct (bmt_report_failure_result _ _ _ _ _ _ _ _ E) as [?|[txt Et]];
      [discriminate|].
    injection Et as ->. repeat split. by exists txt.
Qed.

(** ** The [STRN] checks *)

Lemma report_message_undefined file line ty expr fmt args st :
  (forall s, format_loop fmt args s = Undefined) ->
  bmt_report_failure file line ty expr (Some fmt) args st = Undefined.
Proof.
  intros Hfmt. unfold bmt_report_failure. autorewrite with bmt.
  rewrite bind_itoa_puts_size.
  destruct (_ <=? _)%nat; [|reflexivity].
  autorewrite with bmt. unfold bind at 1, defined.
  destruct (failure_line ty expr) as [buffer|]; [|reflexivity].
  autorewrite with bmt. unfold bind at 1. by rewrite Hfmt.
Qed.

Lemma STRNEQ_format_undefined s1 s2 st :
  format_loop STRNEQ_format (strn_args s1 s2) st = Undefined.
Proof. reflexivity. Qed.

Lemma STRNNE_format_undefined s1 s2 st :
  format_loop STRNNE_format (strn_args s1 s2) st = Undefined.
Proof. reflexivity. Qed.

(** X10. The four checks on the first [n] characters of two strings.  The
    message format starts with [%u], which the loop prints as it stands
    without taking the [unsigned int]; the first [%s] then takes that
    argument as a string.  So every failing check of the four is
    undefined, whatever the strings; a passing one returns without any
    effect. *)
Theorem STRN_checks file line s1 s2 n e1 e2 en st :
  ASSERT_STRNEQ file line s1 s2 n e1 e2 en st
    = (if strn_equal s1 s2 n then Returned tt st else Undefined)
  /\ ASSERT_STRNNE file line s1 s2 n e1 e2 en st
    = (if strn_equal s1 s2 n then Undefined else Returned tt st)
  /\ EXPECT_STRNEQ file line s1 s2 n e1 e2 en st
    = (if strn_equal s1 s2 n then Returned tt st else Undefined)
  /\ EXPECT_STRNNE file line s1 s2 n e1 e2 en st
    = (if strn_equal s1 s2 n then Undefined else Returned tt st).
Proof.
  unfold ASSERT_STRNEQ, ASSERT_STRNNE, EXPECT_STRNEQ, EXPECT_STRNNE,
    BMT_ASSERT_COMMON, BMT_EXPECT_COMMON.
  repeat split; destruct (strn_equal s1 s2 n); cbn [negb]; try reflexivity;
    unfold bind; rewrite report_message_undefined; try reflexivity;
    intros s; first [apply STRNEQ_format_undefined|apply STRNNE_format_undefined].
Qed.


(** ** Registration beyond the capacity *)

Lemma bind_ext {A B} (m : M A) (k1 k2 : A -> M B) st :
  (forall a s, k1 a s = k2 a s) -> bind m k1 st = bind m k2 st.
Proof. intros H. unfold bind. destruct (m st); try reflexivity. apply H. Qed.

Lemma register_all_app ts1 : forall ts2 g st,
  register_all (ts1 ++ ts2) g st =
    (g' <- register_all ts1 g ;; register_all ts2 g') st.
Proof.
  induction ts1 as [|[[suite test] f] ts1 IH]; intros ts2 g st.
  - reflexivity.
  - cbn [app register_all]. rewrite bind_assoc. apply bind_ext.
    intros g1 s. apply IH.
Qed.

Lemma register_all_full ts : forall g st,
  BMT_MAX_TEST_CASES <= g_bmt_test_count g ->
  register_all ts g st =
    Returned g (emit (concat (repeat overflow_text (length ts))) st).
Proof.
  induction ts as [|[[suite test] f] ts IH]; intros g st Hfull.
  - cbn [register_all length repeat concat]. by rewrite emit_nil.
  - cbn [register_all length repeat concat]. unfold bind.
    rewrite bmt_register_test_full by assumption.
    rewrite IH by assumption. by rewrite emit_emit.
Qed.

(** X11. Registering any number of tests from the empty registry: the first
    64 are kept, in order; every further registration leaves the registry
    as it is and prints the diagnostic, once per test that is dropped. *)
Theorem register_all_capacity ts st :
  exists g,
    register_all ts registry_init st
      = Returned g (emit (concat (repeat overflow_text (length ts - 64))) st)
    /\ registry_wf g
    /\ g_bmt_test_count g = Z.of_nat (length ts `min` 64)
    /\ registered g = map new_descriptor (take 64 ts).
Proof.
  destruct (register_all_room (take 64 ts) registry_init st registry_init_wf)
    as (g & E & Hwf & Hc & Hreg).
  { rewrite length_take. cbn [registry_init g_bmt_test_count].
    unfold BMT_MAX_TEST_CASES. lia. }
  change (g_bmt_test_count registry_init) with 0 in Hc.
  change (registered registry_init) with (@nil bmt_test_case_t) in Hreg.
  rewrite length_take in Hc. cbn [app] in Hreg.
  exists g. split; [|repeat split; try apply Hwf; [lia|exact Hreg]].
  rewrite <- (take_drop 64 ts) at 1. rewrite register_all_app.
  unfold bind. rewrite E.
  destruct (le_lt_dec 64 (length ts)) as [Hbig|Hsmall].
  - rewrite register_all_full by (unfold BMT_MAX_TEST_CASES; lia).
    by rewrite length_drop.
  - rewrite drop_ge by lia. cbn [register_all].
    replace (length ts - 64)%nat with 0%nat by lia.
    cbn [repeat concat]. by rewrite emit_nil.
Qed.

(** ** The name arrays *)

Lemma no_nul_take n s : no_nul s = true -> no_nul (take n s) = true.
Proof.
  unfold no_nul. intros Hs. apply forallb_forall. intros c Hc.
  apply (proj1 (forallb_forall _ _) Hs).
  apply list_elem_of_In. apply list_elem_of_In in Hc.
  by apply (subseteq_take n s).
Qed.

Lemma write_name_general name src size :
  1 <= size -> Z.of_nat (length name) = size ->
  exists name',
    write_name name src size = Some name'
    /\ Z.of_nat (length name') = size
    /\ c_string name' = copy_name (c_string src) size.
Proof.
  intros Hsize Hlen. unfold write_name, strncpy, copy_name.
  set (n := Z.to_nat (size - 1)).
  set (s := c_string src).
  assert (Hs : no_nul s = true) by apply c_string_no_nul.
  destruct (Nat.leb_spec n (length name)) as [_|]; [|lia].
  rewrite bind_Some.
  set (pre := take n (s ++ repeat NUL n)).
  assert (Hpre : length pre = n).
  { subst pre. rewrite length_take, length_app, repeat_length. lia. }
  destruct (drop n name) as [|x [|y tl]] eqn:Edrop.
  1,3: apply (f_equal length) in Edrop; rewrite length_drop in Edrop;
       cbn [length] in Edrop; lia.
  rewrite store_Some by (rewrite length_app, Hpre; cbn [length]; lia).
  fold n. rewrite insert_app_r_alt by lia.
  rewrite Hpre, Nat.sub_diag. cbn [insert list_insert].
  exists (pre ++ [NUL]). split; [reflexivity|].
  split; [rewrite length_app, Hpre; cbn [length]; lia|].
  subst pre. destruct (le_lt_dec n (length s)) as [Hlong|Hshort].
  - rewrite take_app_le by lia. apply c_string_app_nul.
    by apply no_nul_take.
  - rewrite take_app_ge by lia. rewrite (take_ge s) by lia.
    destruct (n - length s)%nat as [|m] eqn:Em; [lia|].
    destruct n as [|n']; [lia|]. cbn [repeat]. rewrite firstn_cons.
    rewrite <- app_assoc. cbn [app]. by apply c_string_app_nul.
Qed.

(** X12. The two statements that fill a name array of a descriptor,
    [strncpy(name, src, 63); name[63] = 0], whatever the array held
    before: the array is terminated, and the C string in it is the one
    that [copy_name] gives, the first 63 characters of the C string at
    [src]; a name of at most 63 characters is stored as it is. *)
Theorem write_name_spec name src :
  length name = 64%nat ->
  exists name',
    write_name name src BMT_MAX_TEST_NAME_LEN = Some name'
    /\ write_name name src BMT_MAX_SUITE_NAME_LEN = Some name'
    /\ length name' = 64%nat
    /\ c_string name' = copy_name (c_string src) BMT_MAX_TEST_NAME_LEN
    /\ c_string name' = take 63 (c_string src)
    /\ (length (c_string name') <= 63)%nat
    /\ ((length (c_string src) <= 63)%nat -> c_string name' = c_string src).
Proof.
  intros Hlen.
  destruct (write_name_general name src BMT_MAX_TEST_NAME_LEN)
    as (name' & E & Hl & Hc); [unfold BMT_MAX_TEST_NAME_LEN; lia..|].
  exists name'. unfold BMT_MAX_TEST_NAME_LEN in Hl.
  repeat split; try assumption; try lia.
  - rewrite Hc. unfold copy_name. rewrite length_take.
    change (Z.to_nat (BMT_MAX_TEST_NAME_LEN - 1)) with 63%nat. lia.
  - intros Hshort. rewrite Hc. unfold copy_name. apply take_ge.
    change (Z.to_nat (BMT_MAX_TEST_NAME_LEN - 1)) with 63%nat. lia.
Qed.


(** ** A registered NULL function pointer *)

Lemma run_descriptor_never_jumps tc acc st st' :
  run_descriptor tc acc st <> LongJmp st'.
Proof.
  unfold run_descriptor. destruct (func tc) as [b|]; [|discriminate].
  destruct (b (test_entry tc st)); discriminate.
Qed.

Lemma run_in_order_null tcs : forall acc st,
  Exists (fun tc => func tc = None) tcs ->
  run_in_order tcs acc st = Undefined.
Proof.
  induction tcs as [|tc tcs IH]; intros acc st Hex.
  - inversion Hex.
  - cbn [run_in_order]. unfold bind at 1.
    destruct (run_descriptor tc acc st) as [[tc' acc'] st'|st'|] eqn:E;
      [|by destruct (run_descriptor_never_jumps tc acc st st')|reflexivity].
    inversion Hex as [? ? Hnull|? ? Hrest]; subst.
    + unfold run_descriptor in E. rewrite Hnull in E. discriminate.
    + cbn [fst snd]. unfold bind. by rewrite IH.
Qed.

(** X13. [bmt_register_test] stores a NULL function pointer like any
    other, and the runner calls what it finds: the run of a registry in
    which one registered descriptor has no function is undefined,
    whatever the other tests do. *)
Theorem null_test_function g st :
  registry_wf g ->
  Exists (fun tc => func tc = None) (registered g) ->
  bmt_run_all_tests g st = Undefined.
Proof.
  intros Hwf Hex. rewrite bmt_run_all_tests_in_order by assumption.
  unfold bind at 1. by rewrite run_in_order_null.
Qed.

(** ** Results of an earlier run *)

Lemma run_descriptor_same tc1 tc2 acc st :
  same_test tc1 tc2 ->
  run_descriptor tc1 acc st = run_descriptor tc2 acc st.
Proof.
  intros (Hs & Ht & Hf). unfold run_descriptor, test_entry, run_line,
    record_test, result_line.
  by rewrite Hs, Ht, Hf.
Qed.

Lemma run_in_order_same tcs1 : forall tcs2 acc st,
  Forall2 same_test tcs1 tcs2 ->
  run_in_order tcs1 acc st = run_in_order tcs2 acc st.
Proof.
  induction tcs1 as [|tc1 tcs1 IH]; intros tcs2 acc st Hsame;
    inversion Hsame as [|? tc2 ? tcs2' H1 H2]; subst; [reflexivity|].
  cbn [run_in_order]. unfold bind.
  rewrite (run_descriptor_same tc1 tc2) by exact H1.
  destruct (run_descriptor tc2 acc st) as [[tc' acc'] st'|st'|];
    try reflexivity.
  by rewrite (IH tcs2').
Qed.

Lemma run_in_order_length tcs : forall acc st tcs' acc' st',
  run_in_order tcs acc st = Returned (tcs', acc') st' ->
  length tcs' = length tcs.
Proof.
  induction tcs as [|tc tcs IH]; intros acc st tcs' acc' st' E.
  - injection E as <- _ _. reflexivity.
  - cbn [run_in_order] in E. unfold bind in E.
    destruct (run_descriptor tc acc st) as [[tc1 acc1] st1|st1|];
      try discriminate.
    cbn [fst snd] in E.
    destruct (run_in_order tcs acc1 st1) as [[tcs1 acc2] st2|st2|] eqn:E1;
      try discriminate.
    injection E as <- _ _. cbn [fst length]. f_equal. by eapply IH.
Qed.

Lemma run_in_order_never_jumps tcs : forall acc st st',
  run_in_order tcs acc st <> LongJmp st'.
Proof.
  induction tcs as [|tc tcs IH]; intros acc st st'; [discriminate|].
  cbn [run_in_order]. unfold bind.
  destruct (run_descriptor tc acc st) as [[tc1 acc1] st1|st1|] eqn:E;
    [|by destruct (run_descriptor_never_jumps tc acc st st1)|discriminate].
  cbn [fst snd].
  destruct (run_in_order tcs acc1 st1) as [[tcs1 acc2] st2|st2|] eqn:E1;
    [discriminate|by destruct (IH acc1 st1 st2)|discriminate].
Qed.

(** The run in terms of the run in order of the registered descriptors. *)
Lemma bmt_run_all_tests_outcome g st :
  registry_wf g ->
  bmt_run_all_tests g st =
    match run_in_order (registered g) counters_zero
            (emit (banner_text (g_bmt_test_count g)) st) with
    | Returned (tcs', acc') st1 =>
        Returned (tests_failed acc',
                  {| g_bmt_test_cases :=
                       tcs' ++ drop (Z.to_nat (g_bmt_test_count g))
                                 (g_bmt_test_cases g);
                     g_bmt_test_count := g_bmt_test_count g |})
                 (emit (summary_text (g_bmt_test_count g) tcs' acc') st1)
    | LongJmp st1 => LongJmp st1
    | Undefined => Undefined
    end.
Proof.
  intros Hwf. pose proof (registered_length g Hwf) as Hreg.
  rewrite bmt_run_all_tests_in_order by assumption.
  destruct Hwf as [Hlen Hc]. unfold BMT_MAX_TEST_CASES in *.
  unfold bind at 1.
  destruct (run_in_order _ _ _) as [[tcs' acc'] st1|st1|] eqn:E;
    try reflexivity.
  pose proof (run_in_order_length _ _ _ _ _ _ E) as Hl.
  cbn [fst snd]. unfold bind at 1.
  rewrite print_summary_spec; rewrite ?length_app, ?length_drop; try lia.
  rewrite take_app_length' by lia. reflexivity.
Qed.

(** X14. What a run does depends on the names and the functions of the
    registered tests only.  For two registries that hold the same tests,
    whatever the results and durations recorded in them and whatever lies
    in the unused part of the array, the runs from one state print the
    same text, return the same number and record the same results. *)
Theorem run_forgets_earlier_results g1 g2 st :
  registry_wf g1 -> registry_wf g2 ->
  Forall2 same_test (registered g1) (registered g2) ->
  (bmt_run_all_tests g1 st = Undefined <-> bmt_run_all_tests g2 st = Undefined)
  /\ (forall n g1' st',
        bmt_run_all_tests g1 st = Returned (n, g1') st' ->
        exists g2',
          bmt_run_all_tests g2 st = Returned (n, g2') st'
          /\ registered g2' = registered g1').
Proof.
  intros Hwf1 Hwf2 Hsame.
  assert (Hcount : g_bmt_test_count g1 = g_bmt_test_count g2).
  { pose proof (Forall2_length _ _ _ Hsame) as Hl.
    rewrite !registered_length in Hl by assumption.
    destruct Hwf1 as [_ ?], Hwf2 as [_ ?]. lia. }
  rewrite (bmt_run_all_tests_outcome g1), (bmt_run_all_tests_outcome g2)
    by assumption.
  rewrite (run_in_order_same _ _ _ _ Hsame), Hcount.
  destruct (run_in_order _ _ _) as [[tcs' acc'] st1|st1|] eqn:E.
  - split; [split; discriminate|].
    intros n g1' st' [= <- <- <-]. eexists. split; [reflexivity|].
    pose proof (run_in_order_length _ _ _ _ _ _ E) as Hl.
    rewrite registered_length in Hl by assumption.
    unfold registered. cbn [g_bmt_test_cases g_bmt_test_count].
    rewrite !take_app_length' by lia. reflexivity.
  - split; [split; discriminate|discriminate].
  - split; [split; reflexivity|discriminate].
Qed.

(** ** Test bodies made of checks *)

(** How a body made of checks ends, when it stays within defined
    behaviour. *)
Lemma checks_end file cs : forall st,
  checks file cs st <> Undefined ->
  exists passed_assert st',
    ends_with (checks file cs st) passed_assert st'
    /\ test_passed passed_assert st'
       = forallb check_condition cs
         && negb (g_bmt_current_test_failed_expect st).
Proof.
  induction cs as [|c cs IH]; intros st Hdef.
  - exists true, st. split; [constructor|reflexivity].
  - cbn [checks forallb] in *.
    destruct c as [line [|] ty expr fmt args|line [|] ty expr fmt args];
      cbn [run_check check_condition andb] in *;
      unfold BMT_ASSERT_COMMON, BMT_EXPECT_COMMON in *; cbn [negb] in *.
    + rewrite bind_ret in *. by apply IH.
    + rewrite bind_assoc in *. unfold bind at 1 in Hdef. unfold bind at 1.
      destruct (bmt_report_failure_emits file line ty expr fmt args st)
        as [E|[txt E]]; rewrite E in *; [done|].
      exists false, (emit txt st). split; [constructor|reflexivity].
    + rewrite bind_ret in *. by apply IH.
    + rewrite bind_assoc in *. unfold bind at 1 in Hdef. unfold bind at 1.
      destruct (bmt_report_failure_emits file line ty expr fmt args st)
        as [E|[txt E]]; rewrite E in *; [done|].
      rewrite bind_write_failed_expect in *.
      destruct (IH _ Hdef) as (pa & st' & Hend & Hpassed).
      exists pa, st'. split; [exact Hend|].
      rewrite Hpassed. cbn [set_failed_expect
        g_bmt_current_test_failed_expect negb]. by rewrite andb_false_r.
Qed.


(** ** Durations as they are computed and printed *)

Lemma elapsed_uint32_t start_ticks end_ticks :
  0 <= start_ticks < 2 ^ 32 -> 0 <= end_ticks < 2 ^ 32 ->
  elapsed start_ticks end_ticks = uint32_t (end_ticks - start_ticks).
Proof.
  intros Hs He. rewrite elapsed_no_wrap by assumption.
  destruct (end_ticks >=? start_ticks) eqn:E.
  - symmetry. apply uint32_t_small. lia.
  - unfold uint32_t.
    replace (end_ticks - start_ticks)
      with (0xFFFFFFFF - start_ticks + end_ticks + 1 + (-1) * 2 ^ 32) by lia.
    rewrite Z.mod_add by lia. symmetry. apply Z.mod_small. lia.
Qed.

(** X16. The duration that the runner computes from two tick values is
    their difference modulo [2^32], whichever branch of the conditional
    is taken: it is zero only for equal ticks, durations of adjacent
    intervals add up modulo [2^32], and with the tick function of the
    Zynq-7000 port, which subtracts the value of a down counter from
    [0xFFFFFFFF], it is the number of steps the counter has made, also
    across its reload. *)
Theorem elapsed_is_difference start_ticks end_ticks :
  0 <= start_ticks < 2 ^ 32 -> 0 <= end_ticks < 2 ^ 32 ->
  elapsed start_ticks end_ticks = (end_ticks - start_ticks) mod 2 ^ 32
  /\ (elapsed start_ticks end_ticks = 0 <-> end_ticks = start_ticks)
  /\ (forall mid_ticks, 0 <= mid_ticks < 2 ^ 32 ->
        uint32_t (elapsed start_ticks mid_ticks + elapsed mid_ticks end_ticks)
        = elapsed start_ticks end_ticks)
  /\ elapsed (zynq7000_get_msec_ticks start_ticks)
             (zynq7000_get_msec_ticks end_ticks)
     = (start_ticks - end_ticks) mod 2 ^ 32.
Proof.
  intros Hs He. split; [by apply elapsed_uint32_t|]. split; [|split].
  - rewrite elapsed_no_wrap by assumption.
    destruct (end_ticks >=? start_ticks) eqn:E; lia.
  - intros m Hm. rewrite !elapsed_uint32_t by assumption.
    unfold uint32_t. rewrite <- Zplus_mod. f_equal. lia.
  - unfold zynq7000_get_msec_ticks.
    rewrite elapsed_uint32_t by apply uint32_t_range.
    unfold uint32_t. rewrite <- Zminus_mod. f_equal. lia.
Qed.

Lemma long_of_uint32 d :
  0 <= d < 2 ^ 32 ->
  long d = if (LONG_BITS =? 32) && (2 ^ 31 <=? d) then d - 2 ^ 32 else d.
Proof.
  intros Hd. destruct (LONG_BITS =? 32) eqn:E32; cbn [andb].
  - apply Z.eqb_eq in E32. unfold long, wrap_signed. rewrite E32.
    change (2 ^ (32 - 1)) with (2 ^ 31).
    destruct (2 ^ 31 <=? d) eqn:E.
    + replace (d + 2 ^ 31) with (d - 2 ^ 31 + 1 * 2 ^ 32) by lia.
      rewrite Z.mod_add by lia. rewrite Z.mod_small; lia.
    + rewrite Z.mod_small; lia.
  - apply long_small. unfold LONG_MIN, LONG_MAX.
    assert (2 ^ 32 <= 2 ^ (LONG_BITS - 1)) by (apply Z.pow_le_mono_r; lia).
    lia.
Qed.



(** ** The registry after a run *)

Lemma runnable_same tc tc' : same_test tc tc' -> runnable tc -> runnable tc'.
Proof.
  intros (_ & _ & Hf) (b & Hb & Hdef). exists b. split; [congruence|exact Hdef].
Qed.

Lemma Forall_runnable_same tcs tcs' :
  Forall2 same_test tcs tcs' -> Forall runnable tcs -> Forall runnable tcs'.
Proof.
  induction 1 as [|tc tc' tcs tcs' H1 H2 IH]; intros Hrun; [constructor|].
  inversion Hrun; subst. constructor; [by eapply runnable_same|by apply IH].
Qed.

Lemma elapsed_range start_ticks end_ticks :
  0 <= elapsed start_ticks end_ticks < 2 ^ 32.
Proof. unfold elapsed. destruct (_ >=? _); apply uint32_t_range. Qed.

Lemma run_in_order_durations tcs : forall acc st tcs' acc' st',
  run_in_order tcs acc st = Returned (tcs', acc') st' ->
  Forall (fun tc => 0 <= duration_ms tc < 2 ^ 32) tcs'.
Proof.
  induction tcs as [|tc tcs IH]; intros acc st tcs' acc' st' E.
  - injection E as <- _ _. constructor.
  - cbn [run_in_order] in E. unfold bind in E.
    destruct (run_descriptor tc acc st) as [[tc1 acc1] st1|st1|] eqn:E0;
      try discriminate.
    cbn [fst snd] in E.
    destruct (run_in_order tcs acc1 st1) as [[tcs1 acc2] st2|st2|] eqn:E1;
      try discriminate.
    injection E as <- _ _. cbn [fst]. constructor; [|by eapply IH].
    unfold run_descriptor in E0. destruct (func tc) as [b|]; [|discriminate].
    destruct (b (test_entry tc st)) as [[] s|s|]; try discriminate;
      injection E0 as <- _ _; apply elapsed_range.
Qed.

(** X18. The registry after a run of runnable tests: the count and the
    unused part of the array are as before, the registered descriptors
    are those of the same tests, one by one in the same order, with the
    same names and the same function, so that the registry is
    well-formed and runnable again and a second run returns as well. *)
Theorem run_keeps_registry g st :
  registry_wf g ->
  Forall runnable (registered g) ->
  exists n g' st',
    bmt_run_all_tests g st = Returned (n, g') st'
    /\ g_bmt_test_count g' = g_bmt_test_count g
    /\ length (g_bmt_test_cases g') = length (g_bmt_test_cases g)
    /\ drop (Z.to_nat (g_bmt_test_count g)) (g_bmt_test_cases g')
       = drop (Z.to_nat (g_bmt_test_count g)) (g_bmt_test_cases g)
    /\ Forall2 same_test (registered g) (registered g')
    /\ registry_wf g'
    /\ Forall runnable (registered g')
    /\ forall st0, exists n2 g2 st2,
         bmt_run_all_tests g' st0 = Returned (n2, g2) st2.
Proof.
  intros Hwf Hrun.
  destruct (bmt_run_all_tests_spec g st Hwf Hrun)
    as (tcs' & acc' & st1 & E & Hsame & Hf & Hp & Ht & Erun).
  pose proof (registered_length g Hwf) as Hreg.
  pose proof (Forall2_length _ _ _ Hsame) as Hl.
  set (g' := {| g_bmt_test_cases :=
                  tcs' ++ drop (Z.to_nat (g_bmt_test_count g))
                            (g_bmt_test_cases g);
                g_bmt_test_count := g_bmt_test_count g |}) in *.
  assert (Hlen' : length (g_bmt_test_cases g') = length (g_bmt_test_cases g)).
  { destruct Hwf as [Hlen Hc]. unfold BMT_MAX_TEST_CASES in *.
    subst g'. cbn [g_bmt_test_cases]. rewrite length_app, length_drop. lia. }
  assert (Hwf' : registry_wf g').
  { destruct Hwf as [Hlen Hc]. split; [by rewrite Hlen'|exact Hc]. }
  assert (Hreg' : registered g' = tcs').
  { unfold registered, g'. cbn [g_bmt_test_cases g_bmt_test_count].
    apply take_app_length'. lia. }
  assert (Hrun' : Forall runnable (registered g')).
  { rewrite Hreg'. by eapply Forall_runnable_same. }
  eexists (tests_failed acc'), g', _. split; [exact Erun|].
  split; [reflexivity|]. split; [exact Hlen'|]. split.
  { subst g'. cbn [g_bmt_test_cases]. rewrite drop_app_length'; [done|lia]. }
  split; [by rewrite Hreg'|].
  split; [exact Hwf'|]. split; [exact Hrun'|].
  intros st0.
  destruct (bmt_run_all_tests_spec g' st0 Hwf' Hrun')
    as (? & ? & ? & _ & _ & _ & _ & _ & Erun2).
  eauto.
Qed.

(** X19. The totals of a run of runnable tests.  Every duration recorded
    is a 32-bit value; the total printed in the summary is the sum of the
    recorded durations modulo [2^32], and the number of passed tests
    printed there is the number of descriptors recorded as passed. *)
Theorem run_totals g st :
  registry_wf g ->
  Forall runnable (registered g) ->
  exists n g' acc st1 st',
    bmt_run_all_tests g st = Returned (n, g') st'
    /\ output st'
       = output st1 ++ summary_text (g_bmt_test_count g) (registered g') acc
    /\ Forall (fun tc => 0 <= duration_ms tc < 2 ^ 32) (registered g')
    /\ total_duration_ms acc = sum_durations (registered g') mod 2 ^ 32
    /\ tests_passed acc = Z.of_nat (length (passing (registered g')))
    /\ tests_failed acc = n.
Proof.
  intros Hwf Hrun.
  destruct (bmt_run_all_tests_spec g st Hwf Hrun)
    as (tcs' & acc' & st1 & E & Hsame & Hf & Hp & Ht & Erun).
  pose proof (registered_length g Hwf) as Hreg.
  pose proof (Forall2_length _ _ _ Hsame) as Hl.
  eexists _, _, acc', st1, _. split; [exact Erun|].
  assert (Hreg' : registered
            {| g_bmt_test_cases :=
                 tcs' ++ drop (Z.to_nat (g_bmt_test_count g)) (g_bmt_test_cases g);
               g_bmt_test_count := g_bmt_test_count g |} = tcs').
  { unfold registered. cbn [g_bmt_test_cases g_bmt_test_count].
    apply take_app_length'. lia. }
  rewrite Hreg'. split; [reflexivity|].
  split; [by eapply run_in_order_durations|].
  split; [exact Ht|]. split; [exact Hp|reflexivity].
Qed.


(** ** Reports with a message *)

Lemma bmt_report_failure_render file line ty expr ds args txt args' st :
  - 2 ^ 31 <= line < 2 ^ 31 ->
  no_nul ty = true -> no_nul expr = true ->
  (length ty + length expr <= 249)%nat ->
  forallb directive_ok ds = true ->
  render ds args = Some (txt, args') ->
  bmt_report_failure file line ty expr (Some (literal (format_of ds))) args st
  = Returned tt
      (emit (report_head file line ty expr ++ message_line txt) st).
Proof.
  intros Hline Hty Hexpr Hlen Hok Hrender.
  rewrite bmt_report_failure_split by assumption.
  destruct (Nat.leb_spec (length ty + length expr) 249); [|lia].
  unfold bind, literal. rewrite format_loop_render by assumption.
  rewrite Hrender. unfold bmt_platform_puts, message_line.
  rewrite !emit_emit, <- ?app_assoc. reflexivity.
Qed.

(** X20. The whole report of a failure with a message, for a line number
    in [int] range, at most 249 characters of assertion type and
    expression together, and a format made of plain characters, [%s],
    [%ld] and other two-character [%] sequences whose arguments are
    there: the call returns, having printed the head, the line of the
    check and the message line with the text that [render] gives. *)
Theorem report_renders file line ty expr ds args txt args' st :
  - 2 ^ 31 <= line < 2 ^ 31 ->
  no_nul ty = true -> no_nul expr = true ->
  (length ty + length expr <= 249)%nat ->
  forallb directive_ok ds = true ->
  render ds args = Some (txt, args') ->
  bmt_report_failure file line ty expr (Some (literal (format_of ds))) args st
  = Returned tt
      (emit (file ++ [":"%char] ++ itoa_text (long line)
             ++ text ": Failure" ++ CRLF
             ++ text "  " ++ ty ++ text "(" ++ expr ++ text ")" ++ CRLF
             ++ text "    Message: " ++ txt ++ CRLF) st).
Proof.
  intros. rewrite (bmt_report_failure_render _ _ _ _ _ _ txt args')
    by assumption.
  unfold report_head, failure_text, message_line.
  rewrite <- ?app_assoc. reflexivity.
Qed.

Lemma fatal_check_render file line condition ty expr ds args txt args' st :
  - 2 ^ 31 <= line < 2 ^ 31 ->
  no_nul ty = true -> no_nul expr = true ->
  (length ty + length expr <= 249)%nat ->
  forallb directive_ok ds = true ->
  render ds args = Some (txt, args') ->
  BMT_ASSERT_COMMON file line condition ty expr
    (Some (literal (format_of ds))) args st =
    if condition then Returned tt st
    else LongJmp
           (emit (report_head file line ty expr ++ message_line txt) st).
Proof.
  intros. unfold BMT_ASSERT_COMMON.
  destruct condition; [reflexivity|]. cbn [negb]. unfold bind.
  by rewrite (bmt_report_failure_render _ _ _ _ _ _ txt args') by assumption.
Qed.

Lemma nonfatal_check_render file line condition ty expr ds args txt args' st :
  - 2 ^ 31 <= line < 2 ^ 31 ->
  no_nul ty = true -> no_nul expr = true ->
  (length ty + length expr <= 249)%nat ->
  forallb directive_ok ds = true ->
  render ds args = Some (txt, args') ->
  BMT_EXPECT_COMMON file line condition ty expr
    (Some (literal (format_of ds))) args st =
    if condition then Returned tt st
    else Returned tt
           (set_failed_expect true
              (emit (report_head file line ty expr ++ message_line txt) st)).
Proof.
  intros. unfold BMT_EXPECT_COMMON.
  destruct condition; [reflexivity|]. cbn [negb]. unfold bind.
  by rewrite (bmt_report_failure_render _ _ _ _ _ _ txt args') by assumption.
Qed.

(** X21. The checks on whole strings.  A failing [ASSERT_STREQ],
    [ASSERT_STRNE], [EXPECT_STREQ] or [EXPECT_STRNE] prints the head, the
    line of the check and a message that shows the two strings between
    double quotes, whatever their length, the word [NULL] standing for a
    NULL pointer; the ASSERT forms then leave through the [longjmp], the
    EXPECT forms set the flag and return.  A passing check has no
    effect. *)
Theorem STR_checks file line s1 s2 e1 e2 st :
  - 2 ^ 31 <= line < 2 ^ 31 ->
  no_nul e1 = true -> no_nul e2 = true ->
  (length e1 + length e2 <= 230)%nat ->
  let shown pre mid :=
    message_line (pre ++ quote ++ or_NULL s1 ++ quote ++ mid ++ quote
                  ++ or_NULL s2 ++ quote) in
  let reported ty op pre mid :=
    emit (report_head file line ty (e1 ++ op ++ e2) ++ shown pre mid) st in
  ASSERT_STREQ file line s1 s2 e1 e2 st
    = (if str_equal s1 s2 then Returned tt st
       else LongJmp (reported (text "ASSERT_STREQ") (text " STREQ ")
                       (text "Expected: ") (text ", Actual: ")))
  /\ ASSERT_STRNE file line s1 s2 e1 e2 st
    = (if str_equal s1 s2
       then LongJmp (reported (text "ASSERT_STRNE") (text " STRNE ")
                       (text "Expected strings to be different. s1: ")
                       (text ", s2: "))
       else Returned tt st)
  /\ EXPECT_STREQ file line s1 s2 e1 e2 st
    = (if str_equal s1 s2 then Returned tt st
       else Returned tt
              (set_failed_expect true
                 (reported (text "EXPECT_STREQ") (text " STREQ ")
                    (text "Expected: ") (text ", Actual: "))))
  /\ EXPECT_STRNE file line s1 s2 e1 e2 st
    = (if str_equal s1 s2
       then Returned tt
              (set_failed_expect true
                 (reported (text "EXPECT_STRNE") (text " STRNE ")
                    (text "Expected strings to be different. s1: ")
                    (text ", s2: ")))
       else Returned tt st).
Proof.
  intros Hline He1 He2 Hlen. cbn zeta.
  unfold ASSERT_STREQ, ASSERT_STRNE, EXPECT_STREQ, EXPECT_STRNE.
  repeat split.
  - refine (fatal_check_render _ _ _ _ _ STREQ_directives _ _ [] _
              Hline _ _ _ _ _);
      try reflexivity; [text_no_nul|text_length].
  - destruct (str_equal s1 s2); cbn [negb]; [|reflexivity].
    refine (fatal_check_render _ _ false _ _ STRNE_directives _ _ [] _
              Hline _ _ _ _ _);
      try reflexivity; [text_no_nul|text_length].
  - refine (nonfatal_check_render _ _ _ _ _ STREQ_directives _ _ [] _
              Hline _ _ _ _ _);
      try reflexivity; [text_no_nul|text_length].
  - destruct (str_equal s1 s2); cbn [negb]; [|reflexivity].
    refine (nonfatal_check_render _ _ false _ _ STRNE_directives _ _ [] _
              Hline _ _ _ _ _);
      try reflexivity; [text_no_nul|text_length].
Qed.

(** X22. Checks whose message does not show the values.  The formats of
    [ASSERT_NULL], [EXPECT_NULL], [ASSERT_FLOAT_EQ], [ASSERT_DOUBLE_EQ] and
    [ASSERT_NEAR] use [%p] and [%g], which the message loop knows no more
    than it knows [%u]: a failing check prints the format itself as the
    message, the pointer or the numbers are not printed, and the check
    then behaves as every fatal or non-fatal check does. *)
Theorem checks_with_unprinted_values file line condition e1 e2 e3 st :
  - 2 ^ 31 <= line < 2 ^ 31 ->
  no_nul e1 = true -> no_nul e2 = true -> no_nul e3 = true ->
  (length e1 + length e2 + length e3 <= 224)%nat ->
  let reported ty expr msg :=
    emit (report_head file line ty expr ++ message_line msg) st in
  ASSERT_NULL file line condition e1 st
    = (if condition then Returned tt st
       else LongJmp (reported (text "ASSERT_NULL") (e1 ++ text " == NULL")
                       (text "Actual: %p")))
  /\ EXPECT_NULL file line condition e1 st
    = (if condition then Returned tt st
       else Returned tt
              (set_failed_expect true
                 (reported (text "EXPECT_NULL") (e1 ++ text " == NULL")
                    (text "Actual: %p"))))
  /\ ASSERT_FLOAT_EQ file line condition e1 e2 st
    = (if condition then Returned tt st
       else LongJmp (reported (text "ASSERT_FLOAT_EQ")
                       (e1 ++ text " == " ++ e2)
                       (text "Expected: %g, Actual: %g")))
  /\ ASSERT_DOUBLE_EQ file line condition e1 e2 st
    = (if condition then Returned tt st
       else LongJmp (reported (text "ASSERT_DOUBLE_EQ")
                       (e1 ++ text " == " ++ e2)
                       (text "Expected: %g, Actual: %g")))
  /\ ASSERT_NEAR file line condition e1 e2 e3 st
    = (if condition then Returned tt st
       else LongJmp
              (reported (text "ASSERT_NEAR")
                 (e1 ++ text " NEAR " ++ e2 ++ text ", error " ++ e3)
                 (text "Value1: %g, Value2: %g, Diff: %g, Max Abs Error: %g"))).
Proof.
  intros Hline He1 He2 He3 Hlen. cbn zeta.
  unfold ASSERT_NULL, EXPECT_NULL, ASSERT_FLOAT_EQ, ASSERT_DOUBLE_EQ,
    ASSERT_NEAR.
  repeat split.
  - refine (fatal_check_render _ _ _ _ _ NULL_directives _ _ [VaOther] _
              Hline _ _ _ _ _);
      try reflexivity; [text_no_nul|text_length].
  - refine (nonfatal_check_render _ _ _ _ _ NULL_directives _ _ [VaOther] _
              Hline _ _ _ _ _);
      try reflexivity; [text_no_nul|text_length].
  - refine (fatal_check_render _ _ _ _ _ FLOAT_EQ_directives _ _
              [VaOther; VaOther] _ Hline _ _ _ _ _);
      try reflexivity; [text_no_nul|text_length].
  - refine (fatal_check_render _ _ _ _ _ FLOAT_EQ_directives _ _
              [VaOther; VaOther] _ Hline _ _ _ _ _);
      try reflexivity; [text_no_nul|text_length].
  - refine (fatal_check_render _ _ _ _ _ NEAR_directives _ _
              [VaOther; VaOther; VaOther; VaOther] _ Hline _ _ _ _ _);
      try reflexivity; [text_no_nul|text_length].
Qed.


(** ** What the runner prints around a test *)

(** X23. The transcript of one test.  Before the body runs, the runner
    has printed [[ RUN      ] suite.name], reset the flag of the EXPECT
    macros and read the tick counter once.  When the body ends, by return
    or by [longjmp], the runner reads the counter once more and appends to
    whatever the body printed the line [[       OK ] suite.name (N ms)]
    or [[  FAILED  ] suite.name (N ms)], where [N] is the text of the
    duration converted to [long]; it leaves the flag as the body left
    it. *)
Theorem test_transcript i cases acc st tc b passed_assert st' :
  load cases i = Some tc ->
  func tc = Some b ->
  ends_with (b (test_entry tc st)) passed_assert st' ->
  output (test_entry tc st)
    = output st ++ text "[ RUN      ] " ++ suite_name tc ++ ["."%char]
      ++ test_name tc ++ CRLF
  /\ g_bmt_current_test_failed_expect (test_entry tc st) = false
  /\ tick_reads (test_entry tc st) = S (tick_reads st)
  /\ exists cases' acc' st'',
       run_test i cases acc st = Returned (cases', acc') st''
       /\ output st''
          = output st'
            ++ (if passed_assert && negb (g_bmt_current_test_failed_expect st')
                then text "[       OK ] " else text "[  FAILED  ] ")
            ++ suite_name tc ++ ["."%char] ++ test_name tc ++ text " ("
            ++ itoa_text (long (elapsed (read_ticks st) (read_ticks st')))
            ++ text " ms)" ++ CRLF
       /\ tick_reads st'' = S (tick_reads st')
       /\ g_bmt_current_test_failed_expect st''
          = g_bmt_current_test_failed_expect st'.
Proof.
  intros Hload Hfunc Hend. repeat split.
  pose proof (run_test_ends i cases acc st tc b _ _ Hload Hfunc Hend) as E.
  cbn zeta in E. eexists _, _, _. split; [exact E|].
  repeat split.
Qed.


(** ** The functions of [examples/mathoperations.c] *)

(** X24. [is_even] is right for every [int], negative ones included: the
    remainder of C is [0] exactly for the multiples of two. *)
Theorem is_even_correct n :
  is_even n = Z.even n
  /\ (is_even n = true <-> exists k, n = 2 * k).
Proof using Type.
  clear long_width.
  assert (E : is_even n = Z.even n).
  { unfold is_even. rewrite Zrem_even.
    destruct (Z.even n) eqn:Ev; [reflexivity|].
    destruct n; try reflexivity. discriminate. }
  split; [exact E|]. rewrite E. apply Z.even_spec.
Qed.

Lemma divide_bounds d n :
  0 < n -> 1 < d < n -> (d | n) ->
  exists e, n = e * d /\ 1 < e < n.
Proof using Type.
  clear long_width.
  intros Hn Hd [e He]. exists e. split; [exact He|]. nia.
Qed.

Lemma is_prime_loop_correct fuel : forall n i,
  3 < n < 65531 * 65531 ->
  n mod 2 <> 0 -> n mod 3 <> 0 ->
  5 <= i <= 65531 -> i mod 6 = 5 ->
  (forall d, 2 <= d < i -> ~ (d | n)) ->
  65531 - i < 6 * Z.of_nat fuel ->
  exists b, is_prime_loop fuel n i = Some b /\ (b = true <-> Z.prime n).
Proof using Type.
  clear long_width.
  induction fuel as [|fuel IH]; intros n i Hn H2 H3 Hi Hmod Hinv Hfuel; [lia|].
  cbn [is_prime_loop].
  rewrite (uint32_t_small (i * i)) by nia.
  destruct (i * i <=? n) eqn:Esq.
  - apply Z.leb_le in Esq.
    assert (Hlt : i < n) by nia.
    destruct (i =? 0) eqn:E0; [lia|].
    destruct (n mod i =? 0) eqn:Ei.
    { exists false. split; [reflexivity|]. split; [discriminate|].
      intros [_ Hp]. exfalso. apply (Hp i); [lia|].
      apply Z.mod_divide; lia. }
    rewrite (uint32_t_small (i + 2)) by lia.
    destruct (i + 2 =? 0) eqn:E2; [lia|].
    destruct (n mod (i + 2) =? 0) eqn:Ei2.
    { exists false. split; [reflexivity|]. split; [discriminate|].
      intros [_ Hp]. exfalso. apply (Hp (i + 2)); [nia|].
      apply Z.mod_divide; lia. }
    rewrite (uint32_t_small (i + 6)) by lia.
    pose proof (Z.div_mod i 6 ltac:(lia)) as Hq. rewrite Hmod in Hq.
    assert (Hnext : i + 6 <= 65531) by nia.
    apply IH; try assumption; try lia.
    + rewrite <- (Z.mod_add i 1 6) in Hmod by lia.
      replace (i + 1 * 6) with (i + 6) in Hmod by lia. exact Hmod.
    + intros d Hd Hdiv.
      assert (Hcase : d < i \/ d = i \/ d = i + 1 \/ d = i + 2 \/ d = i + 3
                      \/ d = i + 4 \/ d = i + 5) by lia.
      destruct Hcase as [Hc|[->|[->|[->|[->|[->| ->]]]]]].
      * by apply (Hinv d); [lia|].
      * apply Z.mod_divide in Hdiv; lia.
      * apply H2. apply Z.mod_divide; [lia|].
        apply (Z.divide_trans _ (i + 1)); [|exact Hdiv].
        exists (3 * (i / 6) + 3). lia.
      * apply Z.mod_divide in Hdiv; lia.
      * apply H2. apply Z.mod_divide; [lia|].
        apply (Z.divide_trans _ (i + 3)); [|exact Hdiv].
        exists (3 * (i / 6) + 4). lia.
      * apply H3. apply Z.mod_divide; [lia|].
        apply (Z.divide_trans _ (i + 4)); [|exact Hdiv].
        exists (2 * (i / 6) + 3). lia.
      * apply H2. apply Z.mod_divide; [lia|].
        apply (Z.divide_trans _ (i + 5)); [|exact Hdiv].
        exists (3 * (i / 6) + 5). lia.
  - apply Z.leb_gt in Esq.
    exists true. split; [reflexivity|]. split; [intros _|reflexivity].
    split; [lia|]. intros d Hd Hdiv.
    destruct (divide_bounds d n ltac:(lia) Hd Hdiv) as (e & He & Hebound).
    destruct (Z_lt_le_dec d i) as [Hsmall|Hbig].
    + by apply (Hinv d); [lia|].
    + apply (Hinv e); [nia|]. exists d. lia.
Qed.

(** X25. [is_prime] is right for every [n] below [65531 * 65531], where
    the product [i * i] of the loop condition fits 32 bits: the function
    returns, without any remainder by zero, [true] for the primes and
    [false] for all other numbers. *)
Theorem is_prime_correct n :
  0 <= n < 65531 * 65531 ->
  exists b, is_prime n = Some b /\ (b = true <-> Z.prime n).
Proof using Type.
  clear long_width.
  intros Hn. unfold is_prime.
  destruct (n <=? 1) eqn:E1.
  { exists false. split; [reflexivity|]. split; [discriminate|].
    intros [Hp _]. lia. }
  destruct (n <=? 3) eqn:E3.
  { exists true. split; [reflexivity|]. split; [intros _|reflexivity].
    split; [lia|]. intros d Hd [e He].
    assert (n = 2 \/ n = 3) as [-> | ->] by lia; [lia|].
    assert (d = 2) as -> by lia. lia. }
  destruct (n mod 2 =? 0) eqn:Em2; cbn [orb].
  { exists false. split; [reflexivity|]. split; [discriminate|].
    intros [_ Hp]. exfalso. apply (Hp 2); [lia|]. apply Z.mod_divide; lia. }
  destruct (n mod 3 =? 0) eqn:Em3.
  { exists false. split; [reflexivity|]. split; [discriminate|].
    intros [_ Hp]. exfalso. apply (Hp 3); [lia|]. apply Z.mod_divide; lia. }
  apply is_prime_loop_correct; try lia.
  - reflexivity.
  - intros d Hd Hdiv.
    assert (Hcase : d = 2 \/ d = 3 \/ d = 4) by lia.
    destruct Hcase as [->|[->| ->]].
    + apply Z.mod_divide in Hdiv; lia.
    + apply Z.mod_divide in Hdiv; lia.
    + assert (H2 : (2 | n)).
      { apply (Z.divide_trans _ 4); [by exists 2|exact Hdiv]. }
      apply Z.mod_divide in H2; lia.
Qed.


Lemma odd_square_mod_8 i : i mod 2 = 1 -> (i * i) mod 8 = 1.
Proof using Type.
  clear long_width. intros Hodd.
  pose proof (Z.mod_pos_bound i 8 ltac:(lia)) as Hr.
  pose proof (Z.div_mod i 8 ltac:(lia)) as H8.
  pose proof (Z.div_mod i 2 ltac:(lia)) as H2.
  rewrite Z.mul_mod by lia.
  assert (Hcase : i mod 8 = 1 \/ i mod 8 = 3 \/ i mod 8 = 5 \/ i mod 8 = 7)
    by lia.
  destruct Hcase as [->|[->|[->| ->]]]; reflexivity.
Qed.

(** The product [i * i] of an odd [i], reduced to 32 bits, is at most
    [2^32 - 7]. *)
Lemma wrapped_square_bound i : i mod 2 = 1 -> uint32_t (i * i) <= 2 ^ 32 - 7.
Proof using Type.
  clear long_width. intros Hodd. unfold uint32_t.
  pose proof (Z.mod_pos_bound (i * i) (2 ^ 32) ltac:(lia)) as Hr.
  assert (H8 : ((i * i) mod 2 ^ 32) mod 8 = 1).
  { rewrite Z.mod_mod_divide by (exists (2 ^ 29); reflexivity).
    by apply odd_square_mod_8. }
  pose proof (Z.div_mod ((i * i) mod 2 ^ 32) 8 ltac:(lia)) as Hq.
  lia.
Qed.

Lemma is_prime_loop_wraps fuel : forall n i,
  2 ^ 32 - 7 <= n < 2 ^ 32 -> Z.prime n ->
  5 <= i <= n -> i mod 6 = 5 ->
  n - i < 6 * Z.of_nat fuel ->
  is_prime_loop fuel n i = Some false.
Proof using Type.
  clear long_width.
  induction fuel as [|fuel IH]; intros n i Hn Hprime Hi Hmod Hfuel; [lia|].
  pose proof (Z.div_mod i 6 ltac:(lia)) as Hq. rewrite Hmod in Hq.
  assert (Hodd : i mod 2 = 1).
  { replace i with (1 + (3 * (i / 6) + 2) * 2) by lia.
    rewrite Z.mod_add by lia. reflexivity. }
  pose proof (wrapped_square_bound i Hodd) as Hsq.
  destruct Hprime as [Hn1 Hp].
  assert (Hn2 : n mod 2 <> 0).
  { intros E. apply (Hp 2); [lia|]. apply Z.mod_divide; lia. }
  assert (Hn3 : n mod 3 <> 0).
  { intros E. apply (Hp 3); [lia|]. apply Z.mod_divide; lia. }
  pose proof (Z.div_mod n 6 ltac:(lia)) as Hnq.
  pose proof (Z.mod_pos_bound n 6 ltac:(lia)) as Hnr.
  pose proof (Z.div_mod n 2 ltac:(lia)) as Hn2q.
  pose proof (Z.mod_pos_bound n 2 ltac:(lia)) as Hn2r.
  pose proof (Z.div_mod n 3 ltac:(lia)) as Hn3q.
  pose proof (Z.mod_pos_bound n 3 ltac:(lia)) as Hn3r.
  assert (Hres : n mod 6 = 1 \/ n mod 6 = 5) by lia.
  cbn [is_prime_loop].
  destruct (uint32_t (i * i) <=? n) eqn:Esq; [|lia].
  destruct (i =? 0) eqn:E0; [lia|].
  destruct (Z.eq_dec i n) as [->|Hne].
  { rewrite Z_mod_same_full. reflexivity. }
  destruct (n mod i =? 0) eqn:Ei; [reflexivity|].
  assert (Hi2 : i + 2 <= n) by lia.
  rewrite (uint32_t_small (i + 2)) by lia.
  destruct (i + 2 =? 0) eqn:E2; [lia|].
  destruct (Z.eq_dec (i + 2) n) as [<-|Hne2].
  { rewrite Z_mod_same_full. reflexivity. }
  destruct (n mod (i + 2) =? 0) eqn:Ei2; [reflexivity|].
  assert (Hi6 : i + 6 <= n) by lia.
  rewrite (uint32_t_small (i + 6)) by lia.
  apply IH; try lia; [split; assumption|].
  rewrite <- (Z.mod_add i 1 6) in Hmod by lia.
  replace (i + 1 * 6) with (i + 6) in Hmod by lia. exact Hmod.
Qed.

(** X26. [is_prime] is not right on the whole of [uint32_t].  For a
    prime [n] of at least [2^32 - 7] the wrapped product [i * i] never
    exceeds [n], so the loop goes on until the candidate divisor is [n]
    itself, and the function returns [false]. *)
Theorem is_prime_wraps n :
  2 ^ 32 - 7 <= n < 2 ^ 32 ->
  Z.prime n ->
  is_prime n = Some false.
Proof using Type.
  clear long_width. intros Hn Hprime. unfold is_prime.
  assert (Hn2 : n mod 2 <> 0).
  { intros E. apply (proj2 Hprime 2); [lia|]. apply Z.mod_divide; lia. }
  assert (Hn3 : n mod 3 <> 0).
  { intros E. apply (proj2 Hprime 3); [lia|]. apply Z.mod_divide; lia. }
  destruct (n <=? 1) eqn:E1; [lia|].
  destruct (n <=? 3) eqn:E3; [lia|].
  destruct (n mod 2 =? 0) eqn:Em2; [lia|].
  destruct (n mod 3 =? 0) eqn:Em3; [lia|]. cbn [orb].
  apply is_prime_loop_wraps; try assumption; try lia. reflexivity.
Qed.

Lemma no_divisor_from_spec fuel : forall d n,
  0 < d ->
  no_divisor_from fuel d n = true ->
  forall k, d <= k < d + Z.of_nat fuel -> ~ (k | n).
Proof using Type.
  clear long_width.
  induction fuel as [|fuel IH]; intros d n Hd Hcheck k Hk; [lia|].
  cbn [no_divisor_from] in Hcheck. apply andb_prop in Hcheck as [Hhere Hrest].
  destruct (Z.eq_dec k d) as [->|Hne].
  - intros Hdiv. apply Z.mod_divide in Hdiv; [|lia].
    rewrite Hdiv in Hhere. discriminate.
  - apply (IH (d + 1) n); [lia|exact Hrest|lia].
Qed.

(** Trial division up to the square root decides primality. *)
Lemma prime_by_trial_division fuel n :
  1 < n -> n < (2 + Z.of_nat fuel) * (2 + Z.of_nat fuel) ->
  no_divisor_from fuel 2 n = true ->
  Z.prime n.
Proof using Type.
  clear long_width. intros Hn Hsq Hcheck. split; [exact Hn|].
  intros d Hd Hdiv.
  destruct (divide_bounds d n ltac:(lia) Hd Hdiv) as (e & He & Hebound).
  destruct (Z_lt_le_dec d (2 + Z.of_nat fuel)) as [Hsmall|Hbig].
  - apply (no_divisor_from_spec fuel 2 n ltac:(lia) Hcheck d); [lia|exact Hdiv].
  - apply (no_divisor_from_spec fuel 2 n ltac:(lia) Hcheck e); [nia|].
    exists d. lia.
Qed.


End BMT.

(** * Concrete runs

    The example platform is the Zynq-7000, where [long] has 32 bits. *)

Lemma demo_registry_wf : registry_wf (demo_registry 32).
Proof. split; [reflexivity|]. vm_compute. split; discriminate. Qed.

Lemma full_registry_wf : registry_wf (full_registry 32).
Proof. split; [reflexivity|]. vm_compute. split; discriminate. Qed.

Lemma demo_registered :
  registered (demo_registry 32) = map new_descriptor (demo_tests 32).
Proof. reflexivity. Qed.

Lemma demo_runnable : Forall runnable (registered (demo_registry 32)).
Proof.
  rewrite demo_registered.
  repeat constructor; eexists; (split; [reflexivity|]);
    intros st; vm_compute; discriminate.
Qed.

Lemma long_width_32 : 32 <= 32 <= 64.
Proof. lia. Qed.

(** [fatal_failure_isolated] on the fatal test of the demonstration
    registry. *)
Lemma fatal_failure_isolated_demo :
  (forall rest' : body,
     (ret tt ;;
      BMT_ASSERT_COMMON 32 demo_file 214 false (text "ASSERT_EQ")
        (text "1 == 0")
        (Some (literal (text "Expected: %ld, Actual: %ld")))
        [VaLong 1; VaLong 0] ;;
      rest') (test_entry (demo_fatal_tc 32) demo_state)
     = LongJmp (demo_fatal_reported 32))
  /\ (exists cases' acc' st' tc',
        run_test 32 1 (g_bmt_test_cases (demo_registry 32)) counters_zero
          demo_state
          = Returned (cases', acc') st'
        /\ load cases' 1 = Some tc'
        /\ last_run_passed tc' = false
        /\ tests_failed acc' = int (tests_failed counters_zero + 1)
        /\ tests_passed acc' = tests_passed counters_zero
        /\ forall n,
             run_loop 32 (S n) 1 (g_bmt_test_cases (demo_registry 32))
               counters_zero demo_state
             = run_loop 32 n (int (1 + 1)) cases' acc' st')
  /\ (forall st0, exists n g' st',
        bmt_run_all_tests 32 (demo_registry 32) st0 = Returned (n, g') st').
Proof.
  refine (fatal_failure_isolated 32 long_width_32 (demo_registry 32) 1
            (g_bmt_test_cases (demo_registry 32)) counters_zero demo_state
            (demo_fatal_tc 32) (ret tt) (bmt_platform_puts (text "never"))
            demo_file 214 (text "ASSERT_EQ") (text "1 == 0")
            (Some (literal (text "Expected: %ld, Actual: %ld")))
            [VaLong 1; VaLong 0]
            (test_entry (demo_fatal_tc 32) demo_state)
            (demo_fatal_reported 32) _ _ _ _ demo_registry_wf demo_runnable).
  - vm_compute. reflexivity.
  - vm_compute. reflexivity.
  - vm_compute. reflexivity.
  - vm_compute. reflexivity.
Defined.

(** [expect_failure_continues] on the test of the demonstration registry
    whose expectation fails. *)
Lemma expect_failure_continues_demo :
  (BMT_EXPECT_COMMON 32 demo_file 222 false (text "EXPECT_EQ")
     (text "1" ++ text " == " ++ text "0")
     (Some (literal (text "Expected: %ld, Actual: %ld")))
     [VaLong (long 32 1); VaLong (long 32 0)] ;;
   bmt_platform_puts (text "after"))
    (test_entry (demo_expect_tc 32) demo_state)
  = bmt_platform_puts (text "after")
      (set_failed_expect true (demo_expect_reported 32))
  /\ g_bmt_current_test_failed_expect
       (set_failed_expect true (demo_expect_reported 32)) = true
  /\ output (set_failed_expect true (demo_expect_reported 32))
     = output (demo_expect_reported 32)
  /\ g_bmt_current_test_failed_expect
       (test_entry (demo_expect_tc 32) demo_state) = false
  /\ exists cases' acc' st'' tc',
       run_test 32 2 (g_bmt_test_cases (demo_registry 32)) counters_zero
         demo_state
         = Returned (cases', acc') st''
       /\ load cases' 2 = Some tc'
       /\ last_run_passed tc'
          = true && negb (g_bmt_current_test_failed_expect
                            (demo_expect_ended 32)).
Proof.
  refine (expect_failure_continues 32 long_width_32 2
            (g_bmt_test_cases (demo_registry 32)) counters_zero demo_state
            (demo_expect_tc 32) (demo_expect_body 32) true
            (demo_expect_ended 32)
            (bmt_platform_puts (text "after"))
            demo_file 222 (text "EXPECT_EQ")
            (text "1" ++ text " == " ++ text "0")
            (Some (literal (text "Expected: %ld, Actual: %ld")))
            [VaLong (long 32 1); VaLong (long 32 0)]
            (test_entry (demo_expect_tc 32) demo_state)
            (demo_expect_reported 32) _ _ _ _).
  - vm_compute. reflexivity.
  - vm_compute. reflexivity.
  - vm_compute. reflexivity.
  - vm_compute. constructor.
Defined.

(** Witness of C3: the run of the demonstration registry. *)
Lemma C3_witness :
  exists n g' cases' acc st1 st',
    bmt_run_all_tests 32 (demo_registry 32) demo_state = Returned (n, g') st'
    /\ run_loop 32 (Z.to_nat (g_bmt_test_count (demo_registry 32))) 0
         (g_bmt_test_cases (demo_registry 32)) counters_zero
         (emit (banner_text 32 (g_bmt_test_count (demo_registry 32))) demo_state)
         = Returned (cases', acc) st1
    /\ g_bmt_test_count g' = g_bmt_test_count (demo_registry 32)
    /\ Forall2 same_test (registered (demo_registry 32)) (registered g')
    /\ n = Z.of_nat (length (failing (registered g')))
    /\ (n = 0 <-> failing (registered g') = [])
    /\ output st' =
         output st1
         ++ summary_counts 32 (g_bmt_test_count (demo_registry 32)) acc
         ++ (if n >? 0
             then failed_header 32 n
                  ++ concat (map failed_line (failing (registered g')))
             else [])
         ++ summary_verdict 32 n.
Proof.
  exact (C3_failure_count_and_list 32 long_width_32 (demo_registry 32) demo_state
           demo_registry_wf demo_runnable).
Defined.

(** Witness of C4: one more registration on the full registry. *)
Lemma C4_witness :
  registry_wf (full_registry 32)
  /\ g_bmt_test_count (full_registry 32) = BMT_MAX_TEST_CASES
  /\ bmt_register_test (text "Suite") (text "OneTooMany") None (full_registry 32)
       demo_state
     = Returned (full_registry 32) (emit overflow_text demo_state).
Proof.
  split; [exact full_registry_wf|]. split; [reflexivity|].
  apply (C4_register_at_capacity (full_registry 32) (text "Suite")
           (text "OneTooMany") None demo_state full_registry_wf).
  reflexivity.
Defined.

(** Witness of C5: the first test of the demonstration registry, started
    at tick [0xFFFFFFF0] and ended at tick [5]. *)
Lemma C5_witness :
  (elapsed 0xFFFFFFF0 5 =
     if 5 >=? 0xFFFFFFF0 then 5 - 0xFFFFFFF0
     else (0xFFFFFFFF - 0xFFFFFFF0) + 5 + 1)
  /\ elapsed 0xFFFFFFF0 5 = 21
  /\ exists cases' acc' st'' tc',
       run_test 32 0 (g_bmt_test_cases (demo_registry 32)) counters_zero demo_state
         = Returned (cases', acc') st''
       /\ load cases' 0 = Some tc'
       /\ duration_ms tc' =
            (if read_ticks (test_entry (new_descriptor (demo_passing 32)) demo_state)
                >=? read_ticks demo_state
             then read_ticks (test_entry (new_descriptor (demo_passing 32)) demo_state)
                  - read_ticks demo_state
             else (0xFFFFFFFF - read_ticks demo_state)
                  + read_ticks (test_entry (new_descriptor (demo_passing 32)) demo_state)
                  + 1)
       /\ total_duration_ms acc'
          = uint32_t (total_duration_ms counters_zero + duration_ms tc').
Proof.
  apply (C5_duration 32 long_width_32 0 (g_bmt_test_cases (demo_registry 32))
           counters_zero demo_state (new_descriptor (demo_passing 32))
           (ASSERT_EQ 32 demo_file 10 1 1 (text "1") (text "1"))
           (test_entry (new_descriptor (demo_passing 32)) demo_state)
           0xFFFFFFF0 5).
  - lia.
  - lia.
  - reflexivity.
  - reflexivity.
  - left. reflexivity.
Defined.

(** Witness of C7: the three tests of the demonstration. *)
Lemma C7_witness :
  exists g,
    register_all (demo_tests 32) registry_init demo_state = Returned g demo_state
    /\ g_bmt_test_count g = Z.of_nat (length (demo_tests 32))
    /\ registered g = map new_descriptor (demo_tests 32)
    /\ length (registered g) = length (demo_tests 32)
    /\ forall st0,
         bmt_run_all_tests 32 g st0 =
           (r <- run_in_order 32 (map new_descriptor (demo_tests 32)) counters_zero ;;
            let cases' := fst r ++ drop (length (demo_tests 32)) (g_bmt_test_cases g) in
            print_summary 32 (Z.of_nat (length (demo_tests 32))) cases' (snd r) ;;
            ret (tests_failed (snd r),
                 {| g_bmt_test_cases := cases';
                    g_bmt_test_count := Z.of_nat (length (demo_tests 32)) |}))
           (emit (banner_text 32 (Z.of_nat (length (demo_tests 32)))) st0).
Proof.
  apply (C7_registration_order 32 long_width_32 (demo_tests 32) demo_state).
  vm_compute. discriminate.
Defined.

(** Witness of C10: the run of the demonstration registry. *)
Lemma C10_witness :
  exists cases' acc st1 g' st',
    run_loop 32 (Z.to_nat (g_bmt_test_count (demo_registry 32))) 0
      (g_bmt_test_cases (demo_registry 32)) counters_zero
      (emit (banner_text 32 (g_bmt_test_count (demo_registry 32))) demo_state)
      = Returned (cases', acc) st1
    /\ bmt_run_all_tests 32 (demo_registry 32) demo_state
       = Returned (tests_failed acc, g') st'
    /\ tests_passed acc + tests_failed acc = g_bmt_test_count (demo_registry 32)
    /\ 0 <= tests_failed acc <= g_bmt_test_count (demo_registry 32).
Proof.
  exact (C10_counters_partition 32 long_width_32 (demo_registry 32) demo_state
           demo_registry_wf demo_runnable).
Defined.

(** C1 (defect of the code).  The test
    [TEST(StringTests, FailingPrefixAssert)
       { ASSERT_STRNEQ("abc", "abd", 3); bmt_platform_puts("never"); }]
    is registered before [demo_passing].  Its fatal check fails, the two
    strings differing in their third character.  The report of the check
    runs into undefined behaviour in the message loop, where the first
    [%s] takes the [unsigned int] that the [%u] before it left in place:
    the report does not return, the body does not reach the [longjmp],
    and the run of the registry, which calls the body in that state, is
    undefined itself instead of going on with the second test. *)
Theorem C1_failing_STRNEQ_aborts :
  strn_equal (Some (text "abc")) (Some (text "abd")) 3 = false
  /\ registry_wf (strneq_fatal_registry 32)
  /\ registered (strneq_fatal_registry 32)
     = map new_descriptor [demo_strneq_fatal 32; demo_passing 32]
  /\ bmt_report_failure 32 demo_file 30 (text "ASSERT_STRNEQ")
       (quote ++ text "abc" ++ quote ++ text " STRNEQ(" ++ text "3"
        ++ text ") " ++ quote ++ text "abd" ++ quote)
       (Some STRNEQ_format)
       (strn_args (Some (text "abc")) (Some (text "abd")))
       (first_of_two_entry 32 (demo_strneq_fatal 32))
     = Undefined
  /\ demo_strneq_fatal_body 32 (first_of_two_entry 32 (demo_strneq_fatal 32))
     = Undefined
  /\ bmt_run_all_tests 32 (strneq_fatal_registry 32) demo_state = Undefined.
Proof.
  split; [reflexivity|]. split.
  { split; [reflexivity|]. vm_compute. split; discriminate. }
  split; [reflexivity|].
  repeat split; vm_compute; reflexivity.
Qed.

(** C2 (defect of the code).  The test
    [TEST(StringTests, FailingPrefixExpect)
       { EXPECT_STRNEQ("abc", "abd", 3); bmt_platform_puts("after"); }]
    is registered before [demo_passing] and is called, as every test,
    with the flag reset.  Its non-fatal check fails.  The report of the
    check runs into undefined behaviour in the message loop, as for
    [ASSERT_STRNEQ]: the report does not return, so that the assignment
    to the flag behind it and the statement that follows the check are
    not reached, and the run of the registry is undefined: no state is
    recorded for the test. *)
Theorem C2_failing_EXPECT_STRNEQ_aborts :
  strn_equal (Some (text "abc")) (Some (text "abd")) 3 = false
  /\ registry_wf (strneq_expect_registry 32)
  /\ registered (strneq_expect_registry 32)
     = map new_descriptor [demo_strneq_expect 32; demo_passing 32]
  /\ g_bmt_current_test_failed_expect
       (first_of_two_entry 32 (demo_strneq_expect 32)) = false
  /\ bmt_report_failure 32 demo_file 40 (text "EXPECT_STRNEQ")
       (quote ++ text "abc" ++ quote ++ text " STRNEQ(" ++ text "3"
        ++ text ") " ++ quote ++ text "abd" ++ quote)
       (Some STRNEQ_format)
       (strn_args (Some (text "abc")) (Some (text "abd")))
       (first_of_two_entry 32 (demo_strneq_expect 32))
     = Undefined
  /\ demo_strneq_expect_body 32 (first_of_two_entry 32 (demo_strneq_expect 32))
     = Undefined
  /\ bmt_run_all_tests 32 (strneq_expect_registry 32) demo_state = Undefined.
Proof.
  split; [reflexivity|]. split.
  { split; [reflexivity|]. vm_compute. split; discriminate. }
  split; [reflexivity|]. split; [reflexivity|].
  repeat split; vm_compute; reflexivity.
Qed.

(** The registry that holds the single test [demo_add_failure]. *)
Lemma add_failure_registry_wf :
  registry_wf
    (registry_of (register_all [demo_add_failure 32] registry_init demo_state)).
Proof. split; [reflexivity|]. vm_compute. split; discriminate. Qed.

(** C6 (defect of the code).  [ADD_FAILURE()] prints its report and
    returns, without [longjmp], in a state that differs from the one it
    started in by the report only: the flag of the EXPECT macros is not
    set.  The run of a registry that holds the single test
    [TEST(EdgeCasesAndBugs, OnlyAddFailure) { ADD_FAILURE(); }] returns 0
    failed tests and records the test as passed. *)
Theorem C6_add_failure_test_passes :
  let g := registry_of (register_all [demo_add_failure 32] registry_init
                          demo_state) in
  let entry := test_entry (new_descriptor (demo_add_failure 32))
                 (emit (banner_text 32 1) demo_state) in
  let run := bmt_run_all_tests 32 g demo_state in
  ADD_FAILURE 32 demo_file 200 entry
  = Returned tt
      (emit (text "main_tests.c:200: Failure" ++ CRLF
             ++ text "  ADD_FAILURE(Explicit failure triggered by ADD_FAILURE())"
             ++ CRLF) entry)
  /\ option_map fst (value_of run) = Some 0
  /\ option_map (fun r => map last_run_passed (registered (snd r)))
       (value_of run) = Some [true].
Proof. cbn zeta. repeat split; vm_compute; reflexivity. Qed.

(** C8 (defect of the code).  For [LONG_MIN] the text that [bmt_itoa]
    leaves in the buffer is the sign without any digit, with a [long] of
    32 bits and with a [long] of 64 bits; the message of a failing
    [EXPECT_EQ(LONG_MIN, 0)] shows it. *)
Theorem C8_LONG_MIN_has_no_digits :
  option_map c_string (bmt_itoa 32 (-2147483648) (char_array 12) 10)
  = Some (text "-")
  /\ option_map c_string
       (bmt_itoa 64 (-9223372036854775808) (char_array 128) 10)
     = Some (text "-")
  /\ itoa_text 32 (LONG_MIN 32) = text "-"
  /\ format_loop 32 (literal (text "Expected: %ld, Actual: %ld"))
       [VaLong (-2147483648); VaLong 0] demo_state
     = Returned ([NUL], [])
         (emit (text "Expected: -, Actual: 0") demo_state).
Proof. repeat split; vm_compute; reflexivity. Qed.

(** C9 (defect of the code).  With the message format ["100%"], the
    loop prints the [%], prints the terminator as if it were the
    directive character and then reads behind the terminator: outside
    the array when the string ends it, so that the report does not
    complete; into the characters that follow when the array is larger,
    which it prints until the next terminator. *)
Theorem C9_percent_at_end :
  format_loop 32 (literal (text "100%")) [] demo_state = Undefined
  /\ bmt_report_failure 32 demo_file 1 (text "FAIL") (text "x")
       (Some (literal (text "100%"))) [] demo_state = Undefined
  /\ format_loop 32 (literal (text "100%") ++ literal (text "next")) []
       demo_state
     = Returned ([NUL], [])
         (emit (text "100%" ++ [NUL] ++ text "next") demo_state).
Proof. repeat split; vm_compute; reflexivity. Qed.

(** The failure message of [ASSERT_STRNEQ] and [EXPECT_STRNEQ],
    [Expected first %u chars: "%s", Actual: "%s"], with its arguments, an
    [unsigned int] and two strings: [%u] is printed as it stands and its
    argument stays in place, so that the first [%s] finds an argument of
    another type. *)
Lemma strneq_message_undefined st :
  let quote := [ascii_of_nat 34] in
  format_loop 32
    (literal (text "Expected first %u chars: " ++ quote ++ text "%s"
              ++ quote ++ text ", Actual: " ++ quote ++ text "%s" ++ quote))
    [VaOther; VaStr (Some (text "abc")); VaStr (Some (text "abd"))] st
  = Undefined.
Proof. reflexivity. Qed.

(** With a [long] of 64 bits the 20 characters of [temp_buf] do not hold
    the text of a value of 19 digits with its sign and the terminator. *)
Lemma temp_buf_too_small_64 st :
  format_loop 64 (literal (text "%ld")) [VaLong (- 10 ^ 18)] st = Undefined.
Proof. reflexivity. Qed.

(** * Concrete instances of the further properties *)

(** Witness of X1: the value [-1234]. *)
Lemma itoa_text_round_trip_witness :
  parse_decimal (itoa_text 32 (-1234)) = -1234
  /\ exists ds,
       itoa_text 32 (-1234) = (if -1234 <? 0 then ["-"%char] else []) ++ ds
       /\ ds <> []
       /\ forallb is_digit ds = true
       /\ (hd_error ds = Some "0"%char <-> -1234 = 0).
Proof.
  refine (itoa_text_round_trip 32 long_width_32 (-1234) _).
  unfold LONG_MIN, LONG_MAX. lia.
Defined.

(** Witness of X2: [-45] in a buffer of eight characters. *)
Lemma bmt_itoa_buffer_witness :
  bmt_itoa 32 (-45) (char_array 8) 10
  = Some (text "-45" ++ NUL :: repeat NUL 4).
Proof.
  refine (eq_trans (bmt_itoa_buffer 32 long_width_32 (-45) (char_array 8) 10) _).
  vm_compute. reflexivity.
Defined.

(** Witness of X3: the line number 214 in [line_buf]. *)
Lemma itoa_arrays_suffice_witness :
  itoa_puts 32 12 (long 32 214) demo_state
  = Returned tt (emit (itoa_text 32 (long 32 214)) demo_state).
Proof.
  refine (proj1 (itoa_arrays_suffice 32 long_width_32 demo_state) 214 _).
  lia.
Defined.

(** Witness of X4: [%s: %ld%p] with a NULL string,
    the number [-7] and a pointer. *)
Lemma message_loop_renders_witness :
  format_loop 32 (format_of demo_directives ++ NUL :: [])
    [VaStr None; VaLong (-7); VaOther] demo_state
  = match render 32 demo_directives [VaStr None; VaLong (-7); VaOther] with
    | Some (txt, args') => Returned (NUL :: [], args') (emit txt demo_state)
    | None => Undefined
    end.
Proof.
  refine (message_loop_renders 32 long_width_32 demo_directives []
            [VaStr None; VaLong (-7); VaOther] demo_state _).
  reflexivity.
Defined.

(** Witness of X5: [ASSERT_TRUE(x > 0)] at line 7. *)
Lemma boolean_checks_witness :
  ASSERT_TRUE 32 demo_file 7 false (text "x > 0") demo_state
  = (if false then Returned tt demo_state
     else LongJmp (emit (report_head 32 demo_file 7 (text "ASSERT_TRUE")
                           (text "x > 0")) demo_state)).
Proof.
  refine (proj1 (boolean_checks 32 long_width_32 demo_file 7 false
                   (text "x > 0") demo_state _ _ _)).
  - lia.
  - reflexivity.
  - simpl. lia.
Defined.

(** Witness of X6:
    [ASSERT_EQ(4294967296, 0)] with a [long] of 32 bits. *)
Lemma ASSERT_comparisons_witness :
  ASSERT_EQ 32 demo_file 10 4294967296 0 (text "4294967296") (text "0")
    demo_state
  = (if long 32 4294967296 =? long 32 0 then Returned tt demo_state
     else LongJmp
            (emit (comparison_report 32 demo_file 10 (text "ASSERT_EQ")
                     (text "4294967296" ++ text " == " ++ text "0")
                     (text "Expected: ") (long 32 4294967296)
                     (text ", Actual: ") (long 32 0) []) demo_state)).
Proof.
  refine (proj1 (ASSERT_comparisons 32 long_width_32 demo_file 10 4294967296 0
                   (text "4294967296") (text "0") demo_state _ _ _ _ _ _)).
  - lia.
  - reflexivity.
  - reflexivity.
  - simpl. lia.
  - vm_compute. reflexivity.
  - vm_compute. reflexivity.
Defined.

(** Witness of X7: [EXPECT_EQ(1, 0)]. *)
Lemma EXPECT_comparisons_witness :
  EXPECT_EQ 32 demo_file 222 1 0 (text "1") (text "0") demo_state
  = (if long 32 1 =? long 32 0 then Returned tt demo_state
     else Returned tt
            (set_failed_expect true
               (emit (comparison_report 32 demo_file 222 (text "EXPECT_EQ")
                        (text "1" ++ text " == " ++ text "0")
                        (text "Expected: ") (long 32 1)
                        (text ", Actual: ") (long 32 0) []) demo_state))).
Proof.
  refine (proj1 (EXPECT_comparisons 32 long_width_32 demo_file 222 1 0
                   (text "1") (text "0") demo_state _ _ _ _ _ _)).
  - lia.
  - reflexivity.
  - reflexivity.
  - simpl. lia.
  - vm_compute. reflexivity.
  - vm_compute. reflexivity.
Defined.

(** Witness of X8: an expression of 239
    characters under [ASSERT_TRUE]. *)
Lemma report_buffer_bound_witness :
  bmt_report_failure 32 demo_file 7 (text "ASSERT_TRUE")
    (repeat "a"%char 239) None [] demo_state = Undefined.
Proof.
  refine (proj1 (report_buffer_bound 32 long_width_32 demo_file 7
                   (text "ASSERT_TRUE") (repeat "a"%char 239) demo_state
                   _ _ _) _ None []).
  - lia.
  - reflexivity.
  - reflexivity.
  - rewrite repeat_length. simpl. lia.
Defined.

(** Witness of X9: the report of an [ADD_FAILURE()]. *)
Lemma report_only_prints_witness :
  (exists txt, output (demo_add_failure_reported 32) = output demo_state ++ txt)
  /\ g_bmt_current_test_failed_expect (demo_add_failure_reported 32)
     = g_bmt_current_test_failed_expect demo_state
  /\ tick_reads (demo_add_failure_reported 32) = tick_reads demo_state
  /\ tick_source (demo_add_failure_reported 32) = tick_source demo_state.
Proof.
  refine (proj2 (report_only_prints 32 long_width_32 demo_file 200
                   (text "ADD_FAILURE")
                   (text "Explicit failure triggered by ADD_FAILURE()")
                   None [] demo_state) (demo_add_failure_reported 32) _).
  vm_compute. reflexivity.
Defined.

(** Witness of X10: ["abc"] against ["abd"], three
    characters. *)
Lemma STRN_checks_witness :
  ASSERT_STRNEQ 32 demo_file 7 (Some (text "abc")) (Some (text "abd")) 3
    (text "s1") (text "s2") (text "3") demo_state
  = (if strn_equal (Some (text "abc")) (Some (text "abd")) 3
     then Returned tt demo_state else Undefined).
Proof.
  exact (proj1 (STRN_checks 32 long_width_32 demo_file 7 (Some (text "abc"))
                  (Some (text "abd")) 3 (text "s1") (text "s2") (text "3")
                  demo_state)).
Defined.

(** Witness of X12: the name [Suite] in a fresh array. *)
Lemma write_name_spec_witness :
  exists name',
    write_name (char_array 64) (literal (text "Suite")) BMT_MAX_TEST_NAME_LEN
      = Some name'
    /\ write_name (char_array 64) (literal (text "Suite")) BMT_MAX_SUITE_NAME_LEN
      = Some name'
    /\ length name' = 64%nat
    /\ c_string name'
       = copy_name (c_string (literal (text "Suite"))) BMT_MAX_TEST_NAME_LEN
    /\ c_string name' = take 63 (c_string (literal (text "Suite")))
    /\ (length (c_string name') <= 63)%nat
    /\ ((length (c_string (literal (text "Suite"))) <= 63)%nat ->
        c_string name' = c_string (literal (text "Suite"))).
Proof.
  refine (write_name_spec (char_array 64) (literal (text "Suite")) _).
  reflexivity.
Defined.

Lemma null_registry_wf : registry_wf null_registry.
Proof. split; [reflexivity|]. vm_compute. split; discriminate. Qed.

(** Witness of X13: a registry whose only test has no function. *)
Lemma null_test_function_witness :
  bmt_run_all_tests 32 null_registry demo_state = Undefined.
Proof.
  refine (null_test_function 32 long_width_32 null_registry demo_state
            null_registry_wf _).
  apply Exists_cons_hd. reflexivity.
Defined.

Lemma demo_registry_stale_wf : registry_wf (demo_registry_stale 32).
Proof. split; [reflexivity|]. vm_compute. split; discriminate. Qed.

Lemma demo_registry_stale_same :
  Forall2 same_test (registered (demo_registry 32))
    (registered (demo_registry_stale 32)).
Proof.
  rewrite demo_registered.
  change (registered (demo_registry_stale 32))
    with (map (fun tc => record_test tc true 7)
            (map new_descriptor (demo_tests 32))).
  repeat constructor.
Qed.

(** Witness of X14: the demonstration registry, fresh and with stale results. *)
Lemma run_forgets_earlier_results_witness :
  (bmt_run_all_tests 32 (demo_registry 32) demo_state = Undefined
   <-> bmt_run_all_tests 32 (demo_registry_stale 32) demo_state = Undefined)
  /\ (forall n g1' st',
        bmt_run_all_tests 32 (demo_registry 32) demo_state
          = Returned (n, g1') st' ->
        exists g2',
          bmt_run_all_tests 32 (demo_registry_stale 32) demo_state
            = Returned (n, g2') st'
          /\ registered g2' = registered g1').
Proof.
  exact (run_forgets_earlier_results 32 long_width_32 (demo_registry 32)
           (demo_registry_stale 32) demo_state demo_registry_wf
           demo_registry_stale_wf demo_registry_stale_same).
Defined.


(** Witness of X16: from [0xFFFFFFF0] to [5]. *)
Lemma elapsed_is_difference_witness :
  elapsed 0xFFFFFFF0 5 = (5 - 0xFFFFFFF0) mod 2 ^ 32
  /\ (elapsed 0xFFFFFFF0 5 = 0 <-> 5 = 0xFFFFFFF0)
  /\ (forall mid_ticks, 0 <= mid_ticks < 2 ^ 32 ->
        uint32_t (elapsed 0xFFFFFFF0 mid_ticks + elapsed mid_ticks 5)
        = elapsed 0xFFFFFFF0 5)
  /\ elapsed (zynq7000_get_msec_ticks 0xFFFFFFF0) (zynq7000_get_msec_ticks 5)
     = (0xFFFFFFF0 - 5) mod 2 ^ 32.
Proof.
  refine (elapsed_is_difference 0xFFFFFFF0 5 _ _); lia.
Defined.


(** Witness of X18: the demonstration registry. *)
Lemma run_keeps_registry_witness :
  exists n g' st',
    bmt_run_all_tests 32 (demo_registry 32) demo_state = Returned (n, g') st'
    /\ g_bmt_test_count g' = g_bmt_test_count (demo_registry 32)
    /\ length (g_bmt_test_cases g') = length (g_bmt_test_cases (demo_registry 32))
    /\ drop (Z.to_nat (g_bmt_test_count (demo_registry 32))) (g_bmt_test_cases g')
       = drop (Z.to_nat (g_bmt_test_count (demo_registry 32)))
           (g_bmt_test_cases (demo_registry 32))
    /\ Forall2 same_test (registered (demo_registry 32)) (registered g')
    /\ registry_wf g'
    /\ Forall runnable (registered g')
    /\ forall st0, exists n2 g2 st2,
         bmt_run_all_tests 32 g' st0 = Returned (n2, g2) st2.
Proof.
  exact (run_keeps_registry 32 long_width_32 (demo_registry 32) demo_state
           demo_registry_wf demo_runnable).
Defined.

(** Witness of X19: the demonstration registry. *)
Lemma run_totals_witness :
  exists n g' acc st1 st',
    bmt_run_all_tests 32 (demo_registry 32) demo_state = Returned (n, g') st'
    /\ output st'
       = output st1
         ++ summary_text 32 (g_bmt_test_count (demo_registry 32))
              (registered g') acc
    /\ Forall (fun tc => 0 <= duration_ms tc < 2 ^ 32) (registered g')
    /\ total_duration_ms acc = sum_durations (registered g') mod 2 ^ 32
    /\ tests_passed acc = Z.of_nat (length (passing (registered g')))
    /\ tests_failed acc = n.
Proof.
  exact (run_totals 32 long_width_32 (demo_registry 32) demo_state
           demo_registry_wf demo_runnable).
Defined.

(** Witness of X20: a report with the format [%s: %ld%p]. *)
Lemma report_renders_witness :
  bmt_report_failure 32 demo_file 7 (text "ASSERT_TRUE") (text "x > 0")
    (Some (literal (format_of demo_directives)))
    [VaStr None; VaLong (-7); VaOther] demo_state
  = Returned tt
      (emit (demo_file ++ [":"%char] ++ itoa_text 32 (long 32 7)
             ++ text ": Failure" ++ CRLF
             ++ text "  " ++ text "ASSERT_TRUE" ++ text "(" ++ text "x > 0"
             ++ text ")" ++ CRLF
             ++ text "    Message: " ++ text "(null): -7%p" ++ CRLF)
         demo_state).
Proof.
  refine (report_renders 32 long_width_32 demo_file 7 (text "ASSERT_TRUE")
            (text "x > 0") demo_directives [VaStr None; VaLong (-7); VaOther]
            (text "(null): -7%p") [VaOther] demo_state _ _ _ _ _ _).
  - lia.
  - reflexivity.
  - reflexivity.
  - simpl. lia.
  - reflexivity.
  - vm_compute. reflexivity.
Defined.

(** Witness of X21: [ASSERT_STREQ(name, NULL)] where [name] is ["abc"]. *)
Lemma STR_checks_witness :
  ASSERT_STREQ 32 demo_file 7 (Some (text "abc")) None (text "name")
    (text "NULL") demo_state
  = (if str_equal (Some (text "abc")) None then Returned tt demo_state
     else LongJmp
            (emit (report_head 32 demo_file 7 (text "ASSERT_STREQ")
                     (text "name" ++ text " STREQ " ++ text "NULL")
                   ++ message_line
                        (text "Expected: " ++ quote
                         ++ or_NULL (Some (text "abc")) ++ quote
                         ++ text ", Actual: " ++ quote ++ or_NULL None
                         ++ quote)) demo_state)).
Proof.
  refine (proj1 (STR_checks 32 long_width_32 demo_file 7 (Some (text "abc"))
                   None (text "name") (text "NULL") demo_state _ _ _ _)).
  - lia.
  - reflexivity.
  - reflexivity.
  - simpl. lia.
Defined.

(** Witness of X22: a failing [ASSERT_NULL(p)]. *)
Lemma checks_with_unprinted_values_witness :
  ASSERT_NULL 32 demo_file 7 false (text "p") demo_state
  = (if false then Returned tt demo_state
     else LongJmp
            (emit (report_head 32 demo_file 7 (text "ASSERT_NULL")
                     (text "p" ++ text " == NULL")
                   ++ message_line (text "Actual: %p")) demo_state)).
Proof.
  refine (proj1 (checks_with_unprinted_values 32 long_width_32 demo_file 7
                   false (text "p") (text "a") (text "b") demo_state
                   _ _ _ _ _)).
  - lia.
  - reflexivity.
  - reflexivity.
  - reflexivity.
  - simpl. lia.
Defined.

(** Witness of X23: the first test of the demonstration registry. *)
Lemma test_transcript_witness :
  output (demo_passing_entry 32)
    = output demo_state ++ text "[ RUN      ] "
      ++ suite_name (demo_passing_tc 32) ++ ["."%char]
      ++ test_name (demo_passing_tc 32) ++ CRLF
  /\ g_bmt_current_test_failed_expect (demo_passing_entry 32) = false
  /\ tick_reads (demo_passing_entry 32) = S (tick_reads demo_state)
  /\ exists cases' acc' st'',
       run_test 32 0 (g_bmt_test_cases (demo_registry 32)) counters_zero
         demo_state = Returned (cases', acc') st''
       /\ output st''
          = output (demo_passing_entry 32)
            ++ (if true
                   && negb (g_bmt_current_test_failed_expect
                              (demo_passing_entry 32))
                then text "[       OK ] " else text "[  FAILED  ] ")
            ++ suite_name (demo_passing_tc 32) ++ ["."%char]
            ++ test_name (demo_passing_tc 32) ++ text " ("
            ++ itoa_text 32
                 (long 32 (elapsed (read_ticks demo_state)
                             (read_ticks (demo_passing_entry 32))))
            ++ text " ms)" ++ CRLF
       /\ tick_reads st'' = S (tick_reads (demo_passing_entry 32))
       /\ g_bmt_current_test_failed_expect st''
          = g_bmt_current_test_failed_expect (demo_passing_entry 32).
Proof.
  refine (test_transcript 32 long_width_32 0
            (g_bmt_test_cases (demo_registry 32)) counters_zero demo_state
            (demo_passing_tc 32)
            (ASSERT_EQ 32 demo_file 10 1 1 (text "1") (text "1")) true
            (demo_passing_entry 32) _ _ _).
  - reflexivity.
  - reflexivity.
  - vm_compute. constructor.
Defined.

(** Witness of X25: the number 97. *)
Lemma is_prime_correct_witness :
  exists b, is_prime 97 = Some b /\ (b = true <-> Z.prime 97).
Proof.
  refine (is_prime_correct 97 _). lia.
Defined.

Lemma prime_4294967291 : Z.prime 4294967291.
Proof.
  apply (prime_by_trial_division (Z.to_nat 65535)); [lia|lia|].
  vm_compute. reflexivity.
Qed.

(** Witness of X26: the largest prime below [2^32]. *)
Lemma is_prime_wraps_witness : is_prime 4294967291 = Some false.
Proof.
  refine (is_prime_wraps 4294967291 _ prime_4294967291). lia.
Defined.
